(** * BookFlix: the Express request handlers of [server/routes.js] and the
    pages of [client/src] that call them

    A shallow embedding of the backend of BookFlix.  Every handler of
    [routes.js] is a function from the request values it reads to an
    [action]: either an immediate response, or one SQL statement together
    with the callback that turns the statement's outcome into a response.
    The statements that the properties below look into (login, signup, book
    details, the two adaptation look-ups and the outlier report) are given a
    relational semantics over the tables they read; the rows of the remaining
    SELECT statements are computed by an uninterpreted [engine]; [Reports]
    interprets those of them that match no pattern.  The handlers of the
    pages ([Pages], [AdaptationsPage]) are functions on the state of the
    page, composed with the handlers of the routes their requests reach.

    Conventions of the embedding:
    - a table is the list of its rows, in scan order, and a join or a group
      meets its rows in that order; columns are NOT NULL unless an outer join
      or an aggregate makes them nullable;
    - ratings, their averages and the z-scores are [float8] (the dashboard
      calls [toFixed] on them): a value is the rational that the double is,
      and [Float8] rounds every sum, difference and quotient to the nearest
      double as the server does;
    - a numeric path or query value ([book_id]) is carried as the integer its
      text denotes, a free-text value as the string itself;
    - all statements but those of [signup] and [login] are texts into which
      [routes.js] writes the request values: a statement holds those values,
      and [Sql.parse] tells how the server reads the text they make, which
      need not be the statement that was meant;
    - ORDER BY is a stable sort, texts are ordered by code unit. *)

From Stdlib Require Import List String Ascii ZArith QArith Qabs Bool Lia.
From Stdlib Require Import Permutation Sorted.
From Stdlib Require Import DecimalString.
Import ListNotations.
Local Open Scope string_scope.
Local Open Scope Z_scope.
#[local] Set Warnings "-register-all".

(* ================================================================== *)
(** ** JavaScript values *)

Module Js.

Inductive value : Type :=
| Undefined
| Null
| Bool (b : bool)
| Num (q : Q)
| Str (s : string)
| Arr (items : list value)
| Obj (props : list (string * value)).

(** [a === b].  Two object or array values met here never are one
    reference, so they are never strictly equal. *)
Definition strict_eq (a b : value) : bool :=
  match a, b with
  | Undefined, Undefined => true
  | Null, Null => true
  | Bool x, Bool y => Bool.eqb x y
  | Num x, Num y => Qeq_bool x y
  | Str x, Str y => String.eqb x y
  | _, _ => false
  end.

(** [o[name]] on a plain object; a missing property reads [undefined]. *)
Fixpoint lookup (name : string) (props : list (string * value)) : value :=
  match props with
  | [] => Undefined
  | (k, v) :: rest => if String.eqb k name then v else lookup name rest
  end.

Definition get (o : value) (name : string) : value :=
  match o with
  | Obj props => lookup name props
  | _ => Undefined
  end.

Fixpoint has_key (name : string) (props : list (string * value)) : bool :=
  match props with
  | [] => false
  | (k, _) :: rest => String.eqb k name || has_key name rest
  end.

(** [o.hasOwnProperty(name)] *)
Definition has_property (o : value) (name : string) : bool :=
  match o with
  | Obj props => has_key name props
  | _ => false
  end.

(** A value of [req.query] or [req.body] as the handlers meet it: absent
    ([undefined]), JSON [null], or a string. *)
Inductive field : Type :=
| Absent
| IsNull
| Text (s : string).

Definition of_field (f : field) : value :=
  match f with
  | Absent => Undefined
  | IsNull => Null
  | Text s => Str s
  end.

(** [x ?? d] on a query value. *)
Definition nullish (x : option string) (d : string) : string :=
  match x with
  | Some s => s
  | None => d
  end.

(** [a < b] between two query values.  Both strings: the comparison is
    lexicographic, by code unit.  Otherwise [undefined] is converted to
    NaN and the comparison is false. *)
Definition lt (a b : option string) : bool :=
  match a, b with
  | Some x, Some y => String.ltb x y
  | _, _ => false
  end.

(** Truthiness of a query value: [undefined] and [''] are falsy. *)
Definition truthy (x : option string) : bool :=
  match x with
  | Some s => negb (String.eqb s "")
  | None => false
  end.

End Js.

(* ================================================================== *)
(** ** Double precision ([float8])

    A double is carried as the rational it is; [round] takes a rational to
    the nearest double, the one with the even significand of two equally
    near (IEEE 754 binary64: 53 bits, exponents -1074 .. 971 of the last
    place). *)

Module Float8.

(** [2 ^ e], for any integer [e] *)
Definition pow2 (e : Z) : Q :=
  if 0 <=? e then inject_Z (2 ^ e) else 1 # Z.to_pos (2 ^ (- e)).

(** The integer part of the binary logarithm of a positive rational. *)
Definition log2_floor (q : Q) : Z :=
  let k := Z.log2 (Qnum q) - Z.log2 (Z.pos (Qden q)) in
  if Qle_bool (pow2 k) q then k else k - 1.

(** The integer nearest to a rational that is not negative; of two equally
    near, the even one. *)
Definition nearest_even (q : Q) : Z :=
  let n := Qnum q in
  let d := Z.pos (Qden q) in
  match 2 * (n mod d) ?= d with
  | Lt => n / d
  | Gt => n / d + 1
  | Eq => if Z.even (n / d) then n / d else n / d + 1
  end.

(** The exponent of the last place of the double nearest to a positive
    rational: 52 below its leading bit, and -1074 for the subnormal ones. *)
Definition last_place (q : Q) : Z := Z.max (-1074) (log2_floor q - 52).

Definition nearest (q : Q) : Q :=
  let e := last_place q in
  (inject_Z (nearest_even (q / pow2 e)) * pow2 e)%Q.

(** The double nearest to [q], in lowest terms.  Beyond the largest double
    it is [2 ^ 1024] or more, which [overflows] tells. *)
Definition round (q : Q) : Q :=
  match Qcompare q 0 with
  | Eq => 0%Q
  | Gt => Qred (nearest q)
  | Lt => Qred (- nearest (- q))
  end.

Definition overflows (q : Q) : bool := Qle_bool (pow2 1024) (Qabs q).

(** [float8mi]: [a - b]; the server raises an error on overflow ([None]). *)
Definition mi (a b : Q) : option Q :=
  let r := round (a - b) in
  if overflows r then None else Some r.

(** [float8div]: [a / b]; the server raises an error on division by zero,
    on overflow, and when a quotient of a non-zero [a] rounds to zero. *)
Definition div (a b : Q) : option Q :=
  if Qeq_bool b 0 then None
  else
    let r := round (a / b) in
    if overflows r then None
    else if Qeq_bool r 0 && negb (Qeq_bool a 0) then None
    else Some r.

End Float8.

(* ================================================================== *)
(** ** Relational operators *)

Module Rel.

Section Joins.
Context {A B : Type}.

(** [l JOIN r ON on] *)
Definition join (on : A -> B -> bool) (l : list A) (r : list B)
  : list (A * B) :=
  flat_map (fun a => map (pair a) (filter (on a) r)) l.

(** [l LEFT JOIN r ON on]: a left row without a partner is kept once,
    with NULLs on the right. *)
Definition left_join (on : A -> B -> bool) (l : list A) (r : list B)
  : list (A * option B) :=
  flat_map (fun a =>
              match filter (on a) r with
              | [] => [(a, None)]
              | bs => map (fun b => (a, Some b)) bs
              end) l.

(** [l CROSS JOIN r] *)
Definition cross_join (l : list A) (r : list B) : list (A * B) :=
  join (fun _ _ => true) l r.

End Joins.

Section GroupBy.
Context {A K : Type} (same : K -> K -> bool).

(** The distinct keys of a column, in order of first occurrence. *)
Fixpoint distinct (ks : list K) : list K :=
  match ks with
  | [] => []
  | k :: rest => k :: filter (fun k' => negb (same k k')) (distinct rest)
  end.

(** [GROUP BY key]: one group per distinct key, holding the rows with
    that key. *)
Definition group_by (key : A -> K) (l : list A) : list (K * list A) :=
  map (fun k => (k, filter (fun a => same k (key a)) l))
      (distinct (map key l)).

End GroupBy.

Section OrderBy.
Context {A : Type} (before : A -> A -> bool).

(** Stable insertion: a new row goes in front of the first row it may
    precede. *)
Fixpoint insert (x : A) (l : list A) : list A :=
  match l with
  | [] => [x]
  | y :: rest => if before x y then x :: y :: rest else y :: insert x rest
  end.

(** [ORDER BY]: [before x y] says that [x] may stand in front of [y]. *)
Fixpoint order_by (l : list A) : list A :=
  match l with
  | [] => []
  | x :: rest => insert x (order_by rest)
  end.

End OrderBy.

(** [LIMIT n] *)
Definition limit {A : Type} (n : nat) (l : list A) : list A := firstn n l.

(** [AVG] over a [float8] column: the server adds the values one after the
    other to a double, and divides that sum by their number; [AVG] of no row
    is NULL.  Ratings are taken small enough for the sum not to overflow. *)
Definition total (l : list Q) : Q :=
  fold_left (fun sum x => Float8.round (sum + x)) l 0%Q.

Definition avg (l : list Q) : option Q :=
  match l with
  | [] => None
  | _ => Some (Float8.round (total l / inject_Z (Z.of_nat (List.length l))))
  end.

End Rel.

(* ================================================================== *)
(** ** The database *)

Module Db.

(** [login (username, password)] *)
Record login_row := { username : string; password : string }.

(** [books_data] *)
Record book := {
  book_id : Z;
  title : string;
  description : string;
  image_link : string;
  publisher : string;
  published_date : string
}.

(** [books_authors], [books_genres] *)
Record author_row := { author_book_id : Z; author_name : string }.
Record genre_row := { genre_book_id : Z; genre_name : string }.

(** [books_rating]: one row per review *)
Record review_row := {
  review_book_id : Z;
  rating : Q;
  review : string;
  reviewer_profile_name : string;
  total_votes : Z
}.

(** [books_movies_map]: the adaptation pairs *)
Record mapping := { map_book_id : Z; map_tconst : string }.

(** [movies_metadata] *)
Record movie := {
  tconst : string;
  primarytitle : string;
  originaltitle : string;
  isadult : bool;
  runtimeminutes : Z
}.

(** [movies_ratings], [movies_genres] *)
Record movie_rating := { movie_id : string; averagerating : Q; numvotes : Z }.
Record movie_genre := { genre_movie_id : string; genre : string }.

(** The views [BookStats] and [MovieStats] are created outside the
    repository; the outlier report reads these two columns of them. *)
Record stats := { avg_rating : Q; stddev_rating : Q }.

(** The other views the dashboard reads, with the columns it names. *)
Record top_movie := {
  top_genre : string;
  top_primarytitle : string;
  top_averagerating : Q;
  top_rank : Z
}.
Record review_movie_stat := { label : string }.
Record positive_book := {
  pb_book_id : Z;
  positive_review_count : Z;
  pb_avg_book_rating : Q
}.
Record low_rated_movie := {
  lm_tconst : string;
  lm_movie_title : string;
  lm_avg_movie_rating : Q
}.

(** A database state.  [reachable] says whether the pool gets a statement
    through to the server at all. *)
Record state := {
  login : list login_row;
  books_data : list book;
  books_authors : list author_row;
  books_genres : list genre_row;
  books_rating : list review_row;
  books_movies_map : list mapping;
  movies_metadata : list movie;
  movies_ratings : list movie_rating;
  movies_genres : list movie_genre;
  BookStats : list stats;
  MovieStats : list stats;
  mv_top_movies_by_genre : list top_movie;
  ReviewMovieStats2 : list review_movie_stat;
  mv_positive_books2 : list positive_book;
  mv_low_rated_movies : list low_rated_movie;
  reachable : bool
}.

Definition with_login (d : state) (l : list login_row) : state :=
  {| login := l;
     books_data := books_data d;
     books_authors := books_authors d;
     books_genres := books_genres d;
     books_rating := books_rating d;
     books_movies_map := books_movies_map d;
     movies_metadata := movies_metadata d;
     movies_ratings := movies_ratings d;
     movies_genres := movies_genres d;
     BookStats := BookStats d;
     MovieStats := MovieStats d;
     mv_top_movies_by_genre := mv_top_movies_by_genre d;
     ReviewMovieStats2 := ReviewMovieStats2 d;
     mv_positive_books2 := mv_positive_books2 d;
     mv_low_rated_movies := mv_low_rated_movies d;
     reachable := reachable d |}.

Definition book_eqb (a b : book) : bool :=
  (book_id a =? book_id b)
  && String.eqb (title a) (title b)
  && String.eqb (description a) (description b)
  && String.eqb (image_link a) (image_link b)
  && String.eqb (publisher a) (publisher b)
  && String.eqb (published_date a) (published_date b).

End Db.

(* ================================================================== *)
(** ** Statements and their outcomes *)

Module Sql.
Import Db.

(** The SELECT statements of [routes.js], each with the request values its
    text interpolates (or passes as [$1]).  After [parse], a statement holds
    the values as the server has read them. *)
Inductive select : Type :=
| Sel_login (username : Js.field)
| Sel_search_books (bookTitle authorName genreName yearLow yearHigh : string)
| Sel_movies_details (movieTitle : string)
| Sel_movies_details_with_id (tconst : string)
| Sel_search_movies (movieTitle isAdult genre : string)
    (minRunTimeMinutes maxRunTimeMinutes minRating maxRating : string)
| Sel_book_details (book_id : Z)
| Sel_book_reviews (book_id : option Z) (minRating maxRating : string)
| Sel_top_authors
| Sel_book_adaptations (tconst : string)
| Sel_movie_adaptations (book_id : Z)
| Sel_top_movies_by_genre
| Sel_correlation
| Sel_positive_vs_low
| Sel_outliers.

Inductive statement : Type :=
| Insert_login (username pw : Js.field)
| Select (q : select).

(** What node-postgres hands to the callback as [data]: a [Result] object.
    It has [rows], [rowCount], [command] (and parser internals), and no
    [length]. *)
Record result := { rows : list Js.value; rowCount : Z; command : string }.

Definition result_get (data : result) (name : string) : Js.value :=
  if String.eqb name "rows" then Js.Arr (rows data)
  else if String.eqb name "rowCount" then Js.Num (inject_Z (rowCount data))
  else if String.eqb name "command" then Js.Str (command data)
  else Js.Undefined.

(** The two arguments [(err, data)] of a query callback.  For a text that
    holds several statements, all carried out, [data] is an array with one
    result object per statement: it has a [length] of two or more, and no
    [rows]. *)
Inductive outcome : Type :=
| Failed
| Done (data : result)
| Several.

Definition selected (rs : list Js.value) : outcome :=
  Done {| rows := rs; rowCount := Z.of_nat (List.length rs); command := "SELECT" |}.

Definition num (z : Z) : Js.value := Js.Num (inject_Z z).

Definition nullable (q : option Q) : Js.value :=
  match q with
  | Some x => Js.Num x
  | None => Js.Null
  end.

(** *** [SELECT * FROM login WHERE username = $1] *)

Definition login_to_js (r : login_row) : Js.value :=
  Js.Obj [("username", Js.Str (username r)); ("password", Js.Str (password r))].

(** An absent or null parameter is sent as NULL, and [username = NULL]
    holds of no row. *)
Definition select_login (d : state) (u : Js.field) : list login_row :=
  match u with
  | Js.Text name => filter (fun r => String.eqb (username r) name) (login d)
  | _ => []
  end.

(** *** The book details statement *)

Definition details_to_js (g : book * list (book * author_row)) : Js.value :=
  let bd := fst g in
  Js.Obj [("book_id", num (book_id bd));
          ("book_title", Js.Str (title bd));
          ("book_description", Js.Str (description bd));
          ("book_image_link", Js.Str (image_link bd));
          ("book_publisher_name", Js.Str (publisher bd));
          ("book_published_date", Js.Str (published_date bd));
          ("authors",
           Js.Str (String.concat ", "
                     (Rel.order_by String.leb
                        (map (fun p => author_name (snd p)) (snd g)))))].

Definition book_details_groups (d : state) (id : Z)
  : list (book * list (book * author_row)) :=
  Rel.group_by book_eqb fst
    (filter (fun p => book_id (fst p) =? id)
       (Rel.join (fun bd ba => book_id bd =? author_book_id ba)
          (books_data d) (books_authors d))).

(** The rows of the statement for a [book_id] that the column holds. *)
Definition select_book_details (d : state) (id : Z) : list Js.value :=
  map details_to_js (book_details_groups d id).

(** *** The adaptation statements *)

(** The CTE [AverageBookRating]: [book_id], [AVG(rating)] per [book_id]. *)
Definition average_book_rating (reviews : list review_row)
  : list (Z * option Q) :=
  map (fun g => (fst g, Rel.avg (map rating (snd g))))
      (Rel.group_by Z.eqb review_book_id reviews).

Definition avg_book_rating (abr : option (Z * option Q)) : Js.value :=
  match abr with
  | Some (_, a) => nullable a
  | None => Js.Null
  end.

Definition avg_movie_rating (mr : option movie_rating) : Js.value :=
  match mr with
  | Some r => Js.Num (averagerating r)
  | None => Js.Null
  end.

(** A row of the FROM clause of [get_book_adaptations_for_movie]:
    [m], [bm], [b], [abr], [mr]. *)
Definition movie_side : Type :=
  (((movie * mapping) * book) * option (Z * option Q)) * option movie_rating.

Definition ms_movie (x : movie_side) : movie := fst (fst (fst (fst x))).
Definition ms_book (x : movie_side) : book := snd (fst (fst x)).
Definition ms_abr (x : movie_side) : option (Z * option Q) := snd (fst x).
Definition ms_rating (x : movie_side) : option movie_rating := snd x.

Definition movie_side_from (d : state) : list movie_side :=
  Rel.left_join (fun x mr => String.eqb (tconst (fst (fst (fst x)))) (movie_id mr))
    (Rel.left_join (fun x abr => book_id (snd x) =? fst abr)
       (Rel.join (fun x b => book_id b =? map_book_id (snd x))
          (Rel.join (fun m bm => String.eqb (tconst m) (map_tconst bm))
             (movies_metadata d) (books_movies_map d))
          (books_data d))
       (average_book_rating (books_rating d)))
    (movies_ratings d).

Definition movie_side_to_js (x : movie_side) : Js.value :=
  Js.Obj [("book_id", num (book_id (ms_book x)));
          ("book_title", Js.Str (title (ms_book x)));
          ("book_rating", avg_book_rating (ms_abr x));
          ("movie_title", Js.Str (primarytitle (ms_movie x)));
          ("avg_movie_rating", avg_movie_rating (ms_rating x));
          ("is_movie_adult", Js.Bool (isadult (ms_movie x)))].

(** [WHERE m.tconst = '...' ORDER BY m.runtimeminutes DESC LIMIT 1], for
    the text [t] that the literal denotes *)
Definition book_adaptations (d : state) (t : string) : list movie_side :=
  Rel.limit 1
    (Rel.order_by
       (fun x y => runtimeminutes (ms_movie y) <=? runtimeminutes (ms_movie x))
       (filter (fun x => String.eqb (tconst (ms_movie x)) t) (movie_side_from d))).

(** The same statement with a WHERE clause that holds of every row. *)
Definition any_book_adaptation (d : state) : list movie_side :=
  Rel.limit 1
    (Rel.order_by
       (fun x y => runtimeminutes (ms_movie y) <=? runtimeminutes (ms_movie x))
       (movie_side_from d)).

(** A row of the FROM clause of [get_movie_adaptations_for_book]:
    [b], [bm], [m], [abr], [mr]. *)
Definition book_side : Type :=
  (((book * mapping) * movie) * option (Z * option Q)) * option movie_rating.

Definition bs_book (x : book_side) : book := fst (fst (fst (fst x))).
Definition bs_movie (x : book_side) : movie := snd (fst (fst x)).
Definition bs_abr (x : book_side) : option (Z * option Q) := snd (fst x).
Definition bs_rating (x : book_side) : option movie_rating := snd x.

Definition book_side_from (d : state) (id : Z) : list book_side :=
  Rel.left_join (fun x mr => String.eqb (tconst (snd (fst x))) (movie_id mr))
    (Rel.left_join (fun x abr => book_id (fst (fst x)) =? fst abr)
       (Rel.join (fun x m => String.eqb (map_tconst (snd x)) (tconst m))
          (Rel.join (fun b bm => book_id b =? map_book_id bm)
             (books_data d) (books_movies_map d))
          (movies_metadata d))
       (average_book_rating
          (filter (fun r => review_book_id r =? id) (books_rating d))))
    (movies_ratings d).

Definition book_side_to_js (x : book_side) : Js.value :=
  Js.Obj [("book_title", Js.Str (title (bs_book x)));
          ("book_description", Js.Str (description (bs_book x)));
          ("book_image_link", Js.Str (image_link (bs_book x)));
          ("book_publisher_name", Js.Str (publisher (bs_book x)));
          ("book_published_date", Js.Str (published_date (bs_book x)));
          ("book_average_rating", avg_book_rating (bs_abr x));
          ("movie_title", Js.Str (primarytitle (bs_movie x)));
          ("avg_movie_rating", avg_movie_rating (bs_rating x));
          ("is_movie_adult", Js.Bool (isadult (bs_movie x)));
          ("movie_id", Js.Str (tconst (bs_movie x)))].

(** [WHERE b.book_id = ... ORDER BY m.runtimeminutes DESC LIMIT 1] *)
Definition movie_adaptations (d : state) (id : Z) : list book_side :=
  Rel.limit 1
    (Rel.order_by
       (fun x y => runtimeminutes (bs_movie y) <=? runtimeminutes (bs_movie x))
       (filter (fun x => book_id (bs_book x) =? id) (book_side_from d id))).

(** *** The outlier report *)

(** A rated title next to a row of the statistics view: [title],
    the rating, [avg_rating], [stddev_rating]. *)
Definition observation : Type := (string * Q) * stats.

Definition obs_title (o : observation) : string := fst (fst o).
Definition obs_rating (o : observation) : Q := snd (fst o).

(** [FROM books_rating br JOIN books_data bd ON br.book_id = bd.book_id
     CROSS JOIN BookStats bs] *)
Definition book_observations (d : state) : list observation :=
  map (fun x => ((title (snd (fst x)), rating (fst (fst x))), snd x))
      (Rel.cross_join
         (Rel.join (fun br bd => review_book_id br =? book_id bd)
            (books_rating d) (books_data d))
         (BookStats d)).

(** [FROM movies_ratings mr JOIN movies_metadata mm ON mr.movie_id = mm.tconst
     CROSS JOIN MovieStats ms] *)
Definition movie_observations (d : state) : list observation :=
  map (fun x => ((primarytitle (snd (fst x)), averagerating (fst (fst x))), snd x))
      (Rel.cross_join
         (Rel.join (fun mr mm => String.eqb (movie_id mr) (tconst mm))
            (movies_ratings d) (movies_metadata d))
         (MovieStats d)).

(** The grouping columns: the title and the two statistics. *)
Definition stat_key : Type := (string * Q) * Q.

Definition key_of (o : observation) : stat_key :=
  ((obs_title o, avg_rating (snd o)), stddev_rating (snd o)).

Definition same_key (a b : stat_key) : bool :=
  String.eqb (fst (fst a)) (fst (fst b))
  && Qeq_bool (snd (fst a)) (snd (fst b))
  && Qeq_bool (snd a) (snd b).

(** A numeric expression either raises (division by zero, overflow,
    underflow) or has a value, which may be NULL. *)
Inductive computed : Type :=
| Raises
| Value (v : option Q).

(** [(AVG(rating) - avg_rating) / stddev_rating], in double precision *)
Definition z_score (a : option Q) (mean sd : Q) : computed :=
  match a with
  | None => Value None
  | Some x =>
      match Float8.mi x mean with
      | None => Raises
      | Some difference =>
          match Float8.div difference sd with
          | None => Raises
          | Some z => Value (Some z)
          end
      end
  end.

(** An output row of [BookOutliers] or [MovieOutliers]. *)
Record outlier := { o_title : string; o_avg : option Q; o_z : Q }.

(** [ABS(z) > 2] *)
Definition exceeds_two (z : Q) : bool := negb (Qle_bool (Qabs z) 2).

(** [HAVING ABS(...) > 2] and the SELECT list, group by group; an error in
    any group fails the statement. *)
Fixpoint having_outliers (groups : list (stat_key * list observation))
  : option (list outlier) :=
  match groups with
  | [] => Some []
  | (k, g) :: rest =>
      let a := Rel.avg (map obs_rating g) in
      match z_score a (snd (fst k)) (snd k), having_outliers rest with
      | Raises, _ => None
      | _, None => None
      | Value None, Some out => Some out
      | Value (Some z), Some out =>
          if exceeds_two z
          then Some ({| o_title := fst (fst k); o_avg := a; o_z := z |} :: out)
          else Some out
      end
  end.

Definition outliers_of (obs : list observation) : option (list outlier) :=
  having_outliers (Rel.group_by same_key key_of obs).

Definition outlier_to_js (e : string * outlier) : Js.value :=
  Js.Obj [("media_type", Js.Str (fst e));
          ("media_title", Js.Str (o_title (snd e)));
          ("avg_rating", nullable (o_avg (snd e)));
          ("z_score", Js.Num (o_z (snd e)))].

(** [SELECT 'Book' ... UNION ALL SELECT 'Movie' ...] *)
Definition union_all (books movies : list outlier) : list (string * outlier) :=
  map (pair "Book") books ++ map (pair "Movie") movies.

(** [ORDER BY z_score DESC] *)
Definition by_z_desc (x y : string * outlier) : bool :=
  Qle_bool (o_z (snd y)) (o_z (snd x)).

Definition book_and_movie_outliers (d : state) : option (list (string * outlier)) :=
  match outliers_of (book_observations d), outliers_of (movie_observations d) with
  | Some books, Some movies => Some (Rel.order_by by_z_desc (union_all books movies))
  | _, _ => None
  end.

(** *** How the server reads an interpolated value

    [routes.js] writes a request value [v] into the text of a statement
    between apostrophes (['${v}'], ['%${v}%']) or bare ([${v}]).  Between
    apostrophes, two apostrophes in a row stand for one of the literal, and
    an apostrophe by itself ends the literal: what follows it in [v] is read
    as SQL.  A backslash or a NUL character is read as the settings of the
    server have it, which the repository does not tell. *)

Inductive reading : Type :=
| Literal (s : string)
| Unterminated
| Closes (s rest : string)
| Unsettled.

Definition apostrophe : ascii := "039"%char.
Definition backslash : ascii := "092"%char.
Definition nul : ascii := "000"%char.

(** [Literal s]: the value is the text of a literal that denotes [s].
    [Unterminated]: its last character is an apostrophe by itself, which the
    server pairs with the apostrophe that was to close the literal.
    [Closes s rest]: the literal ends within the value, denoting [s], and
    [rest] goes on as SQL. *)
Fixpoint read_quoted (v : string) : reading :=
  match v with
  | EmptyString => Literal ""
  | String c rest =>
      if Ascii.eqb c apostrophe
      then
        match rest with
        | EmptyString => Unterminated
        | String c' rest' =>
            if Ascii.eqb c' apostrophe
            then
              match read_quoted rest' with
              | Literal s => Literal (String apostrophe s)
              | Closes s r => Closes (String apostrophe s) r
              | other => other
              end
            else Closes "" rest
        end
      else if Ascii.eqb c backslash || Ascii.eqb c nul then Unsettled
      else
        match read_quoted rest with
        | Literal s => Literal (String c s)
        | Closes s r => Closes (String c s) r
        | other => other
        end
  end.

(** A bare value that is a number: a text of decimal digits. *)
Fixpoint all_digits (v : string) : bool :=
  match v with
  | EmptyString => true
  | String c rest =>
      (48 <=? Z.of_N (N_of_ascii c)) && (Z.of_N (N_of_ascii c) <=? 57)
      && all_digits rest
  end.

Definition numeral (v : string) : bool :=
  negb (String.eqb v "") && all_digits v.

(** A bare value that is a truth value. *)
Definition truth_value (v : string) : bool :=
  String.eqb v "true" || String.eqb v "false".

(** What the server makes of the text of a SELECT statement. *)
Inductive parsed : Type :=
| Reads (q : select)
| Malformed
| Unfiltered
| Stacked (username pw : Js.field)
| Unread.

(** A value that is to be the last literal of the text. *)
Definition last_literal (v : string) (k : string -> select) : parsed :=
  match read_quoted v with
  | Literal s => Reads (k s)
  | Unterminated => Malformed
  | _ => Unread
  end.

(** A value between apostrophes that is not the last literal of the text. *)
Definition literal (v : string) : option string :=
  match read_quoted v with
  | Literal s => Some s
  | _ => None
  end.

(** A [tconst] that goes on, after the apostrophe that ends its literal,
    with this text makes the WHERE clause of
    [get_book_adaptations_for_movie] read [m.tconst = '...' OR 'a'='a'],
    with the apostrophe that was to close the literal at its end. *)
Definition always_true : string := " OR 'a'='a".

(** A [tconst] that goes on, after the apostrophe that ends its literal,
    with this text makes the text of [get_book_adaptations_for_movie] three
    statements: the look-up without its ORDER BY, an INSERT into [login] as
    [signup] sends it, and a SELECT that takes up the apostrophe and the
    last line of the text. *)
Definition stacked_insert : string :=
  "; INSERT INTO login (username, password) VALUES ('mallory', 'pw'); SELECT 1 FROM movies_metadata m WHERE 'a'='a".

(** [Reads q]: the text is the statement that was meant, with the values of
    [q] for its literals and numbers.  [Malformed]: the text ends within a
    literal, and the server rejects it.  [Unfiltered]: the text is the
    look-up of [get_book_adaptations_for_movie] with a WHERE clause that
    holds of every row.  [Stacked username pw]: the text is three
    statements, a SELECT, an INSERT of [(username, pw)] into [login] and one
    more SELECT.  [Unread]: a value ends its literal in another way, or a
    bare value is no number; what the server does with the text is left to
    the [engine]. *)
Definition parse (q : select) : parsed :=
  match q with
  | Sel_search_books bookTitle authorName genreName yearLow yearHigh =>
      match literal bookTitle, literal authorName, literal genreName with
      | Some t, Some a, Some g =>
          if numeral yearLow && numeral yearHigh
          then Reads (Sel_search_books t a g yearLow yearHigh)
          else Unread
      | _, _, _ => Unread
      end
  | Sel_movies_details movieTitle =>
      match literal movieTitle with
      | Some t => Reads (Sel_movies_details t)
      | None => Unread
      end
  | Sel_movies_details_with_id tconst =>
      last_literal tconst Sel_movies_details_with_id
  | Sel_search_movies movieTitle isAdult genre lo hi rlo rhi =>
      match literal movieTitle, literal genre with
      | Some t, Some g =>
          if truth_value isAdult && numeral lo && numeral hi
             && numeral rlo && numeral rhi
          then Reads (Sel_search_movies t isAdult g lo hi rlo rhi)
          else Unread
      | _, _ => Unread
      end
  | Sel_book_reviews book_id minRating maxRating =>
      match literal minRating, literal maxRating with
      | Some lo, Some hi => Reads (Sel_book_reviews book_id lo hi)
      | _, _ => Unread
      end
  | Sel_book_adaptations tconst =>
      match read_quoted tconst with
      | Literal s => Reads (Sel_book_adaptations s)
      | Unterminated => Malformed
      | Closes s rest =>
          if String.eqb rest always_true then Unfiltered
          else if String.eqb rest stacked_insert
          then Stacked (Js.Text "mallory") (Js.Text "pw")
          else Unread
      | Unsettled => Unread
      end
  | Sel_login _ | Sel_book_details _ | Sel_top_authors | Sel_movie_adaptations _
  | Sel_top_movies_by_genre | Sel_correlation | Sel_positive_vs_low
  | Sel_outliers => Reads q
  end.

(** *** Running a statement *)

(** Modelled from the spec: the DDL of [login] is not in the repository.
    The spec has a unique constraint on [username]; both columns are taken
    NOT NULL and the user name not empty, as the server tests expect an
    error for a missing password and for an empty user name. *)
Definition insert_login (d : state) (u p : Js.field) : option state :=
  match u, p with
  | Js.Text name, Js.Text pw =>
      if String.eqb name ""
         || existsb (fun r => String.eqb (username r) name) (login d)
      then None
      else Some (with_login d (login d ++ [{| username := name; password := pw |}]))
  | _, _ => None
  end.

(** [book_id] is an integer column, of 32 bits or of 64 (its DDL is not in
    the repository): a number of 32 bits is compared with it as it is. *)
Definition int4 (z : Z) : bool := (-2147483648 <=? z) && (z <=? 2147483647).

(** What the server computes of the statements that are not interpreted
    here.  [rows_of]: the rows of a statement that was read as meant, from
    the state ([None]: the statement raises).  [stray]: the state and the
    callback arguments after a text that was not read as meant. *)
Record rows_engine : Type := {
  rows_of :> select -> state -> option (list Js.value);
  stray : select -> state -> state * outcome
}.

Section Engine.
Variable engine : rows_engine.

Definition answer (rs : option (list Js.value)) : outcome :=
  match rs with
  | Some l => selected l
  | None => Failed
  end.

(** The outcome of a statement that was read as meant, with the values as
    read.  [b.book_id = '...'] converts the literal to the type of the
    column: beyond 32 bits that fails, or compares, with the column. *)
Definition eval (q : select) (d : state) : outcome :=
  match q with
  | Sel_login u => selected (map login_to_js (select_login d u))
  | Sel_book_details id =>
      if int4 id then selected (select_book_details d id)
      else answer (engine q d)
  | Sel_book_adaptations t => selected (map movie_side_to_js (book_adaptations d t))
  | Sel_movie_adaptations id => selected (map book_side_to_js (movie_adaptations d id))
  | Sel_outliers => answer (option_map (map outlier_to_js) (book_and_movie_outliers d))
  | other => answer (engine other d)
  end.

(** [INSERT INTO login (username, password) VALUES (...)] *)
Definition inserted (d : state) (u p : Js.field) (o : outcome) : state * outcome :=
  match insert_login d u p with
  | Some d' => (d', o)
  | None => (d, Failed)
  end.

(** A statement maps a state to the next state and the callback's
    arguments.  The statements of a text are carried out in one
    transaction. *)
Definition exec (s : statement) (d : state) : state * outcome :=
  match s with
  | Select q =>
      if negb (reachable d) then (d, Failed)
      else
        match parse q with
        | Reads q' => (d, eval q' d)
        | Malformed => (d, Failed)
        | Unfiltered => (d, selected (map movie_side_to_js (any_book_adaptation d)))
        | Stacked u p => inserted d u p Several
        | Unread => stray engine q d
        end
  | Insert_login u p =>
      if negb (reachable d) then (d, Failed)
      else inserted d u p (Done {| rows := []; rowCount := 1; command := "INSERT" |})
  end.

End Engine.

End Sql.

(* ================================================================== *)
(** ** The request handlers of [routes.js] *)

Module Routes.
Import Sql.

(** A response: its status and the JSON value of its body, [undefined] for
    a body that is no JSON value. *)
Record response := { status : Z; body : Js.value }.

(** [res.status(code).json(b)] and [res.json(b)]; [res.json(undefined)]
    sends an empty body. *)
Definition status_json (code : Z) (b : Js.value) : response :=
  {| status := code; body := b |}.
Definition json (b : Js.value) : response := status_json 200 b.

(** What a handler does with a request: answer at once, or send one
    statement and answer from its callback.  [moviesDetailsWithId] can also
    answer and still send its statement. *)
Inductive action : Type :=
| Respond (r : response)
| Query (s : statement) (callback : outcome -> response)
| RespondThenQuery (r : response) (s : statement).

Definition error_object (msg : string) : Js.value := Js.Obj [("error", Js.Str msg)].
Definition message_object (msg : string) : Js.value := Js.Obj [("message", Js.Str msg)].

Definition internal_server_error : response :=
  status_json 500 (error_object "Internal Server Error").

(** The callback most handlers share:
    [if (err) res.status(500).json({error: ...}) else res.json(data.rows)].
    An array of results has no [rows]. *)
Definition rows_or_500 (o : outcome) : response :=
  match o with
  | Failed => internal_server_error
  | Done data => json (Js.Arr (rows data))
  | Several => json Js.Undefined
  end.

(** [`${x}`] of a query value *)
Definition interpolate (x : option string) : string :=
  match x with
  | Some s => s
  | None => "undefined"
  end.

Definition signup (username pw : Js.field) : action :=
  Query (Insert_login username pw)
    (fun o =>
       match o with
       | Failed => status_json 500 (error_object "User already exists or database error!")
       | Done _ | Several => status_json 201 (message_object "User created successfully")
       end).

Definition incorrect_login : response :=
  status_json 401 (message_object "Incorrect username/password! Try again.").

(** The statement of [login] has a parameter, and the server takes a text
    with parameters for one statement only: [exec] never hands [Several] to
    this callback, which would throw on it. *)
Definition login (username password : Js.field) : action :=
  Query (Select (Sel_login username))
    (fun o =>
       match o with
       | Failed | Several => status_json 500 (error_object "Database error")
       | Done data =>
           match rows data with
           | [] => incorrect_login
           | first :: _ =>
               let storedPassword := Js.get first "password" in
               if Js.strict_eq (Js.of_field password) storedPassword
               then json (message_object "Login successful")
               else incorrect_login
           end
       end).

Definition search_books (title name genre yearLow yearHigh : option string) : action :=
  let bookTitle := Js.nullish title "" in
  let authorName := Js.nullish name "" in
  let genreName := Js.nullish genre "" in
  if Js.lt yearHigh yearLow
  then Respond (status_json 404 (error_object "Invalid year range"))
  else Query (Select (Sel_search_books bookTitle authorName genreName
                        (interpolate yearLow) (interpolate yearHigh)))
         rows_or_500.

Definition moviesDetails (movie_title : option string) : action :=
  Query (Select (Sel_movies_details (Js.nullish movie_title ""))) rows_or_500.

Definition moviesDetailsWithId (tconst : string) : action :=
  if (String.length tconst =? 0)%nat
  then RespondThenQuery (status_json 404 (error_object "Internal Server Error"))
         (Select (Sel_movies_details_with_id tconst))
  else Query (Select (Sel_movies_details_with_id tconst)) rows_or_500.

Definition searchMovies
  (movieTitle isAdult genre minRunTimeMinutes maxRunTimeMinutes
     minRating maxRating : option string) : action :=
  Query (Select (Sel_search_movies
                   (Js.nullish movieTitle "") (Js.nullish isAdult "false")
                   (Js.nullish genre "")
                   (Js.nullish minRunTimeMinutes "1")
                   (Js.nullish maxRunTimeMinutes "60000")
                   (Js.nullish minRating "0") (Js.nullish maxRating "10")))
    rows_or_500.

Definition no_books_found : response :=
  status_json 404 (message_object "No books found").

Definition get_book_details (book_id : Z) : action :=
  if book_id <? 0 then Respond no_books_found
  else Query (Select (Sel_book_details book_id))
         (fun o =>
            match o with
            | Failed => internal_server_error
            | Done data =>
                if Js.strict_eq (result_get data "length") (num 0)
                then no_books_found
                else json (Js.Arr (rows data))
            | Several => json Js.Undefined
            end).

(** [book_id < 0] where [book_id] is [req.query.book_id ?? '']: the empty
    text converts to 0. *)
Definition negative (book_id : option Z) : bool :=
  match book_id with
  | Some z => z <? 0
  | None => false
  end.

Definition get_book_reviews (book_id : option Z) (minrating maxrating : option string)
  : action :=
  let minRating := Js.nullish minrating "0" in
  let maxRating := Js.nullish maxrating "5" in
  if negative book_id
  then Respond (status_json 404 (Js.Str "Internal Server Error"))
  else Query (Select (Sel_book_reviews book_id minRating maxRating))
         (fun o =>
            match o with
            | Failed => status_json 500 (Js.Str "Internal Server Error")
            | Done data =>
                if Js.strict_eq (result_get data "length") (num 0)
                then status_json 404 (Js.Str "No reviews found for the specified book title")
                else if negative book_id
                then status_json 404 (Js.Str "No reviews found for the specified book title")
                else status_json 200 (Js.Arr (rows data))
            | Several =>
                if negative book_id
                then status_json 404 (Js.Str "No reviews found for the specified book title")
                else status_json 200 Js.Undefined
            end).

Definition book_analytics_top_authors : action :=
  Query (Select Sel_top_authors) rows_or_500.

Definition get_book_adaptations_for_movie (tconst : string) : action :=
  if (String.length tconst =? 0)%nat then Respond internal_server_error
  else Query (Select (Sel_book_adaptations tconst)) rows_or_500.

Definition get_movie_adaptations_for_book (book_id : Z) : action :=
  if book_id <? -1 then Respond internal_server_error
  else Query (Select (Sel_movie_adaptations book_id)) rows_or_500.

Definition topMoviesByGenre : action :=
  Query (Select Sel_top_movies_by_genre) rows_or_500.

Definition correlationReviewsMovieRatings (invalid : option string) : action :=
  if Js.truthy invalid
  then Respond (status_json 400 (error_object "Invalid IMDb ID"))
  else Query (Select Sel_correlation) rows_or_500.

Definition PositiveReviewsforBooksvsLowMovierating (invalid : option string) : action :=
  if Js.truthy invalid then Respond internal_server_error
  else Query (Select Sel_positive_vs_low)
         (fun o =>
            match o with
            | Failed => status_json 500 (Js.Str "Internal Server Error")
            | Done data => status_json 200 (Js.Arr (rows data))
            | Several => status_json 200 Js.Undefined
            end).

Definition BookAndMovieOutliers : action :=
  Query (Select Sel_outliers) rows_or_500.

(** *** [server.js]: the routes

    A request is one that matches a route, with the values of its path or
    query parameters or of its body, or one that matches none. *)

Inductive request : Type :=
| POST_signup (username pw : Js.field)
| POST_login (username password : Js.field)
| GET_book_details (book_id : Z)
| GET_books_reviews (book_id : option Z) (minrating maxrating : option string)
| GET_adaptations_books (tconst : string)
| GET_adaptations_movies (book_id : Z)
| GET_movies_details (movie_title : option string)
| GET_movies_details_id (tconst : string)
| GET_search_movies
    (movieTitle isAdult genre minRunTimeMinutes maxRunTimeMinutes
       minRating maxRating : option string)
| GET_books_search (title name genre yearLow yearHigh : option string)
| GET_analytics_topMoviesByGenre
| GET_analytics_topAuthors
| GET_analytics_reviews_movie_ratings (invalid : option string)
| GET_analytics_PositiveReviews (invalid : option string)
| GET_analytics_BookAndMovieOutliers
| Unmatched.

(** What Express answers to a request that matches no route: 404 with an
    HTML page. *)
Definition cannot_get : response := {| status := 404; body := Js.Undefined |}.

(** The routes.  A path parameter matches one character or more: with an
    empty [tconst] the path [/adaptations/books/] matches no route, and
    the path [/movies/details/] matches the route [/movies/details], of
    [moviesDetails]. *)
Definition app (r : request) : action :=
  match r with
  | POST_signup u p => signup u p
  | POST_login u p => login u p
  | GET_book_details id => get_book_details id
  | GET_books_reviews id lo hi => get_book_reviews id lo hi
  | GET_adaptations_books t =>
      if String.eqb t "" then Respond cannot_get
      else get_book_adaptations_for_movie t
  | GET_adaptations_movies id => get_movie_adaptations_for_book id
  | GET_movies_details t => moviesDetails t
  | GET_movies_details_id t =>
      if String.eqb t "" then moviesDetails None else moviesDetailsWithId t
  | GET_search_movies t a g lo hi rlo rhi => searchMovies t a g lo hi rlo rhi
  | GET_books_search t n g lo hi => search_books t n g lo hi
  | GET_analytics_topMoviesByGenre => topMoviesByGenre
  | GET_analytics_topAuthors => book_analytics_top_authors
  | GET_analytics_reviews_movie_ratings i => correlationReviewsMovieRatings i
  | GET_analytics_PositiveReviews i => PositiveReviewsforBooksvsLowMovierating i
  | GET_analytics_BookAndMovieOutliers => BookAndMovieOutliers
  | Unmatched => Respond cannot_get
  end.

(** The request matches a route. *)
Definition matched (r : request) : bool :=
  match r with
  | GET_adaptations_books t => negb (String.eqb t "")
  | Unmatched => false
  | _ => true
  end.

Definition is_signup (r : request) : bool :=
  match r with
  | POST_signup _ _ => true
  | _ => false
  end.

(** The statement a handler sends, if it sends one. *)
Definition statement_of (a : action) : option statement :=
  match a with
  | Respond _ => None
  | Query s _ => Some s
  | RespondThenQuery _ s => Some s
  end.

Section Server.
Variable engine : rows_engine.

(** One request against a database state: the state afterwards and the
    response. *)
Definition run (a : action) (d : Db.state) : Db.state * response :=
  match a with
  | Respond r => (d, r)
  | Query s callback => let (d', o) := exec engine s d in (d', callback o)
  | RespondThenQuery r s => (fst (exec engine s d), r)
  end.

(** Requests served one after the other. *)
Fixpoint serve (reqs : list request) (d : Db.state) : Db.state * list response :=
  match reqs with
  | [] => (d, [])
  | r :: rest =>
      let (d1, resp) := run (app r) d in
      let (d2, resps) := serve rest d1 in
      (d2, resp :: resps)
  end.

End Server.

End Routes.

(* ================================================================== *)
(** ** Notions the properties are stated with *)

Module Spec.
Import Db.

(** The individual review ratings of a book in [books_rating]. *)
Definition ratings_of (d : state) (id : Z) : list Q :=
  map rating (filter (fun r => review_book_id r =? id) (books_rating d)).

(** Book [b] and movie [m] are a recorded adaptation pair: both exist and
    [books_movies_map] has a row for them. *)
Definition adapted (d : state) (m : movie) (b : book) : Prop :=
  In m (movies_metadata d) /\ In b (books_data d) /\
  exists bm, In bm (books_movies_map d) /\
             map_tconst bm = tconst m /\ map_book_id bm = book_id b.

(** [r] is the adaptation row of movie [t]: it shows a book mapped to [t],
    no mapping of [t] has a longer movie, and [book_rating] is the mean of
    the book's review ratings (NULL when it has no review). *)
Definition canonical_book_row (d : state) (t : string) (r : Js.value) : Prop :=
  exists m b,
    adapted d m b /\ tconst m = t /\
    (forall m' b', adapted d m' b' -> tconst m' = t ->
                   runtimeminutes m' <= runtimeminutes m) /\
    Js.get r "book_id" = Sql.num (book_id b) /\
    Js.get r "book_title" = Js.Str (title b) /\
    Js.get r "movie_title" = Js.Str (primarytitle m) /\
    Js.get r "book_rating" = Sql.nullable (Rel.avg (ratings_of d (book_id b))).

(** [r] is the adaptation row of book [id]: it shows a movie mapped to
    [id], no movie mapped to [id] runs longer, and [book_average_rating] is
    the mean of the book's review ratings. *)
Definition canonical_movie_row (d : state) (id : Z) (r : Js.value) : Prop :=
  exists m b,
    adapted d m b /\ book_id b = id /\
    (forall m' b', adapted d m' b' -> book_id b' = id ->
                   runtimeminutes m' <= runtimeminutes m) /\
    Js.get r "movie_id" = Js.Str (tconst m) /\
    Js.get r "movie_title" = Js.Str (primarytitle m) /\
    Js.get r "book_title" = Js.Str (title b) /\
    Js.get r "book_average_rating" = Sql.nullable (Rel.avg (ratings_of d id)).

(** The mean of ratings in double precision: the double nearest to the
    quotient of their sum by their number, where the sum is taken from the
    first rating on and is rounded to a double at every rating; no mean for
    no rating. *)
Fixpoint sum_from (sum : Q) (l : list Q) : Q :=
  match l with
  | [] => sum
  | x :: rest => sum_from (Float8.round (sum + x)) rest
  end.

Definition mean (l : list Q) : option Q :=
  match List.length l with
  | O => None
  | S n => Some (Float8.round (sum_from 0 l / inject_Z (Z.of_nat (S n))))
  end.

(** The arithmetic mean of ratings, as a rational: their sum over their
    number; no mean for no rating. *)
Definition exact_mean (l : list Q) : option Q :=
  match l with
  | [] => None
  | _ => Some (fold_right Qplus 0 l / inject_Z (Z.of_nat (List.length l)))%Q
  end.

(** Ratings that are whole numbers of stars, from 0 to 5. *)
Definition stars (l : list Q) : Prop :=
  forall x, In x l -> exists n, 0 <= n <= 5 /\ x = inject_Z n.

(** [v] shows the number [a], or [null] when there is none. *)
Definition shows (a : option Q) (v : Js.value) : Prop :=
  match a with
  | Some x => v = Js.Num x
  | None => v = Js.Null
  end.

(** [v] is the mean of the review ratings of book [id], in double
    precision, or [null] for a book without a review.  For fewer than
    [2 ^ 50] ratings that are whole numbers of stars, whose sums are doubles
    in whatever order they are added, it is the double nearest to their
    arithmetic mean. *)
Definition mean_rating (d : state) (id : Z) (v : Js.value) : Prop :=
  shows (mean (ratings_of d id)) v /\
  (stars (ratings_of d id) ->
   Z.of_nat (List.length (ratings_of d id)) < 2 ^ 50 ->
   shows (option_map Float8.round (exact_mean (ratings_of d id))) v).

(** [r] shows the book of an adaptation of the movie [t]: a book mapped to
    [t], next to a movie with that [tconst] than which no movie with a
    mapped book and that [tconst] runs longer, with the mean of the book's
    review ratings for [book_rating]. *)
Definition book_of_movie (d : state) (t : string) (r : Js.value) : Prop :=
  exists m b,
    adapted d m b /\ tconst m = t /\
    (forall m' b', adapted d m' b' -> tconst m' = t ->
                   runtimeminutes m' <= runtimeminutes m) /\
    Js.get r "book_id" = Js.Num (inject_Z (book_id b)) /\
    Js.get r "book_title" = Js.Str (title b) /\
    Js.get r "movie_title" = Js.Str (primarytitle m) /\
    mean_rating d (book_id b) (Js.get r "book_rating").

(** [r] shows the movie of an adaptation of the book [id]: a movie mapped
    to a book with that id than which no movie mapped to such a book runs
    longer, with the mean of the review ratings of [id] for
    [book_average_rating]. *)
Definition movie_of_book (d : state) (id : Z) (r : Js.value) : Prop :=
  exists m b,
    adapted d m b /\ book_id b = id /\
    (forall m' b', adapted d m' b' -> book_id b' = id ->
                   runtimeminutes m' <= runtimeminutes m) /\
    Js.get r "movie_id" = Js.Str (tconst m) /\
    Js.get r "movie_title" = Js.Str (primarytitle m) /\
    Js.get r "book_title" = Js.Str (title b) /\
    mean_rating d id (Js.get r "book_average_rating").

(** The ratings averaged for title [t] next to the statistics row [s]. *)
Definition title_ratings (obs : list Sql.observation) (t : string) (s : stats)
  : list Q :=
  map Sql.obs_rating
      (filter (fun o => String.eqb t (Sql.obs_title o)
                        && Qeq_bool (avg_rating s) (avg_rating (snd o))
                        && Qeq_bool (stddev_rating s) (stddev_rating (snd o)))
              obs).

(** [e] is an outlier of the observations [obs]: its z-score is, in double
    precision, its average rating minus the mean, over the standard
    deviation, of a statistics row, and is beyond 2 in magnitude. *)
Definition outlier_of (obs : list Sql.observation) (view : list stats)
  (e : Sql.outlier) : Prop :=
  exists s a difference,
    In s view /\ ~ (stddev_rating s == 0)%Q /\
    mean (title_ratings obs (Sql.o_title e) s) = Some a /\
    Sql.o_avg e = Some a /\
    Float8.mi a (avg_rating s) = Some difference /\
    Float8.div difference (stddev_rating s) = Some (Sql.o_z e) /\
    (2 < Qabs (Sql.o_z e))%Q.

(** An entry of the outlier report with its origin: a book outlier under
    ['Book'], a movie outlier under ['Movie']. *)
Definition reported (d : state) (e : string * Sql.outlier) : Prop :=
  (fst e = "Book" /\
   outlier_of (Sql.book_observations d) (BookStats d) (snd e)) \/
  (fst e = "Movie" /\
   outlier_of (Sql.movie_observations d) (MovieStats d) (snd e)).

(** Field [f] labels the report: in every state, the entries that stem from
    [BookOutliers] read [vb] there and those from [MovieOutliers] read [vm],
    two different values. *)
Definition labels (f : string) (vb vm : Js.value) : Prop :=
  vb <> vm /\
  forall d books movies,
    Sql.outliers_of (Sql.book_observations d) = Some books ->
    Sql.outliers_of (Sql.movie_observations d) = Some movies ->
    (forall o, In o books -> Js.get (Sql.outlier_to_js ("Book", o)) f = vb) /\
    (forall o, In o movies -> Js.get (Sql.outlier_to_js ("Movie", o)) f = vm).

(** The report is unlabeled: no field tells book entries from movie
    entries. *)
Definition unlabeled : Prop := forall f vb vm, ~ labels f vb vm.

(** The number a text of decimal digits denotes. *)
Definition digit (c : ascii) : option Z :=
  let n := Z.of_N (N_of_ascii c) in
  if (48 <=? n) && (n <=? 57) then Some (n - 48) else None.

Fixpoint decimal_from (acc : Z) (s : string) : option Z :=
  match s with
  | EmptyString => Some acc
  | String c rest =>
      match digit c with
      | Some v => decimal_from (10 * acc + v) rest
      | None => None
      end
  end.

Definition decimal (s : string) : option Z :=
  match s with
  | EmptyString => None
  | _ => decimal_from 0 s
  end.

(** A text of decimal digits only. *)
Definition is_digit (c : ascii) : bool :=
  match digit c with
  | Some _ => true
  | None => false
  end.

Fixpoint digits (s : string) : bool :=
  match s with
  | EmptyString => true
  | String c rest => is_digit c && digits rest
  end.

(** The row of [login] a user name selects first. *)
Definition stored_row (d : state) (u : Js.field) : option login_row :=
  match u with
  | Js.Text name => find (fun r => String.eqb (username r) name) (login d)
  | _ => None
  end.

(** A response body of the documented shape: an array of rows, or an object
    with a [message] or an [error] field. *)
Definition rows_or_object (b : Js.value) : bool :=
  match b with
  | Js.Arr _ => true
  | Js.Obj props => Js.has_key "message" props || Js.has_key "error" props
  | _ => false
  end.

(** The rows a response carries: the elements of an array body. *)
Definition entries (resp : Routes.response) : list Js.value :=
  match Routes.body resp with
  | Js.Arr l => l
  | _ => []
  end.

(** The handler of [r] sends no text, or a text that the server reads as
    the statement that was meant, or rejects as malformed. *)
Definition as_meant (r : Routes.request) : bool :=
  match Routes.statement_of (Routes.app r) with
  | Some (Sql.Select q) =>
      match Sql.parse q with
      | Sql.Reads _ => true
      | Sql.Malformed => true
      | _ => false
      end
  | _ => true
  end.

(** No row of [books_movies_map] names the movie, or the book. *)
Definition unmapped_movie (d : state) (t : string) : Prop :=
  forall bm, In bm (books_movies_map d) -> map_tconst bm <> t.

End Spec.

(* ================================================================== *)
(** ** A small database to run the handlers on *)

Module Sample.
Import Db.

Definition a_book (id : Z) (t : string) : book :=
  {| book_id := id; title := t; description := ""; image_link := "";
     publisher := ""; published_date := "1965-08-01" |}.

Definition a_movie (t n : string) (minutes : Z) : movie :=
  {| tconst := t; primarytitle := n; originaltitle := n; isadult := false;
     runtimeminutes := minutes |}.

Definition a_review (id : Z) (stars : Q) : review_row :=
  {| review_book_id := id; rating := stars; review := "";
     reviewer_profile_name := "reader"; total_votes := 0 |}.

Definition library : state :=
  {| Db.login := [{| username := "ann"; password := "secret" |}];
     books_data := [a_book 1 "Dune"; a_book 2 "Emma"];
     books_authors := [{| author_book_id := 1; author_name := "Herbert" |}];
     books_genres := [];
     books_rating := [a_review 1 5; a_review 1 4; a_review 2 1];
     books_movies_map := [{| map_book_id := 1; map_tconst := "tt0087182" |};
                          {| map_book_id := 1; map_tconst := "tt1160419" |}];
     movies_metadata := [a_movie "tt0087182" "Dune (1984)" 137;
                         a_movie "tt1160419" "Dune (2021)" 155];
     movies_ratings := [{| movie_id := "tt1160419"; averagerating := 8; numvotes := 10 |}];
     movies_genres := [];
     BookStats := [{| avg_rating := 4; stddev_rating := 1 # 4 |}];
     MovieStats := [{| avg_rating := 6; stddev_rating := 1 # 2 |}];
     mv_top_movies_by_genre := [];
     ReviewMovieStats2 := [];
     mv_positive_books2 := [];
     mv_low_rated_movies := [];
     reachable := true |}.

(** [library] with an apostrophe at the end of the [tconst] of the first
    movie. *)
Definition apostrophe : state :=
  {| Db.login := Db.login library;
     books_data := books_data library;
     books_authors := books_authors library;
     books_genres := books_genres library;
     books_rating := books_rating library;
     books_movies_map := [{| map_book_id := 1; map_tconst := "tt0087182'" |};
                          {| map_book_id := 1; map_tconst := "tt1160419" |}];
     movies_metadata := [a_movie "tt0087182'" "Dune (1984)" 137;
                         a_movie "tt1160419" "Dune (2021)" 155];
     movies_ratings := movies_ratings library;
     movies_genres := [];
     BookStats := BookStats library;
     MovieStats := MovieStats library;
     mv_top_movies_by_genre := [];
     ReviewMovieStats2 := [];
     mv_positive_books2 := [];
     mv_low_rated_movies := [];
     reachable := true |}.

(** Two values for [tconst] that end the literal they are written into. *)
Definition widening : string := "tt0000001' OR 'a'='a".
Definition signing_up : string :=
  "tt0000001'; INSERT INTO login (username, password) VALUES ('mallory', 'pw'); SELECT 1 FROM movies_metadata m WHERE 'a'='a".

(** The book outlier of [library]: one review of 1 star against a mean of
    4 and a deviation of 1/4. *)
Definition emma : string * Sql.outlier :=
  ("Book", {| Sql.o_title := "Emma"; Sql.o_avg := Some 1%Q;
              Sql.o_z := (-12)%Q |}).

(** A visit that never signs up. *)
Definition browsing : list Routes.request :=
  [Routes.GET_book_details 1;
   Routes.POST_login (Js.Text "ann") (Js.Text "secret");
   Routes.GET_books_search None None None (Some "1990") (Some "2020");
   Routes.GET_adaptations_movies 1;
   Routes.GET_analytics_BookAndMovieOutliers].

(** An engine that finds no row for the statements left uninterpreted, and
    rejects every text that was not read as meant. *)
Definition no_rows : Sql.rows_engine :=
  {| Sql.rows_of := fun _ _ => Some [];
     Sql.stray := fun _ d => (d, Sql.Failed) |}.

End Sample.

(* ================================================================== *)
(** ** The remaining statements of [routes.js] that have no pattern match

    [book_analytics_top_authors], [get_book_reviews], [moviesDetailsWithId],
    [topMoviesByGenre], [correlationReviewsMovieRatings] and
    [PositiveReviewsforBooksvsLowMovierating] send statements made of joins,
    groups, aggregates and orderings only.  They are interpreted here, as an
    instance of the engine the handlers run on; the statements with LIKE
    patterns stay with the engine underneath. *)

Module Reports.
Import Db Sql.

(** [ORDER BY x DESC] on a nullable numeric: NULLs come first. *)
Definition desc_nulls_first (a b : option Q) : bool :=
  match a, b with
  | None, _ => true
  | Some _, None => false
  | Some x, Some y => Qle_bool y x
  end.

(** *** [book_analytics_top_authors] *)

(** [FROM books_authors ba INNER JOIN books_rating br
     ON (ba.book_id) = (br.book_id)] *)
Definition authors_reviews (d : state) : list (author_row * review_row) :=
  Rel.join (fun ba br => author_book_id ba =? review_book_id br)
    (books_authors d) (books_rating d).

(** [SELECT ba.author_name, AVG(br.rating) ... GROUP BY ba.author_name] *)
Definition author_averages (d : state) : list (string * option Q) :=
  map (fun g => (fst g, Rel.avg (map (fun p => rating (snd p)) (snd g))))
      (Rel.group_by String.eqb (fun p => author_name (fst p)) (authors_reviews d)).

(** [ORDER BY average_rating DESC LIMIT 5] *)
Definition top_authors (d : state) : list (string * option Q) :=
  Rel.limit 5
    (Rel.order_by (fun x y => desc_nulls_first (snd x) (snd y))
       (author_averages d)).

Definition author_to_js (r : string * option Q) : Js.value :=
  Js.Obj [("author_name", Js.Str (fst r)); ("average_rating", nullable (snd r))].

(** *** [get_book_reviews] *)

(** [FROM books_rating r INNER JOIN books_data b ON r.book_id = b.book_id
     WHERE b.book_id = ... AND r.rating >= ... AND r.rating <= ...], for the
    numbers that the three literals denote *)
Definition reviews_in_range (d : state) (id : Z) (lo hi : Q)
  : list (review_row * book) :=
  filter (fun p => (book_id (snd p) =? id)
                   && Qle_bool lo (rating (fst p))
                   && Qle_bool (rating (fst p)) hi)
    (Rel.join (fun r b => review_book_id r =? book_id b)
       (books_rating d) (books_data d)).

(** [order by r.rating DESC]: the rows of the statement, for a [book_id]
    that the column holds and bounds that are numbers *)
Definition book_reviews (d : state) (id : Z) (lo hi : Q)
  : list (review_row * book) :=
  Rel.order_by (fun x y => Qle_bool (rating (fst y)) (rating (fst x)))
    (reviews_in_range d id lo hi).

Definition review_to_js (p : review_row * book) : Js.value :=
  Js.Obj [("book_title", Js.Str (title (snd p)));
          ("book_review", Js.Str (review (fst p)));
          ("book_rating", Js.Num (rating (fst p)));
          ("reviewer_profile_name", Js.Str (reviewer_profile_name (fst p)));
          ("book_review_votes", num (total_votes (fst p)))].

(** *** [moviesDetailsWithId] *)

(** [FROM movies_metadata d LEFT JOIN movies_ratings r ON d.tconst = r.movie_id
     LEFT JOIN movies_genres g ON d.tconst = g.movie_id] *)
Definition movie_detail_from (d : state)
  : list ((movie * option movie_rating) * option movie_genre) :=
  Rel.left_join (fun x g => String.eqb (tconst (fst x)) (genre_movie_id g))
    (Rel.left_join (fun m r => String.eqb (tconst m) (movie_id r))
       (movies_metadata d) (movies_ratings d))
    (movies_genres d).

Definition movie_eqb (a b : movie) : bool :=
  String.eqb (tconst a) (tconst b)
  && String.eqb (primarytitle a) (primarytitle b)
  && String.eqb (originaltitle a) (originaltitle b)
  && Bool.eqb (isadult a) (isadult b)
  && (runtimeminutes a =? runtimeminutes b).

(** The grouping columns: those of [d], then [r.averageRating] and
    [r.numVotes], both NULL when the movie has no rating row. *)
Definition detail_key : Type := movie * option (Q * Z).

Definition detail_key_of (x : (movie * option movie_rating) * option movie_genre)
  : detail_key :=
  (fst (fst x),
   option_map (fun r => (averagerating r, numvotes r)) (snd (fst x))).

(** GROUP BY puts NULLs in one group. *)
Definition same_detail_key (a b : detail_key) : bool :=
  movie_eqb (fst a) (fst b)
  && match snd a, snd b with
     | None, None => true
     | Some x, Some y => Qeq_bool (fst x) (fst y) && (snd x =? snd y)
     | _, _ => false
     end.

(** The genres of a group that are not NULL. *)
Fixpoint genres_of (g : list ((movie * option movie_rating) * option movie_genre))
  : list string :=
  match g with
  | [] => []
  | (_, Some mg) :: rest => genre mg :: genres_of rest
  | (_, None) :: rest => genres_of rest
  end.

(** [STRING_AGG(g.genre, ', ')]: NULL when there is nothing to join. *)
Definition string_agg (items : list string) : Js.value :=
  match items with
  | [] => Js.Null
  | _ => Js.Str (String.concat ", " items)
  end.

(** [WHERE d.tconst = '...' AND d.runtimeMinutes > 0 GROUP BY ...], for the
    text [t] that the literal denotes *)
Definition movie_detail_groups (d : state) (t : string)
  : list (detail_key * list ((movie * option movie_rating) * option movie_genre)) :=
  Rel.group_by same_detail_key detail_key_of
    (filter (fun x => String.eqb (tconst (fst (fst x))) t
                      && (0 <? runtimeminutes (fst (fst x))))
       (movie_detail_from d)).

Definition movie_detail_to_js
  (g : detail_key * list ((movie * option movie_rating) * option movie_genre))
  : Js.value :=
  let m := fst (fst g) in
  Js.Obj [("tconst", Js.Str (tconst m));
          ("primarytitle", Js.Str (primarytitle m));
          ("originaltitle", Js.Str (originaltitle m));
          ("isadult", Js.Bool (isadult m));
          ("runtimeminutes", num (runtimeminutes m));
          ("genres", string_agg (genres_of (snd g)));
          ("averagerating", nullable (option_map fst (snd (fst g))));
          ("numvotes", match snd (fst g) with
                       | Some r => num (snd r)
                       | None => Js.Null
                       end)].

(** *** [topMoviesByGenre] *)

(** [ORDER BY genre, rank] *)
Definition genre_then_rank (x y : top_movie) : bool :=
  String.ltb (top_genre x) (top_genre y)
  || (String.eqb (top_genre x) (top_genre y) && (top_rank x <=? top_rank y)).

Definition top_movies_by_genre (d : state) : list top_movie :=
  Rel.order_by genre_then_rank (mv_top_movies_by_genre d).

Definition top_movie_to_js (m : top_movie) : Js.value :=
  Js.Obj [("genre", Js.Str (top_genre m));
          ("primarytitle", Js.Str (top_primarytitle m));
          ("averagerating", Js.Num (top_averagerating m))].

(** *** [correlationReviewsMovieRatings] *)

(** [SELECT label, COUNT( * ) AS record_count FROM ReviewMovieStats2
     GROUP BY label] *)
Definition label_counts (d : state) : list (string * Z) :=
  map (fun g => (fst g, Z.of_nat (List.length (snd g))))
      (Rel.group_by String.eqb label (ReviewMovieStats2 d)).

(** [ORDER BY record_count DESC] *)
Definition correlation (d : state) : list (string * Z) :=
  Rel.order_by (fun x y => snd y <=? snd x) (label_counts d).

Definition label_count_to_js (r : string * Z) : Js.value :=
  Js.Obj [("label", Js.Str (fst r)); ("record_count", num (snd r))].

(** *** [PositiveReviewsforBooksvsLowMovierating] *)

(** The CTE [books_to_movies]: [pb], [bm], [lm]. *)
Definition books_to_movies (d : state)
  : list ((positive_book * mapping) * low_rated_movie) :=
  Rel.join (fun x lm => String.eqb (map_tconst (snd x)) (lm_tconst lm))
    (Rel.join (fun pb bm => pb_book_id pb =? map_book_id bm)
       (mv_positive_books2 d) (books_movies_map d))
    (mv_low_rated_movies d).

Definition btm_count (x : (positive_book * mapping) * low_rated_movie) : Z :=
  positive_review_count (fst (fst x)).
Definition btm_rating (x : (positive_book * mapping) * low_rated_movie) : Q :=
  lm_avg_movie_rating (snd x).

(** [ORDER BY btm.positive_review_count DESC, btm.avg_movie_rating ASC] *)
Definition count_desc_rating_asc
  (x y : (positive_book * mapping) * low_rated_movie) : bool :=
  (btm_count y <? btm_count x)
  || ((btm_count x =? btm_count y) && Qle_bool (btm_rating x) (btm_rating y)).

(** [WHERE btm.positive_review_count > 20] *)
Definition positive_vs_low (d : state)
  : list ((positive_book * mapping) * low_rated_movie) :=
  Rel.order_by count_desc_rating_asc
    (filter (fun x => 20 <? btm_count x) (books_to_movies d)).

Definition positive_vs_low_to_js
  (x : (positive_book * mapping) * low_rated_movie) : Js.value :=
  Js.Obj [("movie_title", Js.Str (lm_movie_title (snd x)));
          ("positive_review_count", num (btm_count x));
          ("avg_movie_rating", Js.Num (btm_rating x))].

(** *** The engine that interprets these statements *)

(** The literal of a bound of [get_book_reviews] is read as a number when
    it is made of up to 15 decimal digits, as the defaults [0] and [5] are:
    such a whole number is a double, which the [float8] column [rating] is
    compared with as it is. *)
Definition bound (text : string) : option Q :=
  if (String.length text <=? 15)%nat
  then option_map inject_Z (Spec.decimal text)
  else None.

(** The rows of a statement that was read as meant, with the values as
    read.  [rest] answers the statements that are not interpreted: those
    with LIKE patterns, and [get_book_reviews] with an empty [book_id], a
    [book_id] beyond 32 bits or a bound that is no such number; and [rest]
    has the texts that were not read as meant. *)
Definition interpreted (rest : rows_engine) : rows_engine :=
  {| rows_of := fun q d =>
       match q with
       | Sel_top_authors => Some (map author_to_js (top_authors d))
       | Sel_movies_details_with_id t =>
           Some (map movie_detail_to_js (movie_detail_groups d t))
       | Sel_top_movies_by_genre => Some (map top_movie_to_js (top_movies_by_genre d))
       | Sel_correlation => Some (map label_count_to_js (correlation d))
       | Sel_positive_vs_low => Some (map positive_vs_low_to_js (positive_vs_low d))
       | Sel_book_reviews (Some id) minRating maxRating =>
           match bound minRating, bound maxRating with
           | Some lo, Some hi =>
               if int4 id then Some (map review_to_js (book_reviews d id lo hi))
               else rest q d
           | _, _ => rest q d
           end
       | _ => rest q d
       end;
     stray := stray rest |}.

End Reports.

(* ================================================================== *)
(** ** Notions the properties of the reports are stated with *)

Module ReportSpec.
Import Db.

(** The ratings averaged for an author name: for every row of
    [books_authors] with that name, the ratings of the reviews of its
    book. *)
Definition author_ratings (d : state) (name : string) : list Q :=
  flat_map (fun ba =>
              if String.eqb name (author_name ba)
              then map rating
                     (filter (fun br => author_book_id ba =? review_book_id br)
                        (books_rating d))
              else [])
    (books_authors d).

(** One average is at least the other; neither is NULL. *)
Definition at_least (a b : option Q) : Prop :=
  match a, b with
  | Some x, Some y => (y <= x)%Q
  | _, _ => False
  end.

(** The rows of the view [ReviewMovieStats2] under a label. *)
Definition labelled (d : state) (l : string) : list review_movie_stat :=
  filter (fun r => String.eqb l (label r)) (ReviewMovieStats2 d).

Definition sum (l : list Z) : Z := fold_right Z.add 0 l.

(** A review of book [id] rated within [lo .. hi], next to a row of
    [books_data] with that id. *)
Definition review_of (d : state) (id : Z) (lo hi : Q) (p : review_row * book)
  : Prop :=
  In (fst p) (books_rating d) /\ In (snd p) (books_data d) /\
  review_book_id (fst p) = id /\ book_id (snd p) = id /\
  (lo <= rating (fst p))%Q /\ (rating (fst p) <= hi)%Q.

(** A positive book and a low-rated movie that [books_movies_map] pairs. *)
Definition contrast (d : state)
  (x : (positive_book * mapping) * low_rated_movie) : Prop :=
  In (fst (fst x)) (mv_positive_books2 d) /\
  In (snd (fst x)) (books_movies_map d) /\
  In (snd x) (mv_low_rated_movies d) /\
  pb_book_id (fst (fst x)) = map_book_id (snd (fst x)) /\
  map_tconst (snd (fst x)) = lm_tconst (snd x).

End ReportSpec.

(* ================================================================== *)
(** ** A second database, with rows in the views *)

Module Showcase.
Import Db.

Definition catalogue : state :=
  {| Db.login := [{| username := "ann"; password := "secret" |}];
     books_data := [Sample.a_book 1 "Dune"; Sample.a_book 2 "Emma"];
     books_authors := [{| author_book_id := 1; author_name := "Herbert" |};
                       {| author_book_id := 2; author_name := "Austen" |};
                       {| author_book_id := 2; author_name := "Anon" |}];
     books_genres := [];
     books_rating := [Sample.a_review 1 5; Sample.a_review 1 4;
                      Sample.a_review 2 1; Sample.a_review 2 3];
     books_movies_map := [{| map_book_id := 1; map_tconst := "tt0087182" |};
                          {| map_book_id := 1; map_tconst := "tt1160419" |};
                          {| map_book_id := 2; map_tconst := "tt0116191" |}];
     movies_metadata := [Sample.a_movie "tt0087182" "Dune (1984)" 137;
                         Sample.a_movie "tt1160419" "Dune (2021)" 155;
                         Sample.a_movie "tt0116191" "Emma (1996)" 0];
     movies_ratings := [{| movie_id := "tt1160419"; averagerating := 8; numvotes := 10 |};
                        {| movie_id := "tt0087182"; averagerating := 13 # 2; numvotes := 7 |}];
     movies_genres := [{| genre_movie_id := "tt1160419"; genre := "Sci-Fi" |};
                       {| genre_movie_id := "tt1160419"; genre := "Adventure" |};
                       {| genre_movie_id := "tt0087182"; genre := "Sci-Fi" |}];
     BookStats := [{| avg_rating := 4; stddev_rating := 1 # 4 |}];
     MovieStats := [{| avg_rating := 6; stddev_rating := 1 # 2 |}];
     mv_top_movies_by_genre :=
       [{| top_genre := "Sci-Fi"; top_primarytitle := "Dune (1984)";
           top_averagerating := 13 # 2; top_rank := 2 |};
        {| top_genre := "Adventure"; top_primarytitle := "Dune (2021)";
           top_averagerating := 8; top_rank := 1 |};
        {| top_genre := "Sci-Fi"; top_primarytitle := "Dune (2021)";
           top_averagerating := 8; top_rank := 1 |}];
     ReviewMovieStats2 := [{| label := "Long" |}; {| label := "Short" |};
                           {| label := "Long" |}];
     mv_positive_books2 :=
       [{| pb_book_id := 1; positive_review_count := 30; pb_avg_book_rating := 9 # 2 |};
        {| pb_book_id := 2; positive_review_count := 10; pb_avg_book_rating := 2 |}];
     mv_low_rated_movies :=
       [{| lm_tconst := "tt0087182"; lm_movie_title := "Dune (1984)";
           lm_avg_movie_rating := 13 # 2 |};
        {| lm_tconst := "tt0116191"; lm_movie_title := "Emma (1996)";
           lm_avg_movie_rating := 3 |}];
     reachable := true |}.

(** The engine of the reports over an engine that finds no row. *)
Definition engine : Sql.rows_engine := Reports.interpreted Sample.no_rows.

End Showcase.

(* ================================================================== *)
(** ** The pages of the client ([client/src])

    A handler of a page is embedded as a function from the state it starts
    in to the state it leaves: the React state it sets, the [token] item of
    [localStorage] and the route it navigates to.  A request of a page goes
    through [fetch], which rejects, or resolves with the response of the
    route its URL names.  Reading a property of [null] or [undefined]
    throws; where a page would show a text that depends on the browser (the
    message of such an exception, or the rendering of a number, an array or
    an object as a string), or sends a request that depends on how the
    browser parses a text as a URL, the embedding of the handler returns
    [None]. *)

Module Pages.
Import Sql Routes.

(** *** JavaScript on the values of a response *)

(** Truthiness of a value. *)
Definition truthy (v : Js.value) : bool :=
  match v with
  | Js.Undefined => false
  | Js.Null => false
  | Js.Bool b => b
  | Js.Num q => negb (Qeq_bool q 0%Q)
  | Js.Str s => negb (String.eqb s "")
  | Js.Arr _ => true
  | Js.Obj _ => true
  end.

(** [a || b] *)
Definition or_else (a b : Js.value) : Js.value := if truthy a then a else b.

(** [v.name], for the property names the pages read (none of them is
    [length] or inherited from a prototype): [None] when [v] is [null] or
    [undefined] and the access throws a TypeError. *)
Definition prop (v : Js.value) (name : string) : option Js.value :=
  match v with
  | Js.Undefined => None
  | Js.Null => None
  | Js.Obj props => Some (Js.lookup name props)
  | _ => Some Js.Undefined
  end.

(** [String(v)], the conversion that [localStorage.setItem] and
    [new Error] apply; numbers, arrays and objects are not rendered. *)
Definition text_of (v : Js.value) : option string :=
  match v with
  | Js.Undefined => Some "undefined"
  | Js.Null => Some "null"
  | Js.Bool true => Some "true"
  | Js.Bool false => Some "false"
  | Js.Str s => Some s
  | _ => None
  end.

(** *** [fetch] *)

Inductive fetched : Type :=
| Rejected (message : string)
| Resolved (r : response).

(** What [fetch] makes of a request to the API, on a database state. *)
Definition transport : Type := request -> Db.state -> Db.state * fetched.

(** The server is reached: [fetch] resolves with the answer of the route. *)
Definition delivered (engine : rows_engine) : transport :=
  fun r d => let (d', answer) := run engine (app r) d in (d', Resolved answer).

(** [response.ok] *)
Definition ok (r : response) : bool := (200 <=? status r) && (status r <=? 299).

(** The request of a URL that ends in [/${encodeURIComponent(v)}], for the
    route [to] of that path: the parameter reaches the route as it is,
    except that the browser takes [.] and [..] for the path itself and its
    parent. *)
Definition encoded (to : string -> request) (v : string) : request :=
  if String.eqb v "." then to ""
  else if String.eqb v ".." then Unmatched
  else to v.

(** A text that stands for itself at the end of a URL when it is written
    there as it is: letters, digits, [-] and [_]. *)
Definition word_character (c : ascii) : bool :=
  let n := N_of_ascii c in
  ((48 <=? n) && (n <=? 57) || (65 <=? n) && (n <=? 90)
   || (97 <=? n) && (n <=? 122) || (n =? 45) || (n =? 95))%N.

Fixpoint word (v : string) : bool :=
  match v with
  | EmptyString => true
  | String c rest => word_character c && word rest
  end.

(** The request of a URL that ends in [/${v}]: for a text with other
    characters the path, and so the request, is not the one that was
    meant. *)
Definition written (to : string -> request) (v : string) : option request :=
  if word v then Some (to v) else None.

(** *** [LoginPage.js], [SignupPage.js] and [NavBar.js] *)

(** [localStorage.getItem('token')] ([None] for [null]), the route shown,
    and the [error] state of the form. *)
Record session := { token : option string; route : string; error : Js.value }.

Definition setError (s : session) (e : Js.value) : session :=
  {| token := token s; route := route s; error := e |}.

(** [localStorage.setItem('token', t); navigate(to)] *)
Definition enter (s : session) (t : string) (to : string) : session :=
  {| token := Some t; route := to; error := error s |}.

(** [handleLogin]; [development] is [process.env.NODE_ENV === "development"]. *)
Definition handleLogin (development : bool) (fetch : transport)
  (email password : string) (d : Db.state) (s : session)
  : option (Db.state * session) :=
  if development
  then Some (d, enter s "fake-dev-token" "/home")
  else
    let s := setError s (Js.Str "") in
    let caught := setError s (Js.Str "An error occurred. Please try again.") in
    match fetch (POST_login (Js.Text email) (Js.Text password)) d with
    | (d', Rejected _) => Some (d', caught)
    | (d', Resolved response) =>
        if negb (ok response)
        then
          match prop (body response) "message" with
          | None => Some (d', caught)
          | Some message =>
              Some (d', setError s (or_else message (Js.Str "Login failed")))
          end
        else
          match prop (body response) "token" with
          | None => Some (d', caught)
          | Some t =>
              match text_of t with
              | None => None
              | Some text => Some (d', enter s text "/home")
              end
          end
    end.

(** [handleSignUp] *)
Definition handleSignUp (fetch : transport)
  (email password confirmPassword : string) (d : Db.state) (s : session)
  : option (Db.state * session) :=
  let s := setError s (Js.Str "") in
  if negb (String.eqb password confirmPassword)
  then Some (d, setError s (Js.Str "Passwords do not match"))
  else
    let caught (message : string) :=
      setError s (or_else (Js.Str message) (Js.Str "Signup failed")) in
    match fetch (POST_signup (Js.Text email) (Js.Text password)) d with
    | (d', Rejected message) => Some (d', caught message)
    | (d', Resolved response) =>
        if negb (ok response)
        then
          match prop (body response) "error" with
          | None => None
          | Some e =>
              match text_of (or_else e (Js.Str "Signup failed")) with
              | None => None
              | Some message => Some (d', caught message)
              end
          end
        else Some (d', {| token := token s; route := "/"; error := error s |})
    end.

(** [NavBar]: [!!localStorage.getItem('token')] *)
Definition isAuthenticated (s : session) : bool :=
  match token s with
  | Some t => negb (String.eqb t "")
  | None => false
  end.

(** [handleLogout] *)
Definition handleLogout (s : session) : session :=
  {| token := None; route := "/"; error := error s |}.

(** *** [BookDetailsPage.js]: the reviews *)

(** [review.review_id || review.book_review] *)
Definition review_key (review : Js.value) : option Js.value :=
  match prop review "review_id" with
  | None => None
  | Some id => if truthy id then Some id else prop review "book_review"
  end.

(** [data.map((review) => [key, review])]; [None] when a key throws. *)
Fixpoint keyed (data : list Js.value) : option (list (Js.value * Js.value)) :=
  match data with
  | [] => Some []
  | review :: rest =>
      match review_key review, keyed rest with
      | Some k, Some entries => Some ((k, review) :: entries)
      | _, _ => None
      end
  end.

(** [m.set(k, v)] on a [Map], kept as its entries in insertion order: a key
    that is present keeps its place and takes the new value.  Keys are
    compared as [===] compares them (no number here is NaN). *)
Fixpoint map_set (k v : Js.value) (m : list (Js.value * Js.value))
  : list (Js.value * Js.value) :=
  match m with
  | [] => [(k, v)]
  | (k', v') :: rest =>
      if Js.strict_eq k' k then (k', v) :: rest else (k', v') :: map_set k v rest
  end.

(** [new Map(entries)] *)
Definition new_Map (entries : list (Js.value * Js.value))
  : list (Js.value * Js.value) :=
  fold_left (fun m e => map_set (fst e) (snd e) m) entries [].

(** [Array.from(new Map(data.map(...)).values())] *)
Definition uniqueReviews (data : list Js.value) : option (list Js.value) :=
  option_map (fun entries => map snd (new_Map entries)) (keyed data).

(** [fetchReviews]: the [reviews] state afterwards.  Its [catch] only logs,
    so a rejected [fetch], a response that is not [ok], a body that is not
    an array and a review that is [null] all leave the state as it was. *)
Definition fetchReviews (fetch : transport) (book_id : Z)
  (d : Db.state) (reviews : list Js.value) : Db.state * list Js.value :=
  match fetch (GET_books_reviews (Some book_id) None None) d with
  | (d', Rejected _) => (d', reviews)
  | (d', Resolved response) =>
      if negb (ok response) then (d', reviews)
      else
        match body response with
        | Js.Arr data =>
            match uniqueReviews data with
            | Some unique => (d', unique)
            | None => (d', reviews)
            end
        | _ => (d', reviews)
        end
  end.

(** *** Arrays of rows *)

(** [v.length]; [None] when [v] is [null] or [undefined]. *)
Definition length_of (v : Js.value) : option Js.value :=
  match v with
  | Js.Undefined => None
  | Js.Null => None
  | Js.Arr items => Some (num (Z.of_nat (List.length items)))
  | Js.Str s => Some (num (Z.of_nat (String.length s)))
  | Js.Obj props => Some (Js.lookup "length" props)
  | _ => Some Js.Undefined
  end.

(** [v[0]]; [None] when [v] is [null] or [undefined]. *)
Definition first (v : Js.value) : option Js.value :=
  match v with
  | Js.Undefined => None
  | Js.Null => None
  | Js.Arr [] => Some Js.Undefined
  | Js.Arr (x :: _) => Some x
  | Js.Str EmptyString => Some Js.Undefined
  | Js.Str (String c _) => Some (Js.Str (String c ""))
  | Js.Obj props => Some (Js.lookup "0" props)
  | _ => Some Js.Undefined
  end.

(** *** [BookDetailsPage.js] and [MovieDetailsPage.js]: the details *)

(** What both pages do with the answer: [setDetails(data[0])] when the
    response is [ok]; their [catch] only logs. *)
Definition details_of (answer : Db.state * fetched) (details : Js.value)
  : Db.state * Js.value :=
  match answer with
  | (d', Rejected _) => (d', details)
  | (d', Resolved response) =>
      if negb (ok response) then (d', details)
      else
        match first (body response) with
        | Some row => (d', row)
        | None => (d', details)
        end
  end.

(** [fetchBookDetails]: the [bookDetails] state afterwards. *)
Definition fetchBookDetails (fetch : transport) (book_id : Z)
  (d : Db.state) (bookDetails : Js.value) : Db.state * Js.value :=
  details_of (fetch (GET_book_details book_id) d) bookDetails.

(** [fetchMovieDetails]: the [movieDetails] state afterwards. *)
Definition fetchMovieDetails (fetch : transport) (tconst : string)
  (d : Db.state) (movieDetails : Js.value) : Db.state * Js.value :=
  details_of (fetch (encoded GET_movies_details_id tconst) d) movieDetails.

(** Both pages show ['No details available ...'] for [!details]. *)
Definition no_details_available (details : Js.value) : bool :=
  negb (truthy details).

(** *** [BookSearchPage.js]: the request of [search] *)

(** [`${n}`] for a whole number. *)
Definition interpolate_number (n : Z) : string :=
  NilZero.string_of_int (Z.to_int n).

(** The request [search] sends for the fields of the form; [yearLow] and
    [yearHigh] are the two ends of the [yearPublished] slider. *)
Definition search_request (title author genre : string) (yearLow yearHigh : Z)
  : request :=
  GET_books_search (Some title) (Some author) (Some genre)
    (Some (interpolate_number yearLow)) (Some (interpolate_number yearHigh)).

(** *** [Dashboard.js]: the two paginated lists *)

Definition rowsPerPageOutliers : nat := 10.
Definition rowsPerPage : nat := 25.

(** [rows.slice(page * size, page * size + size)] *)
Definition slice_page {A : Type} (size page : nat) (rows : list A) : list A :=
  firstn size (skipn (page * size) rows).

Definition paginatedOutliers (outliers : list Js.value) (outliersPage : nat)
  : list Js.value :=
  slice_page rowsPerPageOutliers outliersPage outliers.

Definition paginatedData (ContrastingData : list Js.value) (page : nat)
  : list Js.value :=
  slice_page rowsPerPage page ContrastingData.

End Pages.

(* ================================================================== *)
(** ** The adaptations page ([Adaptations.js]) *)

Module AdaptationsPage.
Import Sql Routes.

(** The state of the page that [fetchAdaptationDetails] sets. *)
Record page := {
  adaptationData : Js.value;
  movieDetailsOmdb : Js.value;
  error : Js.value;
  noAdaptations : bool
}.

(** The page as it is mounted. *)
Definition mounted : page :=
  {| adaptationData := Js.Null; movieDetailsOmdb := Js.Null;
     error := Js.Str ""; noAdaptations := false |}.

Definition setError (p : page) (e : Js.value) : page :=
  {| adaptationData := adaptationData p; movieDetailsOmdb := movieDetailsOmdb p;
     error := e; noAdaptations := noAdaptations p |}.

Definition setNoAdaptations (p : page) (b : bool) : page :=
  {| adaptationData := adaptationData p; movieDetailsOmdb := movieDetailsOmdb p;
     error := error p; noAdaptations := b |}.

Definition setAdaptationData (p : page) (v : Js.value) : page :=
  {| adaptationData := v; movieDetailsOmdb := movieDetailsOmdb p;
     error := error p; noAdaptations := noAdaptations p |}.

Definition setMovieDetailsOmdb (p : page) (v : Js.value) : page :=
  {| adaptationData := adaptationData p; movieDetailsOmdb := v;
     error := error p; noAdaptations := noAdaptations p |}.

(** The [catch]: [setError(err.message || "An unexpected error occurred.")] *)
Definition caught (p : page) (message : string) : page :=
  setError p (Pages.or_else (Js.Str message)
                (Js.Str "An unexpected error occurred.")).

(** The [book_id] that [`${v}`] puts into the path, for a whole number. *)
Definition whole (v : Js.value) : option Z :=
  match v with
  | Js.Num q =>
      let z := Qnum q / Z.pos (Qden q) in
      if Qeq_bool q (inject_Z z) then Some z else None
  | _ => None
  end.

(** The second half of [fetchAdaptationDetails], from the request for the
    movie of [effectiveBookId] on.  [omdb] is what [fetch] makes of the
    request to the OMDB service for a [movie_id]. *)
Definition fetchMovieAdaptation (fetch : Pages.transport)
  (omdb : Js.value -> Pages.fetched) (effectiveBookId : Z)
  (d : Db.state) (p : page) : option (Db.state * page) :=
  match fetch (GET_adaptations_movies effectiveBookId) d with
  | (d', Pages.Rejected message) => Some (d', caught p message)
  | (d', Pages.Resolved adaptationResponse) =>
      if negb (Pages.ok adaptationResponse)
      then Some (d', caught p "Failed to fetch movie adaptation for the book.")
      else
        let adaptationDataResult := body adaptationResponse in
        match Pages.length_of adaptationDataResult with
        | None => None
        | Some len =>
            if negb (Pages.truthy len)
            then Some (d', setNoAdaptations p true)
            else
              match Pages.first adaptationDataResult with
              | None => None
              | Some adaptation =>
                  let p := setAdaptationData p adaptation in
                  match Pages.prop adaptation "movie_id" with
                  | None => None
                  | Some movie_id =>
                      if Pages.truthy movie_id
                      then
                        match omdb movie_id with
                        | Pages.Rejected message => Some (d', caught p message)
                        | Pages.Resolved omdbResponse =>
                            if negb (Pages.ok omdbResponse)
                            then Some (d', caught p "Failed to fetch OMDB movie details.")
                            else Some (d', setMovieDetailsOmdb p (body omdbResponse))
                        end
                      else Some (d', p)
                  end
              end
        end
  end.

(** [fetchAdaptationDetails], for the route parameters [book_id] and
    [tconst] of which the route sets one.  [tconst] is written into the URL
    as it is. *)
Definition fetchAdaptationDetails (fetch : Pages.transport)
  (omdb : Js.value -> Pages.fetched) (book_id : option Z)
  (tconst : option string) (d : Db.state) (p : page)
  : option (Db.state * page) :=
  let p := setNoAdaptations (setError p (Js.Str "")) false in
  if Js.truthy tconst
  then
    match Pages.written GET_adaptations_books (Js.nullish tconst "") with
    | None => None
    | Some request =>
        match fetch request d with
        | (d', Pages.Rejected message) => Some (d', caught p message)
        | (d', Pages.Resolved bookFetchResponse) =>
            if negb (Pages.ok bookFetchResponse)
            then Some (d', caught p "Failed to fetch book adaptation for the movie.")
            else
              let bookFetchData := body bookFetchResponse in
              match Pages.length_of bookFetchData with
              | None => None
              | Some len =>
                  if negb (Pages.truthy len)
                  then Some (d', setNoAdaptations p true)
                  else
                    match Pages.first bookFetchData with
                    | None => None
                    | Some row =>
                        match Pages.prop row "book_id" with
                        | None => None
                        | Some id =>
                            if Pages.truthy id
                            then
                              match whole id with
                              | None => None
                              | Some effectiveBookId =>
                                  fetchMovieAdaptation fetch omdb effectiveBookId d' p
                              end
                            else Some (d', setNoAdaptations p true)
                        end
                    end
              end
        end
    end
  else
    match book_id with
    | None => None
    | Some effectiveBookId => fetchMovieAdaptation fetch omdb effectiveBookId d p
    end.

(** [adaptationData?.name] *)
Definition field_of (adaptationData : Js.value) (name : string) : Js.value :=
  match Pages.prop adaptationData name with
  | Some v => v
  | None => Js.Undefined
  end.

(** [bookRatingNormalized]; [None] for a rating that is no number. *)
Definition bookRatingNormalized (adaptationData : Js.value) : option Q :=
  let rating := field_of adaptationData "book_average_rating" in
  if Pages.truthy rating
  then match rating with
       | Js.Num q => Some (q * 2)%Q
       | _ => None
       end
  else Some 0%Q.

(** [parseFloat(adaptationData?.avg_movie_rating) || 0]; a value that is
    neither a number nor a text parses to NaN, which [|| 0] turns into 0. *)
Definition movieRating (adaptationData : Js.value) : option Q :=
  match field_of adaptationData "avg_movie_rating" with
  | Js.Num q => Some q
  | Js.Str _ => None
  | Js.Arr _ => None
  | _ => Some 0%Q
  end.

(** [isBookRecommended]: the book card carries the chip when it is true,
    the movie card when it is false. *)
Definition isBookRecommended (adaptationData : Js.value) : option bool :=
  match bookRatingNormalized adaptationData, movieRating adaptationData with
  | Some book, Some movie => Some (negb (Qle_bool book movie))
  | _, _ => None
  end.

(** [c.toLowerCase()] and [c.toUpperCase()] for a character of an ASCII
    text: only the 26 letters change. *)
Definition lower (c : ascii) : ascii :=
  let n := N_of_ascii c in
  if ((65 <=? n) && (n <=? 90))%N then ascii_of_N (n + 32) else c.

Definition upper (c : ascii) : ascii :=
  let n := N_of_ascii c in
  if ((97 <=? n) && (n <=? 122))%N then ascii_of_N (n - 32) else c.

(** [str.toLowerCase()], on an ASCII text *)
Fixpoint toLowerCase (str : string) : string :=
  match str with
  | EmptyString => EmptyString
  | String c rest => String (lower c) (toLowerCase rest)
  end.

(** [str.split(" ")] *)
Fixpoint split (str : string) : list string :=
  match str with
  | EmptyString => [EmptyString]
  | String c rest =>
      if Ascii.eqb c " " then EmptyString :: split rest
      else
        match split rest with
        | word :: words => String c word :: words
        | [] => [String c EmptyString]
        end
  end.

(** [words.join(" ")] *)
Fixpoint join (words : list string) : string :=
  match words with
  | [] => EmptyString
  | [word] => word
  | word :: rest => word ++ String " " (join rest)
  end.

(** [word.charAt(0).toUpperCase() + word.slice(1)] *)
Definition capitalize (word : string) : string :=
  match word with
  | EmptyString => EmptyString
  | String c rest => String (upper c) rest
  end.

(** [toTitleCase], on an ASCII text; [Dashboard.js] has the same function. *)
Definition toTitleCase (str : string) : string :=
  join (map capitalize (split (toLowerCase str))).

(** [text.slice(0, stop)] *)
Definition slice_to (text : string) (stop : Z) : string :=
  let len := Z.of_nat (String.length text) in
  let k := if stop <? 0 then Z.max (len + stop) 0 else Z.min stop len in
  String.substring 0 (Z.to_nat k) text.

(** [truncateText], on a text *)
Definition truncateText (text : string) (maxLength : Z) : string :=
  if maxLength <? Z.of_nat (String.length text)
  then slice_to text maxLength ++ "..."
  else text.

End AdaptationsPage.

(* ================================================================== *)
(** ** Facts about the relational operators *)

Module RelFacts.
Import Rel.

Section Joins.
Context {A B : Type}.

Lemma in_join (on : A -> B -> bool) l r a b :
  In (a, b) (join on l r) <-> In a l /\ In b r /\ on a b = true.
Proof.
  unfold join. rewrite in_flat_map. split.
  - intros (a' & Ha & Hin). apply in_map_iff in Hin.
    destruct Hin as (b' & Heq & Hb). inversion Heq; subst.
    apply filter_In in Hb. tauto.
  - intros (Ha & Hb & Hon). exists a. split; [assumption|].
    apply in_map. apply filter_In. tauto.
Qed.

Lemma in_left_join_some (on : A -> B -> bool) l r a b :
  In (a, Some b) (left_join on l r) <-> In a l /\ In b r /\ on a b = true.
Proof.
  unfold left_join. rewrite in_flat_map. split.
  - intros (a' & Ha & Hin).
    destruct (filter (on a') r) as [|b0 bs] eqn:E.
    + destruct Hin as [Heq|[]]. discriminate.
    + apply in_map_iff in Hin. destruct Hin as (b' & Heq & Hb).
      inversion Heq; subst. rewrite <- E in Hb.
      apply filter_In in Hb. tauto.
  - intros (Ha & Hb & Hon). exists a. split; [assumption|].
    assert (Hf : In b (filter (on a) r)) by (apply filter_In; tauto).
    destruct (filter (on a) r) as [|b0 bs]; [destruct Hf|].
    apply (in_map (fun b => (a, Some b))). exact Hf.
Qed.

Lemma in_left_join_none (on : A -> B -> bool) l r a :
  In (a, None) (left_join on l r) <-> In a l /\ filter (on a) r = [].
Proof.
  unfold left_join. rewrite in_flat_map. split.
  - intros (a' & Ha & Hin).
    destruct (filter (on a') r) as [|b0 bs] eqn:E.
    + destruct Hin as [Heq|[]]. inversion Heq; subst. tauto.
    + apply in_map_iff in Hin. destruct Hin as (b' & Heq & _).
      discriminate.
  - intros (Ha & Hnone). exists a. split; [assumption|].
    rewrite Hnone. left. reflexivity.
Qed.

Lemma left_join_fst (on : A -> B -> bool) l r p :
  In p (left_join on l r) -> In (fst p) l.
Proof.
  destruct p as [a [b|]]; simpl.
  - intros H. apply in_left_join_some in H. tauto.
  - intros H. apply in_left_join_none in H. tauto.
Qed.

Lemma left_join_keeps (on : A -> B -> bool) l r a :
  In a l -> exists ob, In (a, ob) (left_join on l r).
Proof.
  intros Ha. destruct (filter (on a) r) as [|b bs] eqn:E.
  - exists None. apply in_left_join_none. tauto.
  - exists (Some b). apply in_left_join_some.
    assert (Hb : In b (filter (on a) r)) by (rewrite E; left; reflexivity).
    apply filter_In in Hb. tauto.
Qed.

End Joins.

Section GroupBy.
Context {A K : Type} (same : K -> K -> bool).

Lemma distinct_incl ks k : In k (distinct same ks) -> In k ks.
Proof.
  induction ks as [|k0 rest IH]; simpl; [tauto|].
  intros [->|H]; [now left|].
  apply filter_In in H. right. apply IH. tauto.
Qed.

Lemma in_group_by (key : A -> K) l k g :
  In (k, g) (group_by same key l) ->
  g = filter (fun a => same k (key a)) l /\ In k (map key l).
Proof.
  unfold group_by. intros H. apply in_map_iff in H.
  destruct H as (k' & Heq & Hk). inversion Heq; subst.
  split; [reflexivity|]. now apply distinct_incl.
Qed.

Hypothesis same_spec : forall a b, same a b = true <-> a = b.

Lemma distinct_complete ks k : In k ks -> In k (distinct same ks).
Proof.
  induction ks as [|k0 rest IH]; simpl; [tauto|].
  intros [->|H]; [now left|].
  destruct (same k0 k) eqn:E.
  - left. now apply same_spec.
  - right. apply filter_In. split; [now apply IH | now rewrite E].
Qed.

Lemma group_by_complete (key : A -> K) l a :
  In a l -> In (key a, filter (fun x => same (key a) (key x)) l) (group_by same key l).
Proof.
  intros Ha. unfold group_by.
  apply (in_map (fun k => (k, filter (fun x => same k (key x)) l))).
  apply distinct_complete. now apply in_map.
Qed.

End GroupBy.

Section OrderBy.
Context {A : Type} (before : A -> A -> bool).

Lemma insert_perm x l : Permutation (x :: l) (insert before x l).
Proof.
  induction l as [|y rest IH]; simpl; [reflexivity|].
  destruct (before x y); [reflexivity|].
  rewrite perm_swap. now apply perm_skip.
Qed.

Lemma order_by_perm l : Permutation l (order_by before l).
Proof.
  induction l as [|x rest IH]; simpl; [constructor|].
  rewrite <- insert_perm. now apply perm_skip.
Qed.

Lemma order_by_in l x : In x (order_by before l) <-> In x l.
Proof.
  split; apply Permutation_in; [symmetry|]; apply order_by_perm.
Qed.

Lemma order_by_nil l : order_by before l = [] -> l = [].
Proof.
  intros H. apply Permutation_nil. rewrite <- H.
  symmetry. apply order_by_perm.
Qed.

Hypothesis before_total : forall x y, before x y = true \/ before y x = true.
Hypothesis before_trans :
  forall x y z, before x y = true -> before y z = true -> before x z = true.

Lemma insert_sorted x l :
  StronglySorted (fun a b => before a b = true) l ->
  StronglySorted (fun a b => before a b = true) (insert before x l).
Proof.
  induction 1 as [|y rest Hs IH Hall]; simpl.
  - repeat constructor.
  - destruct (before x y) eqn:E.
    + constructor; [constructor; assumption|].
      constructor; [assumption|].
      eapply Forall_impl; [|exact Hall].
      intros z Hz. now apply before_trans with y.
    + constructor; [assumption|].
      assert (Hyx : before y x = true)
        by (destruct (before_total x y); congruence).
      rewrite Forall_forall in *. intros z Hz.
      apply (Permutation_in z (Permutation_sym (insert_perm x rest))) in Hz.
      destruct Hz as [<-|Hz]; auto.
Qed.

Lemma order_by_sorted l :
  StronglySorted (fun a b => before a b = true) (order_by before l).
Proof.
  induction l as [|x rest IH]; simpl; [constructor|].
  now apply insert_sorted.
Qed.

(** The first row of an ordered table may stand in front of every row. *)
Lemma order_by_head l x rest :
  order_by before l = x :: rest -> forall y, In y l -> before x y = true.
Proof.
  intros H y Hy. pose proof (order_by_sorted l) as Hs.
  rewrite H in Hs. apply StronglySorted_inv in Hs. destruct Hs as [_ Hall].
  apply order_by_in in Hy. rewrite H in Hy. destruct Hy as [<-|Hy].
  - destruct (before_total x x); assumption.
  - rewrite Forall_forall in Hall. now apply Hall.
Qed.

End OrderBy.

Lemma limit_one_length {A : Type} (l : list A) :
  (List.length (limit 1 l) <= 1)%nat.
Proof. destruct l; simpl; lia. Qed.

Lemma limit_one_head {A : Type} (l : list A) x :
  In x (limit 1 l) <-> exists rest, l = x :: rest.
Proof.
  destruct l as [|y rest]; simpl.
  - split; [tauto | intros [? H]; discriminate].
  - split.
    + intros [->|[]]. now exists rest.
    + intros [rest' H]. inversion H. now left.
Qed.

Lemma filter_twice {A : Type} (p : A -> bool) l :
  filter p (filter p l) = filter p l.
Proof.
  induction l as [|x rest IH]; simpl; [reflexivity|].
  destruct (p x) eqn:E; simpl; [rewrite E, IH|]; auto.
Qed.

Lemma hd_filter_find {A : Type} (p : A -> bool) l :
  hd_error (filter p l) = find p l.
Proof.
  induction l as [|x rest IH]; simpl; [reflexivity|].
  destruct (p x); simpl; auto.
Qed.

End RelFacts.

(* ================================================================== *)
(** ** Facts about doubles: whole numbers below [2 ^ 53] are doubles *)

Module Float8Facts.

Lemma Qred_whole (m : Z) : Qred (inject_Z m) = inject_Z m.
Proof.
  unfold Qred, inject_Z.
  pose proof (Z.ggcd_gcd m 1) as Hg.
  pose proof (Z.ggcd_correct_divisors m 1) as Hd.
  destruct (Z.ggcd m 1) as [g [aa bb]]. simpl in Hg, Hd.
  rewrite Z.gcd_1_r in Hg. subst g. destruct Hd as [Ha Hb].
  rewrite Z.mul_1_l in Ha, Hb. now subst aa bb.
Qed.

Lemma log2_floor_whole (m : Z) :
  0 < m -> Float8.log2_floor (inject_Z m) = Z.log2 m.
Proof.
  intros Hm. unfold Float8.log2_floor. simpl. rewrite Z.sub_0_r.
  pose proof (Z.log2_nonneg m) as Hk.
  pose proof (Z.log2_spec m Hm) as [Hlo _].
  unfold Float8.pow2.
  replace (0 <=? Z.log2 m) with true by (symmetry; apply Z.leb_le; lia).
  unfold Qle_bool. simpl. rewrite !Z.mul_1_r.
  now replace (2 ^ Z.log2 m <=? m) with true by (symmetry; apply Z.leb_le; lia).
Qed.

Lemma nearest_even_whole (n : Z) : Float8.nearest_even (n # 1) = n.
Proof.
  unfold Float8.nearest_even. simpl. rewrite Z.mod_1_r, Z.div_1_r. reflexivity.
Qed.

Lemma nearest_whole (m : Z) :
  0 < m < 2 ^ 53 -> (Float8.nearest (inject_Z m) == inject_Z m)%Q.
Proof.
  intros [Hm Hmax]. unfold Float8.nearest, Float8.last_place.
  rewrite (log2_floor_whole m Hm).
  pose proof (Z.log2_nonneg m) as Hk.
  assert (Hlt : Z.log2 m < 53) by (apply Z.log2_lt_pow2; lia).
  rewrite Z.max_r by lia.
  set (e := Z.log2 m - 52). assert (He : e <= 0) by (unfold e; lia).
  unfold Float8.pow2. destruct (0 <=? e) eqn:E.
  - apply Z.leb_le in E. replace e with 0 by lia. simpl.
    unfold Qdiv, Qinv, Qmult, inject_Z. simpl. rewrite nearest_even_whole.
    unfold Qeq. simpl. lia.
  - assert (Hp : 0 < 2 ^ (- e)) by (apply Z.pow_pos_nonneg; lia).
    destruct (2 ^ (- e)) as [|p|p] eqn:Ep; try lia. simpl.
    unfold Qdiv, Qinv, Qmult, inject_Z. simpl. rewrite nearest_even_whole.
    unfold Qeq. simpl. lia.
Qed.

(** A whole number below [2 ^ 53] is a double. *)
Lemma round_whole (m : Z) :
  0 <= m < 2 ^ 53 -> Float8.round (inject_Z m) = inject_Z m.
Proof.
  intros [Hm Hmax]. unfold Float8.round.
  destruct (Z.eq_dec m 0) as [->|Hne]; [reflexivity|].
  replace (inject_Z m ?= 0)%Q with Gt.
  - rewrite <- (Qred_whole m) at 2. apply Qred_complete, nearest_whole. lia.
  - symmetry. unfold Qcompare. simpl. rewrite Z.mul_1_r.
    apply Z.compare_gt_iff. lia.
Qed.

Lemma plus_whole (a b : Z) : (inject_Z a + inject_Z b)%Q = inject_Z (a + b).
Proof. unfold Qplus, inject_Z. simpl. f_equal. lia. Qed.

End Float8Facts.

(* ================================================================== *)
(** ** Facts about the adaptation statements *)

Module AdaptationFacts.
Import Db Sql Spec RelFacts Float8Facts.

Lemma no_member_nil {A : Type} (l : list A) : (forall x, ~ In x l) -> l = [].
Proof.
  destruct l as [|x rest]; [reflexivity|].
  intros H. exfalso. apply (H x). now left.
Qed.

(** Every row of the FROM clause joins a recorded adaptation pair. *)
Lemma movie_side_adapted d x :
  In x (movie_side_from d) -> adapted d (ms_movie x) (ms_book x).
Proof.
  intros H. unfold movie_side_from in H.
  apply left_join_fst in H. apply left_join_fst in H.
  destruct x as [[[[m bm] b] oa] omr]. simpl in H.
  apply in_join in H. destruct H as (H1 & Hb & Hon).
  apply in_join in H1. destruct H1 as (Hm & Hbm & Hon1).
  simpl in Hon, Hon1. apply Z.eqb_eq in Hon. apply String.eqb_eq in Hon1.
  unfold adapted, ms_movie, ms_book. simpl.
  repeat split; try assumption. exists bm. auto.
Qed.

Lemma book_side_adapted d id x :
  In x (book_side_from d id) -> adapted d (bs_movie x) (bs_book x).
Proof.
  intros H. unfold book_side_from in H.
  apply left_join_fst in H. apply left_join_fst in H.
  destruct x as [[[[b bm] m] oa] omr]. simpl in H.
  apply in_join in H. destruct H as (H1 & Hm & Hon).
  apply in_join in H1. destruct H1 as (Hb & Hbm & Hon1).
  simpl in Hon, Hon1. apply Z.eqb_eq in Hon1. apply String.eqb_eq in Hon.
  unfold adapted, bs_movie, bs_book. simpl.
  repeat split; try assumption. exists bm. auto.
Qed.

(** And every recorded pair shows up in the FROM clause. *)
Lemma adapted_movie_side d m b :
  adapted d m b ->
  exists x, In x (movie_side_from d) /\ ms_movie x = m /\ ms_book x = b.
Proof.
  intros (Hm & Hb & bm & Hbm & Ht & Hid).
  assert (H1 : In (m, bm) (Rel.join (fun m bm => String.eqb (tconst m) (map_tconst bm))
                             (movies_metadata d) (books_movies_map d))).
  { apply in_join. repeat split; try assumption.
    apply String.eqb_eq. now symmetry. }
  assert (H2 : In ((m, bm), b)
                 (Rel.join (fun x b => book_id b =? map_book_id (snd x))
                    (Rel.join (fun m bm => String.eqb (tconst m) (map_tconst bm))
                       (movies_metadata d) (books_movies_map d))
                    (books_data d))).
  { apply in_join. repeat split; try assumption.
    simpl. apply Z.eqb_eq. now symmetry. }
  destruct (left_join_keeps (fun x abr => book_id (snd x) =? fst abr) _
              (average_book_rating (books_rating d)) _ H2) as [oa H3].
  destruct (left_join_keeps
              (fun x mr => String.eqb (tconst (fst (fst (fst x)))) (movie_id mr)) _
              (movies_ratings d) _ H3) as [omr H4].
  exists ((((m, bm), b), oa), omr). auto.
Qed.

Lemma adapted_book_side d id m b :
  adapted d m b ->
  exists x, In x (book_side_from d id) /\ bs_movie x = m /\ bs_book x = b.
Proof.
  intros (Hm & Hb & bm & Hbm & Ht & Hid).
  assert (H1 : In (b, bm) (Rel.join (fun b bm => book_id b =? map_book_id bm)
                             (books_data d) (books_movies_map d))).
  { apply in_join. repeat split; try assumption.
    apply Z.eqb_eq. now symmetry. }
  assert (H2 : In ((b, bm), m)
                 (Rel.join (fun x m => String.eqb (map_tconst (snd x)) (tconst m))
                    (Rel.join (fun b bm => book_id b =? map_book_id bm)
                       (books_data d) (books_movies_map d))
                    (movies_metadata d))).
  { apply in_join. repeat split; try assumption.
    simpl. now apply String.eqb_eq. }
  destruct (left_join_keeps (fun x abr => book_id (fst (fst x)) =? fst abr) _
              (average_book_rating
                 (filter (fun r => review_book_id r =? id) (books_rating d)))
              _ H2) as [oa H3].
  destruct (left_join_keeps
              (fun x mr => String.eqb (tconst (snd (fst x))) (movie_id mr)) _
              (movies_ratings d) _ H3) as [omr H4].
  exists ((((b, bm), m), oa), omr). auto.
Qed.

Lemma sum_from_total (l : list Q) :
  forall sum, sum_from sum l
              = fold_left (fun sum x => Float8.round (sum + x)) l sum.
Proof. induction l as [|x rest IH]; intros sum; simpl; [reflexivity | apply IH]. Qed.

(** [AVG] is the mean in double precision. *)
Lemma avg_is_mean (l : list Q) : Rel.avg l = mean l.
Proof.
  destruct l as [|x rest]; [reflexivity|].
  unfold Rel.avg, Rel.total, mean. rewrite sum_from_total. reflexivity.
Qed.

(** The sum of whole numbers of stars is a whole number. *)
Lemma exact_sum_stars (l : list Q) :
  stars l ->
  exists t, 0 <= t <= 5 * Z.of_nat (List.length l) /\
            fold_right Qplus 0%Q l = inject_Z t.
Proof.
  induction l as [|x rest IH]; intros Hl.
  - exists 0. simpl. split; [lia|reflexivity].
  - destruct (Hl x (or_introl eq_refl)) as (n & Hn & ->).
    destruct IH as (t & Ht & Hsum); [intros y Hy; apply Hl; now right|].
    exists (n + t).
    change (List.length (inject_Z n :: rest)) with (S (List.length rest)).
    rewrite Nat2Z.inj_succ. split; [lia|].
    simpl. rewrite Hsum. apply plus_whole.
Qed.

(** Added one after the other as doubles, whole numbers of stars give
    their sum, as long as it stays below [2 ^ 53]. *)
Lemma sum_from_stars (l : list Q) :
  stars l ->
  forall s, 0 <= s -> s + 5 * Z.of_nat (List.length l) < 2 ^ 53 ->
  sum_from (inject_Z s) l = (inject_Z s + fold_right Qplus 0%Q l)%Q.
Proof.
  induction l as [|x rest IH]; intros Hl s Hs Hmax.
  - simpl. change 0%Q with (inject_Z 0). rewrite plus_whole. f_equal. lia.
  - destruct (Hl x (or_introl eq_refl)) as (n & Hn & ->).
    assert (Hrest : stars rest) by (intros y Hy; apply Hl; now right).
    change (List.length (inject_Z n :: rest)) with (S (List.length rest)) in Hmax.
    rewrite Nat2Z.inj_succ in Hmax.
    destruct (exact_sum_stars rest Hrest) as (t & Ht & Hsum).
    simpl. rewrite plus_whole, round_whole by lia.
    rewrite IH by (assumption || lia).
    rewrite Hsum, !plus_whole. f_equal. lia.
Qed.

(** The mean in double precision of whole numbers of stars is the double
    nearest to their arithmetic mean. *)
Lemma mean_of_stars (l : list Q) :
  stars l -> Z.of_nat (List.length l) < 2 ^ 50 ->
  mean l = option_map Float8.round (exact_mean l).
Proof.
  intros Hl Hmax. unfold mean, exact_mean.
  destruct l as [|x rest]; [reflexivity|].
  change (List.length (x :: rest)) with (S (List.length rest)) in Hmax |- *.
  cbv beta iota. change 0%Q with (inject_Z 0) at 1.
  rewrite (sum_from_stars (x :: rest) Hl 0)
    by (change (List.length (x :: rest)) with (S (List.length rest)); lia).
  destruct (exact_sum_stars (x :: rest) Hl) as (t & Ht & Hsum).
  rewrite Hsum, plus_whole. reflexivity.
Qed.

(** The average joined to a row is the mean of the reviews with the row's
    [book_id], whichever rows the left side has. *)
Lemma joined_average {L : Type} (key : L -> Z) (l : list L) reviews x oa :
  In (x, oa) (Rel.left_join (fun y abr => key y =? fst abr) l
                (average_book_rating reviews)) ->
  avg_book_rating oa
  = nullable (Rel.avg (map rating
                         (filter (fun r => review_book_id r =? key x) reviews))).
Proof.
  intros H. destruct oa as [[k a]|].
  - apply in_left_join_some in H. destruct H as (_ & Habr & Hon).
    simpl in Hon. apply Z.eqb_eq in Hon. subst k.
    unfold average_book_rating in Habr. apply in_map_iff in Habr.
    destruct Habr as ([k g] & Heq & Hg). simpl in Heq. inversion Heq; subst.
    apply in_group_by in Hg. destruct Hg as [-> _]. simpl.
    f_equal. f_equal. f_equal. apply filter_ext.
    intros r. apply Z.eqb_sym.
  - apply in_left_join_none in H. destruct H as [_ Hnone]. simpl.
    assert (Hno : filter (fun r => review_book_id r =? key x) reviews = []).
    { apply no_member_nil. intros r Hr. apply filter_In in Hr.
      destruct Hr as [Hr Hk]. apply Z.eqb_eq in Hk.
      pose proof (group_by_complete Z.eqb Z.eqb_eq review_book_id reviews r Hr) as Hg.
      set (g := (review_book_id r,
                 filter (fun y => review_book_id r =? review_book_id y) reviews)) in Hg.
      assert (Hin : In (fst g, Rel.avg (map rating (snd g)))
                      (filter (fun abr => key x =? fst abr)
                         (average_book_rating reviews))).
      { apply filter_In. split.
        - unfold average_book_rating.
          apply (in_map (fun g => (fst g, Rel.avg (map rating (snd g))))).
          exact Hg.
        - simpl. apply Z.eqb_eq. now symmetry. }
      rewrite Hnone in Hin. destruct Hin. }
    rewrite Hno. reflexivity.
Qed.

Lemma runtime_order_total (A : Type) (f : A -> Z) x y :
  (f y <=? f x) = true \/ (f x <=? f y) = true.
Proof. rewrite !Z.leb_le. lia. Qed.

Lemma runtime_order_trans (A : Type) (f : A -> Z) x y z :
  (f y <=? f x) = true -> (f z <=? f y) = true -> (f z <=? f x) = true.
Proof. rewrite !Z.leb_le. lia. Qed.



End AdaptationFacts.

(* ================================================================== *)
(** ** Facts about the outlier report *)

Module OutlierFacts.
Import Db Sql Spec RelFacts.

Lemma exceeds_two_lt z : exceeds_two z = true -> (2 < Qabs z)%Q.
Proof.
  unfold exceeds_two. intros H. apply negb_true_iff in H.
  apply Qnot_le_lt. intros Hle. apply Qle_bool_iff in Hle. congruence.
Qed.

Lemma div_by_nonzero a b z : Float8.div a b = Some z -> ~ (b == 0)%Q.
Proof.
  unfold Float8.div. destruct (Qeq_bool b 0) eqn:E; [discriminate|].
  intros _. now apply Qeq_bool_neq.
Qed.

(** What HAVING lets through, group by group. *)
Lemma having_outliers_sound groups :
  forall out, having_outliers groups = Some out ->
  forall e, In e out ->
  exists k g a difference,
    In (k, g) groups /\ o_title e = fst (fst k) /\
    Rel.avg (map obs_rating g) = Some a /\ o_avg e = Some a /\
    Float8.mi a (snd (fst k)) = Some difference /\
    Float8.div difference (snd k) = Some (o_z e) /\
    exceeds_two (o_z e) = true.
Proof.
  induction groups as [|[k g] rest IH]; simpl; intros out Hout e He.
  - inversion Hout; subst. destruct He.
  - assert (Hrest : forall out', having_outliers rest = Some out' -> In e out' ->
                    exists k0 g0 a difference,
                      In (k0, g0) ((k, g) :: rest) /\ o_title e = fst (fst k0) /\
                      Rel.avg (map obs_rating g0) = Some a /\ o_avg e = Some a /\
                      Float8.mi a (snd (fst k0)) = Some difference /\
                      Float8.div difference (snd k0) = Some (o_z e) /\
                      exceeds_two (o_z e) = true).
    { intros out' Hout' He'.
      destruct (IH out' Hout' e He') as (k0 & g0 & a & x & Hin & Hr).
      exists k0, g0, a, x. split; [now right | exact Hr]. }
    unfold z_score in Hout.
    destruct (Rel.avg (map obs_rating g)) as [a|] eqn:Ea.
    + destruct (Float8.mi a (snd (fst k))) as [x|] eqn:Ex; [|discriminate].
      destruct (Float8.div x (snd k)) as [z|] eqn:Ez; [|discriminate].
      destruct (having_outliers rest) as [out'|]; [|discriminate].
      destruct (exceeds_two z) eqn:E2;
        inversion Hout; subst; [|eauto].
      destruct He as [<-|He]; [|eauto].
      exists k, g, a, x. simpl. repeat split; auto.
    + destruct (having_outliers rest) as [out'|]; [|discriminate].
      inversion Hout; subst. eauto.
Qed.

(** The outliers of a list of observations are outliers in the sense of
    [outlier_of], for any view that holds the statistics rows observed. *)
Lemma outliers_of_sound obs view out :
  (forall o, In o obs -> In (snd o) view) ->
  outliers_of obs = Some out ->
  forall e, In e out -> outlier_of obs view e.
Proof.
  intros Hview Hout e He. unfold outliers_of in Hout.
  destruct (having_outliers_sound _ out Hout e He)
    as (k & g & a & x & Hin & Ht & Havg & Hoavg & Hx & Hz & Hex).
  apply in_group_by in Hin. destruct Hin as [Hg Hk].
  apply in_map_iff in Hk. destruct Hk as (o0 & Hk & Ho0). subst k g.
  exists (snd o0), a, x. simpl in *.
  split; [now apply Hview|].
  split; [exact (div_by_nonzero _ _ _ Hz)|].
  split; [|split; [assumption|split; [assumption|split;
             [assumption|now apply exceeds_two_lt]]]].
  rewrite <- AdaptationFacts.avg_is_mean, <- Havg. unfold title_ratings. rewrite Ht. reflexivity.
Qed.

Lemma book_observations_view d o :
  In o (book_observations d) -> In (snd o) (BookStats d).
Proof.
  unfold book_observations. intros H. apply in_map_iff in H.
  destruct H as ([x s] & <- & Hx). apply in_join in Hx. simpl. tauto.
Qed.

Lemma movie_observations_view d o :
  In o (movie_observations d) -> In (snd o) (MovieStats d).
Proof.
  unfold movie_observations. intros H. apply in_map_iff in H.
  destruct H as ([x s] & <- & Hx). apply in_join in Hx. simpl. tauto.
Qed.

Lemma in_union_all books movies e :
  In e (union_all books movies) ->
  (fst e = "Book" /\ In (snd e) books) \/ (fst e = "Movie" /\ In (snd e) movies).
Proof.
  unfold union_all. intros H. apply in_app_or in H.
  destruct H as [H|H]; apply in_map_iff in H; destruct H as (o & <- & Ho); auto.
Qed.

(** Every entry of the report is an outlier of its kind. *)
Lemma report_sound d sorted e :
  book_and_movie_outliers d = Some sorted -> In e sorted -> reported d e.
Proof.
  unfold book_and_movie_outliers.
  destruct (outliers_of (book_observations d)) as [books|] eqn:Eb; [|discriminate].
  destruct (outliers_of (movie_observations d)) as [movies|] eqn:Em; [|discriminate].
  intros Hs He. inversion Hs; subst. apply order_by_in in He.
  apply in_union_all in He. destruct He as [[Hk Ho]|[Hk Ho]]; [left|right];
    (split; [assumption|]).
  - exact (outliers_of_sound _ _ books (book_observations_view d) Eb _ Ho).
  - exact (outliers_of_sound _ _ movies (movie_observations_view d) Em _ Ho).
Qed.

Lemma by_z_desc_total x y : by_z_desc x y = true \/ by_z_desc y x = true.
Proof.
  unfold by_z_desc. rewrite !Qle_bool_iff.
  destruct (Qlt_le_dec (o_z (snd x)) (o_z (snd y))) as [H|H];
    [right; now apply Qlt_le_weak | now left].
Qed.

Lemma by_z_desc_trans x y z :
  by_z_desc x y = true -> by_z_desc y z = true -> by_z_desc x z = true.
Proof.
  unfold by_z_desc. rewrite !Qle_bool_iff. intros H1 H2.
  now apply Qle_trans with (o_z (snd y)).
Qed.

Lemma sorted_by_z l :
  StronglySorted (fun x y => (o_z (snd y) <= o_z (snd x))%Q)
    (Rel.order_by by_z_desc l).
Proof.
  pose proof (order_by_sorted by_z_desc by_z_desc_total by_z_desc_trans l) as H.
  induction H as [|x rest Hs IH Hall]; constructor; [assumption|].
  eapply Forall_impl; [|exact Hall].
  intros y Hy. now apply Qle_bool_iff.
Qed.

(** The constant column [media_type] labels the two halves of the union. *)
Lemma media_type_labels : labels "media_type" (Js.Str "Book") (Js.Str "Movie").
Proof.
  split; [discriminate|]. intros d books movies _ _. split; reflexivity.
Qed.

End OutlierFacts.

(* ================================================================== *)
(** ** Properties of the handlers *)

Import Db Sql Routes Spec.

(** Run the statement of a handler on a state whose [reachable] flag is
    known by [H]. *)
Ltac carried_out H := simpl; rewrite H; simpl.

Lemma book_adaptations_canonical d t :
  (List.length (book_adaptations d t) <= 1)%nat /\
  (forall x, In x (book_adaptations d t) ->
             canonical_book_row d t (movie_side_to_js x)) /\
  ((exists m b, adapted d m b /\ tconst m = t) -> book_adaptations d t <> []).
Proof.
  unfold book_adaptations.
  set (before := fun x y : movie_side =>
                   runtimeminutes (ms_movie y) <=? runtimeminutes (ms_movie x)).
  set (cands := filter (fun x => String.eqb (tconst (ms_movie x)) t)
                  (movie_side_from d)).
  assert (Hcand : forall m b, adapted d m b -> tconst m = t ->
                  exists y, In y cands /\ ms_movie y = m).
  { intros m b Hmb Ht. destruct (AdaptationFacts.adapted_movie_side d m b Hmb)
      as (y & Hy & Hym & _).
    exists y. split; [|assumption]. apply filter_In. split; [assumption|].
    rewrite Hym. now apply String.eqb_eq. }
  split; [apply RelFacts.limit_one_length|]. split.
  - intros x Hx. apply RelFacts.limit_one_head in Hx. destruct Hx as [rest Hx].
    assert (Hin : In x cands).
    { apply (RelFacts.order_by_in before). rewrite Hx. now left. }
    apply filter_In in Hin. destruct Hin as [Hfrom Ht].
    apply String.eqb_eq in Ht.
    exists (ms_movie x), (ms_book x).
    split; [now apply AdaptationFacts.movie_side_adapted|].
    split; [assumption|]. split.
    + intros m' b' Hmb Ht'. destruct (Hcand m' b' Hmb Ht') as (y & Hy & <-).
      apply Z.leb_le.
      apply (RelFacts.order_by_head before
               (fun a b => AdaptationFacts.runtime_order_total _ (fun z => runtimeminutes (ms_movie z)) a b)
               (fun a b c => AdaptationFacts.runtime_order_trans _ (fun z => runtimeminutes (ms_movie z)) a b c)
               cands x rest Hx y Hy).
    + repeat split; try reflexivity.
      simpl. unfold ratings_of, movie_side_from in *.
      destruct x as [[jb oa] omr].
      apply RelFacts.left_join_fst in Hfrom. simpl in Hfrom.
      apply (AdaptationFacts.joined_average (fun y => book_id (snd y))) in Hfrom.
      exact Hfrom.
  - intros (m & b & Hmb & Ht) Hnil.
    destruct (Hcand m b Hmb Ht) as (y & Hy & _).
    destruct (Rel.order_by before cands) as [|x rest] eqn:E.
    + apply RelFacts.order_by_nil in E. rewrite E in Hy. destruct Hy.
    + discriminate.
Qed.

Lemma movie_adaptations_canonical d id :
  (List.length (movie_adaptations d id) <= 1)%nat /\
  (forall x, In x (movie_adaptations d id) ->
             canonical_movie_row d id (book_side_to_js x)) /\
  ((exists m b, adapted d m b /\ book_id b = id) -> movie_adaptations d id <> []).
Proof.
  unfold movie_adaptations.
  set (before := fun x y : book_side =>
                   runtimeminutes (bs_movie y) <=? runtimeminutes (bs_movie x)).
  set (cands := filter (fun x => book_id (bs_book x) =? id) (book_side_from d id)).
  assert (Hcand : forall m b, adapted d m b -> book_id b = id ->
                  exists y, In y cands /\ bs_movie y = m).
  { intros m b Hmb Hb. destruct (AdaptationFacts.adapted_book_side d id m b Hmb)
      as (y & Hy & Hym & Hyb).
    exists y. split; [|assumption]. apply filter_In. split; [assumption|].
    rewrite Hyb. now apply Z.eqb_eq. }
  split; [apply RelFacts.limit_one_length|]. split.
  - intros x Hx. apply RelFacts.limit_one_head in Hx. destruct Hx as [rest Hx].
    assert (Hin : In x cands).
    { apply (RelFacts.order_by_in before). rewrite Hx. now left. }
    apply filter_In in Hin. destruct Hin as [Hfrom Hb].
    apply Z.eqb_eq in Hb.
    exists (bs_movie x), (bs_book x).
    split; [now apply (AdaptationFacts.book_side_adapted d id)|].
    split; [assumption|]. split.
    + intros m' b' Hmb Hb'. destruct (Hcand m' b' Hmb Hb') as (y & Hy & <-).
      apply Z.leb_le.
      apply (RelFacts.order_by_head before
               (fun a b => AdaptationFacts.runtime_order_total _ (fun z => runtimeminutes (bs_movie z)) a b)
               (fun a b c => AdaptationFacts.runtime_order_trans _ (fun z => runtimeminutes (bs_movie z)) a b c)
               cands x rest Hx y Hy).
    + repeat split; try reflexivity.
      simpl. unfold ratings_of, book_side_from in *.
      destruct x as [[jb oa] omr].
      apply RelFacts.left_join_fst in Hfrom. simpl in Hfrom.
      apply (AdaptationFacts.joined_average (fun y => book_id (fst (fst y)))) in Hfrom.
      change (avg_book_rating oa
              = nullable (Rel.avg (map rating
                                     (filter (fun r => review_book_id r =? id)
                                        (books_rating d))))).
      rewrite Hfrom. unfold bs_book in Hb. simpl in Hb. rewrite Hb.
      now rewrite RelFacts.filter_twice.
  - intros (m & b & Hmb & Hb) Hnil.
    destruct (Hcand m b Hmb Hb) as (y & Hy & _).
    destruct (Rel.order_by before cands) as [|x rest] eqn:E.
    + apply RelFacts.order_by_nil in E. rewrite E in Hy. destruct Hy.
    + discriminate.
Qed.

Lemma nonempty_text t : t <> "" -> (String.length t =? 0)%nat = false.
Proof. destruct t; [congruence | reflexivity]. Qed.

(** What [AVG] puts into a row is the mean of the ratings, or [null]. *)
Lemma nullable_avg_is_mean_rating d id v :
  v = nullable (Rel.avg (ratings_of d id)) -> mean_rating d id v.
Proof.
  intros ->.
  assert (Hmean : shows (mean (ratings_of d id))
                    (nullable (Rel.avg (ratings_of d id)))).
  { rewrite <- AdaptationFacts.avg_is_mean.
    destruct (Rel.avg (ratings_of d id)); reflexivity. }
  split; [exact Hmean|]. intros Hstars Hcount.
  now rewrite <- (AdaptationFacts.mean_of_stars _ Hstars Hcount).
Qed.

Lemma canonical_book_of_movie d t r :
  canonical_book_row d t r -> book_of_movie d t r.
Proof.
  intros (m & b & Hmb & Ht & Hmax & Hid & Htitle & Hmovie & Hrating).
  exists m, b. split; [exact Hmb|]. split; [exact Ht|]. split; [exact Hmax|].
  split; [exact Hid|]. split; [exact Htitle|]. split; [exact Hmovie|].
  now apply nullable_avg_is_mean_rating.
Qed.

Lemma canonical_movie_of_book d id r :
  canonical_movie_row d id r -> movie_of_book d id r.
Proof.
  intros (m & b & Hmb & Hb & Hmax & Hid & Hmovie & Htitle & Hrating).
  exists m, b. split; [exact Hmb|]. split; [exact Hb|]. split; [exact Hmax|].
  split; [exact Hid|]. split; [exact Hmovie|]. split; [exact Htitle|].
  now apply nullable_avg_is_mean_rating.
Qed.

(** The look-up of a movie whose [tconst] is read as the literal [s]. *)
Lemma book_lookup (engine : rows_engine) d t s :
  t <> "" -> reachable d = true -> read_quoted t = Literal s ->
  run engine (get_book_adaptations_for_movie t) d
  = (d, json (Js.Arr (map movie_side_to_js (book_adaptations d s)))).
Proof.
  intros Ht Hup Hs. unfold get_book_adaptations_for_movie.
  rewrite (nonempty_text t Ht). carried_out Hup. now rewrite Hs.
Qed.

(** The look-up of a book. *)
Lemma movie_lookup (engine : rows_engine) d id :
  -1 <= id -> reachable d = true ->
  run engine (get_movie_adaptations_for_book id) d
  = (d, json (Js.Arr (map book_side_to_js (movie_adaptations d id)))).
Proof.
  intros Hid Hup. unfold get_movie_adaptations_for_book.
  replace (id <? -1) with false by (symmetry; apply Z.ltb_ge; lia).
  now carried_out Hup.
Qed.

(** A statement that does not reach the server fails. *)
Lemma unreachable_fails (engine : rows_engine) s d :
  reachable d = false -> exec engine s d = (d, Failed).
Proof. intros Hdown. destruct s; simpl; now rewrite Hdown. Qed.

(** C1.  [get_book_adaptations_for_movie] writes [tconst] between
    apostrophes into the text of its statement, and the server reads that
    text, not the [tconst].  For a movie whose [tconst] ends in an
    apostrophe, mapped to a book, the text is malformed and the look-up
    answers 500, not the row of the book.  For a [tconst] that goes on with
    [' OR 'a'='a] the WHERE clause holds of every row, and the look-up
    answers with the longest movie of the whole map, a row of another movie:
    no movie has that [tconst] and [books_movies_map] maps no book to it. *)
Theorem adaptation_lookup_reads_tconst_as_sql :
  forall engine : rows_engine,
    ((exists m b, adapted Sample.apostrophe m b /\ tconst m = "tt0087182'") /\
     run engine (app (GET_adaptations_books "tt0087182'")) Sample.apostrophe
     = (Sample.apostrophe,
        status_json 500 (Js.Obj [("error", Js.Str "Internal Server Error")])))
    /\
    ((forall m, In m (movies_metadata Sample.library) ->
                tconst m <> Sample.widening) /\
     unmapped_movie Sample.library Sample.widening /\
     run engine (app (GET_adaptations_books Sample.widening)) Sample.library
     = (Sample.library,
        status_json 200
          (Js.Arr
             [Js.Obj [("book_id", Js.Num 1);
                      ("book_title", Js.Str "Dune");
                      ("book_rating", Js.Num (9 # 2));
                      ("movie_title", Js.Str "Dune (2021)");
                      ("avg_movie_rating", Js.Num 8);
                      ("is_movie_adult", Js.Bool false)]]))).
Proof.
  intros engine. split; split.
  - exists (Sample.a_movie "tt0087182'" "Dune (1984)" 137), (Sample.a_book 1 "Dune").
    split; [|reflexivity]. split; [simpl; tauto|]. split; [simpl; tauto|].
    exists {| map_book_id := 1; map_tconst := "tt0087182'" |}.
    split; [simpl; tauto|]. split; reflexivity.
  - reflexivity.
  - intros m [<-|[<-|[]]]; discriminate.
  - split; [intros bm [<-|[<-|[]]]; discriminate|].
    vm_compute. reflexivity.
Qed.

(** X26.  For a [tconst] that the server reads as the literal it was written
    as, denoting [s]: the adaptation look-up of a movie returns at most one
    row; a row it returns shows a book mapped to the movie [s] in
    [books_movies_map] such that no mapping of [s] has a longer runtime, with
    [book_rating] the arithmetic mean, in double precision, of the book's
    review ratings in [books_rating] ([null] for a book without a review):
    for fewer than [2 ^ 50] ratings that are whole numbers of stars, the
    double nearest to their arithmetic mean; and with the database reachable
    it answers 200 with exactly one such row whenever the movie has a mapped
    book.  The look-up of a book does the same towards the mapped movie with
    the highest runtime. *)
Theorem adaptation_lookup_returns_longest_runtime :
  forall (engine : rows_engine) (d : Db.state) (t s : string) (id : Z),
    read_quoted t = Literal s ->
    let for_movie := snd (run engine (get_book_adaptations_for_movie t) d) in
    let for_book := snd (run engine (get_movie_adaptations_for_book id) d) in
    ((List.length (entries for_movie) <= 1)%nat /\
     (forall r, In r (entries for_movie) -> book_of_movie d s r) /\
     (reachable d = true -> t <> "" ->
      (exists m b, adapted d m b /\ tconst m = s) ->
      exists r, for_movie = status_json 200 (Js.Arr [r])))
    /\
    ((List.length (entries for_book) <= 1)%nat /\
     (forall r, In r (entries for_book) -> movie_of_book d id r) /\
     (reachable d = true -> -1 <= id ->
      (exists m b, adapted d m b /\ book_id b = id) ->
      exists r, for_book = status_json 200 (Js.Arr [r]))).
Proof.
  intros engine d t s id Hs. cbv zeta. split.
  - destruct (book_adaptations_canonical d s) as (Hlen & Hrow & Hsome).
    destruct (String.length t =? 0)%nat eqn:Et.
    { unfold get_book_adaptations_for_movie. rewrite Et.
      unfold entries. simpl. split; [lia|]. split; [intros r []|].
      intros _ Ht. rewrite (nonempty_text t Ht) in Et. discriminate. }
    assert (Ht : t <> "") by (intros ->; discriminate).
    destruct (reachable d) eqn:Hup.
    + rewrite (book_lookup engine d t s Ht Hup Hs). unfold entries. simpl.
      split; [now rewrite length_map|]. split.
      * intros r Hr. apply in_map_iff in Hr. destruct Hr as (x & <- & Hx).
        apply canonical_book_of_movie. auto.
      * intros _ _ Hex. specialize (Hsome Hex).
        destruct (book_adaptations d s) as [|x [|y rest]];
          [congruence | | simpl in Hlen; lia].
        exists (movie_side_to_js x). reflexivity.
    + unfold get_book_adaptations_for_movie. rewrite Et. simpl.
      rewrite Hup. unfold entries. simpl.
      split; [lia|]. split; [intros r []|discriminate].
  - destruct (movie_adaptations_canonical d id) as (Hlen & Hrow & Hsome).
    destruct (id <? -1) eqn:Eid.
    { unfold get_movie_adaptations_for_book. rewrite Eid.
      unfold entries. simpl. split; [lia|]. split; [intros r []|].
      intros _ Hid. apply Z.ltb_lt in Eid. lia. }
    assert (Hid : -1 <= id) by (apply Z.ltb_ge in Eid; lia).
    destruct (reachable d) eqn:Hup.
    + rewrite (movie_lookup engine d id Hid Hup). unfold entries. simpl.
      split; [now rewrite length_map|]. split.
      * intros r Hr. apply in_map_iff in Hr. destruct Hr as (x & <- & Hx).
        apply canonical_movie_of_book. auto.
      * intros _ _ Hex. specialize (Hsome Hex).
        destruct (movie_adaptations d id) as [|x [|y rest]];
          [congruence | | simpl in Hlen; lia].
        exists (book_side_to_js x). reflexivity.
    + unfold get_movie_adaptations_for_book. rewrite Eid. simpl.
      rewrite Hup. unfold entries. simpl.
      split; [lia|]. split; [intros r []|discriminate].
Qed.

Lemma adaptation_lookup_witness :
  read_quoted "tt0087182" = Literal "tt0087182" /\
  (exists m b, adapted Sample.library m b /\ tconst m = "tt0087182") /\
  exists r,
    snd (run Sample.no_rows (get_book_adaptations_for_movie "tt0087182")
           Sample.library)
    = status_json 200 (Js.Arr [r]).
Proof.
  assert (Hs : read_quoted "tt0087182" = Literal "tt0087182") by reflexivity.
  assert (Ht : "tt0087182" <> "") by discriminate.
  assert (Hex : exists m b, adapted Sample.library m b /\ tconst m = "tt0087182").
  { exists (Sample.a_movie "tt0087182" "Dune (1984)" 137), (Sample.a_book 1 "Dune").
    split; [|reflexivity]. split; [simpl; tauto|]. split; [simpl; tauto|].
    exists {| map_book_id := 1; map_tconst := "tt0087182" |}.
    split; [simpl; tauto|]. split; reflexivity. }
  split; [exact Hs|]. split; [exact Hex|].
  exact (proj2 (proj2 (proj1 (adaptation_lookup_returns_longest_runtime
                                Sample.no_rows Sample.library
                                "tt0087182" "tt0087182" 1 Hs)))
           eq_refl Ht Hex).
Defined.

(** On the sample database book 1 has two mapped movies; the look-up
    returns the longer one, with the mean 9/2 of the two reviews. *)
Example adaptation_of_book_1 :
  snd (run Sample.no_rows (app (GET_adaptations_movies 1)) Sample.library)
  = json (Js.Arr
            [Js.Obj [("book_title", Js.Str "Dune");
                     ("book_description", Js.Str "");
                     ("book_image_link", Js.Str "");
                     ("book_publisher_name", Js.Str "");
                     ("book_published_date", Js.Str "1965-08-01");
                     ("book_average_rating", Js.Num (9 # 2));
                     ("movie_title", Js.Str "Dune (2021)");
                     ("avg_movie_rating", Js.Num 8);
                     ("is_movie_adult", Js.Bool false);
                     ("movie_id", Js.Str "tt1160419")]]).
Proof. vm_compute. reflexivity. Qed.

(** The mean of the ratings 5, 4 and 4 is the double nearest to 13/3, and
    a doubled apostrophe in a [tconst] stands for one. *)
Example mean_of_three_ratings :
  Rel.avg [5%Q; 4%Q; 4%Q] = Some (4878899596318037 # 1125899906842624)
  /\ read_quoted "tt''1" = Literal "tt'1".
Proof. split; vm_compute; reflexivity. Qed.



(** C10.  [get_movie_adaptations_for_book] answers 500 without a statement
    exactly when [book_id < -1]; from -1 upwards, and so for the negative
    -1, it sends the statement with [book_id] in it.  [get_book_details]
    answers every negative [book_id] with 404. *)
Theorem movie_adaptations_guard_is_below_minus_one :
  forall id : Z,
    (get_movie_adaptations_for_book id
     = Respond (status_json 500 (Js.Obj [("error", Js.Str "Internal Server Error")]))
     <-> id < -1)
    /\ (-1 <= id ->
        get_movie_adaptations_for_book id
        = Query (Select (Sel_movie_adaptations id)) rows_or_500)
    /\ get_movie_adaptations_for_book (-1)
       = Query (Select (Sel_movie_adaptations (-1))) rows_or_500
    /\ (id < 0 ->
        get_book_details id
        = Respond (status_json 404 (Js.Obj [("message", Js.Str "No books found")]))).
Proof.
  intros id. unfold get_movie_adaptations_for_book, get_book_details.
  repeat split.
  - destruct (id <? -1) eqn:E; [intros _; now apply Z.ltb_lt | discriminate].
  - intros H. apply Z.ltb_lt in H. now rewrite H.
  - intros H. now replace (id <? -1) with false by (symmetry; apply Z.ltb_ge; lia).
  - intros H. apply Z.ltb_lt in H. now rewrite H.
Qed.

(** C4.  The year guard of [search_books] compares the two query texts, not
    the years they denote: the range 999..1000 is answered 404 without a
    statement, and the range 1000..999 is let through to the statement. *)
Theorem search_books_year_guard_compares_text :
  (decimal "999" = Some 999 /\ decimal "1000" = Some 1000 /\
   search_books None None None (Some "999") (Some "1000")
   = Respond (status_json 404 (Js.Obj [("error", Js.Str "Invalid year range")])))
  /\
  search_books None None None (Some "1000") (Some "999")
  = Query (Select (Sel_search_books "" "" "" "1000" "999")) rows_or_500.
Proof. repeat split. Qed.

(** C8.  [get_book_reviews] answers a negative [book_id] with status 404 and
    the bare JSON string ['Internal Server Error'], which is neither an array
    nor an object with a [message] or [error] field; and
    [PositiveReviewsforBooksvsLowMovierating] answers a failed statement
    with the same bare string. *)
Theorem book_reviews_answers_a_bare_string :
  app (GET_books_reviews (Some (-1)) None None)
  = Respond (status_json 404 (Js.Str "Internal Server Error"))
  /\ rows_or_object (Js.Str "Internal Server Error") = false
  /\ forall (engine : rows_engine) (d : Db.state),
       reachable d = false ->
       snd (run engine (app (GET_analytics_PositiveReviews None)) d)
       = status_json 500 (Js.Str "Internal Server Error").
Proof.
  repeat split. intros engine d Hdown. now carried_out Hdown.
Qed.

(** C5.  For a [book_id] that is not negative, within 32 bits, whose
    statement succeeds without a row, [get_book_details] answers 200 with an
    empty array, not 404: the callback tests [data.length], which a result
    object does not have. *)
Theorem book_details_without_rows_is_200 :
  forall (engine : rows_engine) (d : Db.state) (id : Z),
    0 <= id -> id <= 2147483647 -> reachable d = true ->
    select_book_details d id = [] ->
    run engine (get_book_details id) d = (d, status_json 200 (Js.Arr [])).
Proof.
  intros engine d id Hid Hmax Hup Hnone. unfold get_book_details.
  replace (id <? 0) with false by (symmetry; apply Z.ltb_ge; lia).
  carried_out Hup. unfold int4.
  replace (-2147483648 <=? id) with true by (symmetry; apply Z.leb_le; lia).
  replace (id <=? 2147483647) with true by (symmetry; apply Z.leb_le; lia).
  simpl. now rewrite Hnone.
Qed.

Lemma book_details_without_rows_witness :
  (0 <= 99999 /\ 99999 <= 2147483647 /\ reachable Sample.library = true /\
   select_book_details Sample.library 99999 = []) /\
  run Sample.no_rows (get_book_details 99999) Sample.library
  = (Sample.library, status_json 200 (Js.Arr [])).
Proof.
  assert (H0 : 0 <= 99999) by lia.
  assert (H1 : 99999 <= 2147483647) by lia.
  split; [split; [exact H0 | split; [exact H1 | split; reflexivity]] |].
  exact (book_details_without_rows_is_200 Sample.no_rows Sample.library 99999
           H0 H1 eq_refl eq_refl).
Defined.

Lemma first_selected_row (d : Db.state) (u : Js.field) :
  match stored_row d u with
  | Some r => exists rest, select_login d u = r :: rest
  | None => select_login d u = []
  end.
Proof.
  destruct u as [| |name]; simpl; try reflexivity.
  rewrite <- RelFacts.hd_filter_find.
  destruct (filter _ (Db.login d)) as [|r rest]; simpl; eauto.
Qed.

Lemma strict_eq_stored (pass : Js.field) (pw : string) :
  Js.strict_eq (Js.of_field pass) (Js.Str pw) = true <-> pass = Js.Text pw.
Proof.
  destruct pass as [| |s]; simpl; try (split; discriminate).
  rewrite String.eqb_eq. split; [intros -> | intros H; inversion H]; reflexivity.
Qed.

(** C6.  With the statement carried out: when [login] has a row for the user
    name and the supplied password is the stored string, the answer is 200
    with [{message: 'Login successful'}]; when there is no row, or the
    supplied password is anything else, the answer is 401 with
    [{message: 'Incorrect username/password! Try again.'}]. *)
Theorem login_compares_password_by_equality :
  forall (engine : rows_engine) (d : Db.state) (user pass : Js.field),
    reachable d = true ->
    match stored_row d user with
    | Some r =>
        (pass = Js.Text (Db.password r) ->
         snd (run engine (Routes.login user pass) d)
         = status_json 200 (Js.Obj [("message", Js.Str "Login successful")]))
        /\
        (pass <> Js.Text (Db.password r) ->
         snd (run engine (Routes.login user pass) d)
         = status_json 401
             (Js.Obj [("message", Js.Str "Incorrect username/password! Try again.")]))
    | None =>
        snd (run engine (Routes.login user pass) d)
        = status_json 401
            (Js.Obj [("message", Js.Str "Incorrect username/password! Try again.")])
    end.
Proof.
  intros engine d user pass Hup.
  pose proof (first_selected_row d user) as Hrow.
  unfold Routes.login. carried_out Hup.
  destruct (stored_row d user) as [r|].
  - destruct Hrow as [rest ->]. simpl.
    pose proof (strict_eq_stored pass (Db.password r)) as Heq.
    destruct (Js.strict_eq (Js.of_field pass) (Js.Str (Db.password r))).
    + split; [reflexivity|]. intros Hne. exfalso. apply Hne. now apply Heq.
    + split; [|reflexivity]. intros Hsame. apply Heq in Hsame. discriminate.
  - rewrite Hrow. reflexivity.
Qed.

Lemma login_witness :
  reachable Sample.library = true /\
  snd (run Sample.no_rows (Routes.login (Js.Text "ann") (Js.Text "secret"))
         Sample.library)
  = status_json 200 (Js.Obj [("message", Js.Str "Login successful")]).
Proof.
  split; [reflexivity|].
  exact (proj1 (login_compares_password_by_equality
                  Sample.no_rows Sample.library (Js.Text "ann") (Js.Text "secret")
                  eq_refl) eq_refl).
Defined.

(** A statement that was read as meant has one result, or fails. *)
Lemma eval_one_result (engine : rows_engine) (q : select) (d : Db.state) :
  eval engine q d <> Several.
Proof.
  destruct q; simpl; unfold answer, selected;
    repeat match goal with
           | |- context [if ?c then _ else _] => destruct c
           | |- context [match ?x with Some _ => _ | None => _ end] => destruct x
           end;
    discriminate.
Qed.

(** A text that was read as meant, or rejected, leaves the state as it was
    and has one result at most. *)
Lemma meant_select (engine : rows_engine) (q : select) (d : Db.state) :
  match parse q with
  | Reads _ => True
  | Malformed => True
  | _ => False
  end ->
  fst (exec engine (Select q) d) = d /\ snd (exec engine (Select q) d) <> Several.
Proof.
  intros H. simpl. destruct (negb (reachable d)); [split; [reflexivity|discriminate]|].
  destruct (parse q) as [q'| | | |]; try contradiction.
  - split; [reflexivity | apply eval_one_result].
  - split; [reflexivity | discriminate].
Qed.

Lemma app_selects (r : request) :
  is_signup r = false ->
  forall s, statement_of (app r) = Some s -> exists q, s = Select q.
Proof.
  destruct r; simpl; try discriminate; intros _ s;
    unfold Routes.login, get_book_details, get_book_reviews,
      get_book_adaptations_for_movie, get_movie_adaptations_for_book,
      moviesDetails, moviesDetailsWithId, searchMovies, search_books,
      topMoviesByGenre, book_analytics_top_authors,
      correlationReviewsMovieRatings, PositiveReviewsforBooksvsLowMovierating,
      BookAndMovieOutliers;
    repeat match goal with
           | |- context [if ?c then _ else _] => destruct c
           end;
    simpl; intros H; inversion H; eauto.
Qed.

(** A request other than signup whose text is read as meant leaves the
    state as it was. *)
Lemma meant_frame (engine : rows_engine) (r : request) (d : Db.state) :
  is_signup r = false -> as_meant r = true -> fst (run engine (app r) d) = d.
Proof.
  intros Hr Hmeant. pose proof (app_selects r Hr) as Hsel.
  unfold as_meant in Hmeant.
  destruct (app r) as [resp|s callback|resp s]; simpl in *.
  - reflexivity.
  - destruct (Hsel s eq_refl) as [q ->].
    assert (Hq : match parse q with
                 | Reads _ => True
                 | Malformed => True
                 | _ => False
                 end) by (destruct (parse q); try discriminate; exact I).
    destruct (meant_select engine q d Hq) as [Hd _].
    destruct (exec engine (Select q) d) as [d' o]. exact Hd.
  - destruct (Hsel s eq_refl) as [q ->].
    assert (Hq : match parse q with
                 | Reads _ => True
                 | Malformed => True
                 | _ => False
                 end) by (destruct (parse q); try discriminate; exact I).
    exact (proj1 (meant_select engine q d Hq)).
Qed.

(** C9.  A request that is no signup can write: [routes.js] writes [tconst]
    into the text of the look-up, and a [tconst] that ends its literal and
    goes on with an INSERT makes the text three statements, which the server
    carries out.  The GET request for such a [tconst] adds a row to [login],
    as a signup does, and is answered 200 with an empty body, since the
    array of results it hands to the callback has no [rows]. *)
Theorem a_lookup_can_insert_into_login :
  forall (engine : rows_engine) (d : Db.state),
    reachable d = true ->
    (forall r, In r (Db.login d) -> username r <> "mallory") ->
    let r := GET_adaptations_books Sample.signing_up in
    is_signup r = false /\
    run engine (app r) d
    = (with_login d (Db.login d ++ [{| username := "mallory"; password := "pw" |}]),
       status_json 200 Js.Undefined) /\
    fst (serve engine [r] d) <> d.
Proof.
  intros engine d Hup Hfree. cbv zeta.
  assert (Hno : existsb (fun r => String.eqb (username r) "mallory") (Db.login d)
                = false).
  { destruct (existsb _ (Db.login d)) eqn:E; [|reflexivity].
    apply existsb_exists in E. destruct E as (r & Hr & Heq).
    apply String.eqb_eq in Heq. exfalso. exact (Hfree r Hr Heq). }
  assert (Hrun : run engine (app (GET_adaptations_books Sample.signing_up)) d
                 = (with_login d (Db.login d
                                    ++ [{| username := "mallory"; password := "pw" |}]),
                    status_json 200 Js.Undefined)).
  { cbn. rewrite Hup. cbn. unfold inserted, insert_login. cbn. rewrite Hno.
    reflexivity. }
  split; [reflexivity|]. split; [exact Hrun|].
  cbn [serve]. rewrite Hrun. cbn. intros Hsame.
  apply (f_equal (fun s => List.length (Db.login s))) in Hsame.
  cbn in Hsame. rewrite length_app in Hsame. cbn in Hsame. lia.
Qed.

Lemma a_lookup_can_insert_into_login_witness :
  (reachable Sample.library = true /\
   forall r, In r (Db.login Sample.library) -> username r <> "mallory") /\
  fst (serve Sample.no_rows [GET_adaptations_books Sample.signing_up] Sample.library)
  <> Sample.library.
Proof.
  assert (Hfree : forall r, In r (Db.login Sample.library) -> username r <> "mallory").
  { intros r [<-|[]]. discriminate. }
  split; [split; [reflexivity | exact Hfree]|].
  exact (proj2 (proj2 (a_lookup_can_insert_into_login
                         Sample.no_rows Sample.library eq_refl Hfree))).
Defined.

(** X27.  Served one after the other, requests other than signup whose
    texts the server reads as they were meant leave the database state as
    they found it: every statement such a handler sends is a SELECT.  Signup
    sends one INSERT into [login], which either fails and changes nothing or
    appends the one row [(username, pw)] to [login]. *)
Theorem only_signup_writes :
  forall engine : rows_engine,
    (forall reqs d,
        forallb (fun r => negb (is_signup r) && as_meant r) reqs = true ->
        fst (serve engine reqs d) = d)
    /\ (forall r s,
           is_signup r = false -> statement_of (app r) = Some s ->
           exists q, s = Select q)
    /\ (forall u p d,
           statement_of (app (POST_signup u p)) = Some (Insert_login u p)
           /\ (fst (run engine (app (POST_signup u p)) d) = d
               \/ exists name pw,
                    u = Js.Text name /\ p = Js.Text pw /\
                    fst (run engine (app (POST_signup u p)) d)
                    = with_login d (Db.login d
                                      ++ [{| username := name; password := pw |}]))).
Proof.
  intros engine. split; [|split].
  - induction reqs as [|r rest IH]; intros d Hall; simpl; [reflexivity|].
    simpl in Hall. apply andb_prop in Hall. destruct Hall as [Hr Hrest].
    apply andb_prop in Hr. destruct Hr as [Hr Hmeant].
    apply negb_true_iff in Hr.
    pose proof (meant_frame engine r d Hr Hmeant) as Hd.
    destruct (run engine (app r) d) as [d1 resp]. simpl in Hd. subst d1.
    specialize (IH d Hrest).
    destruct (serve engine rest d) as [d2 resps]. exact IH.
  - intros r s Hr Hs. exact (app_selects r Hr s Hs).
  - intros u p d. split; [reflexivity|].
    simpl. destruct (negb (reachable d)); [now left|].
    unfold inserted, insert_login.
    destruct u as [| |name]; try (now left).
    destruct p as [| |pw]; try (now left).
    destruct (String.eqb name "" || existsb _ (Db.login d)); [now left|].
    right. exists name, pw. auto.
Qed.

Lemma only_signup_writes_witness :
  forallb (fun r => negb (is_signup r) && as_meant r) Sample.browsing = true /\
  fst (serve Sample.no_rows Sample.browsing Sample.library) = Sample.library.
Proof.
  split; [reflexivity|].
  exact (proj1 (only_signup_writes Sample.no_rows)
           Sample.browsing Sample.library eq_refl).
Defined.

Lemma outliers_response (engine : rows_engine) (d : Db.state) :
  snd (run engine BookAndMovieOutliers d)
  = if negb (reachable d) then internal_server_error
    else match book_and_movie_outliers d with
         | Some sorted => json (Js.Arr (map outlier_to_js sorted))
         | None => internal_server_error
         end.
Proof.
  simpl. destruct (negb (reachable d)); [reflexivity|]. simpl.
  destruct (book_and_movie_outliers d); reflexivity.
Qed.

(** C2.  Every entry of the list that [BookAndMovieOutliers] returns is a
    book outlier or a movie outlier: its [z_score] is, as the server computes
    it in double precision, its title's average rating minus the mean,
    divided by the standard deviation, of a row of [BookStats] or
    [MovieStats], and its magnitude is above 2.  So no title with a z-score
    of magnitude at most 2 is in the list. *)
Theorem outlier_entries_exceed_two :
  forall (engine : rows_engine) (d : Db.state) (r : Js.value),
    In r (entries (snd (run engine BookAndMovieOutliers d))) ->
    exists e,
      r = outlier_to_js e /\ reported d e /\
      Js.get r "z_score" = Js.Num (o_z (snd e)) /\
      (2 < Qabs (o_z (snd e)))%Q.
Proof.
  intros engine d r. rewrite outliers_response. unfold entries.
  destruct (negb (reachable d)); [intros []|].
  destruct (book_and_movie_outliers d) as [sorted|] eqn:E; [|intros []].
  simpl. intros Hr. apply in_map_iff in Hr. destruct Hr as (e & <- & He).
  pose proof (OutlierFacts.report_sound d sorted e E He) as Hrep.
  exists e. repeat split; try assumption.
  destruct Hrep as [[_ Ho]|[_ Ho]];
    destruct Ho as (s & a & x & _ & _ & _ & _ & _ & _ & Hz); exact Hz.
Qed.

Lemma outlier_entries_witness :
  In (outlier_to_js Sample.emma)
     (entries (snd (run Sample.no_rows BookAndMovieOutliers Sample.library)))
  /\
  exists e,
    outlier_to_js Sample.emma = outlier_to_js e /\ reported Sample.library e /\
    Js.get (outlier_to_js Sample.emma) "z_score" = Js.Num (o_z (snd e)) /\
    (2 < Qabs (o_z (snd e)))%Q.
Proof.
  assert (Hin : In (outlier_to_js Sample.emma)
                  (entries (snd (run Sample.no_rows BookAndMovieOutliers
                                   Sample.library)))).
  { vm_compute. right. left. reflexivity. }
  split; [exact Hin|].
  exact (outlier_entries_exceed_two Sample.no_rows Sample.library _ Hin).
Defined.

(** On the sample database the report has one movie and one book, each
    under its [media_type], the higher z-score first. *)
Example outliers_of_the_sample :
  snd (run Sample.no_rows (app GET_analytics_BookAndMovieOutliers) Sample.library)
  = json (Js.Arr
            [Js.Obj [("media_type", Js.Str "Movie");
                     ("media_title", Js.Str "Dune (2021)");
                     ("avg_rating", Js.Num 8);
                     ("z_score", Js.Num 4)];
             Js.Obj [("media_type", Js.Str "Book");
                     ("media_title", Js.Str "Emma");
                     ("avg_rating", Js.Num 1);
                     ("z_score", Js.Num (-12))]]).
Proof. vm_compute. reflexivity. Qed.

(** The z-score of the ratings 5, 4 and 4 against a mean of 3 and a
    deviation of 1/2 is the double nearest to the quotient of two doubles,
    not the rational 8/3; and a title is an outlier by the double: against a
    deviation one place below 1/8, the difference -1/4 gives the double
    next below -2. *)
Example z_score_in_double_precision :
  z_score (Rel.avg [5%Q; 4%Q; 4%Q]) 3 (1 # 2)
  = Value (Some (1501199875790165 # 562949953421312))
  /\ z_score (Some (-1 # 4)%Q) 0 (9007199254740991 # 72057594037927936)
     = Value (Some (- (4503599627370497 # 2251799813685248))%Q)
  /\ exceeds_two (- (4503599627370497 # 2251799813685248)) = true.
Proof. repeat split; vm_compute; reflexivity. Qed.

(** C3, as the code has it.  With the database reachable and no statistics
    row of zero deviation in the way, [BookAndMovieOutliers] answers with
    one list that is a rearrangement of the book outliers followed by the
    movie outliers, in descending order of [z_score]; every entry carries a
    [media_type] field, ['Book'] on the book outliers and ['Movie'] on the
    movie outliers.  When the statement fails the answer is the 500. *)
Theorem outlier_report_is_sorted_labelled_union :
  forall (engine : rows_engine) (d : Db.state),
    reachable d = true ->
    match outliers_of (book_observations d), outliers_of (movie_observations d) with
    | Some books, Some movies =>
        exists sorted,
          snd (run engine BookAndMovieOutliers d)
          = json (Js.Arr (map outlier_to_js sorted)) /\
          Permutation (union_all books movies) sorted /\
          StronglySorted (fun x y => (o_z (snd y) <= o_z (snd x))%Q) sorted /\
          forall e, In e sorted ->
                    Js.get (outlier_to_js e) "media_type" = Js.Str (fst e) /\
                    ((fst e = "Book" /\ In (snd e) books) \/
                     (fst e = "Movie" /\ In (snd e) movies))
    | _, _ =>
        snd (run engine BookAndMovieOutliers d)
        = status_json 500 (Js.Obj [("error", Js.Str "Internal Server Error")])
    end.
Proof.
  intros engine d Hup. rewrite outliers_response, Hup. simpl.
  unfold book_and_movie_outliers.
  destruct (outliers_of (book_observations d)) as [books|]; [|reflexivity].
  destruct (outliers_of (movie_observations d)) as [movies|]; [|reflexivity].
  exists (Rel.order_by by_z_desc (union_all books movies)).
  split; [reflexivity|]. split; [apply RelFacts.order_by_perm|].
  split; [apply OutlierFacts.sorted_by_z|].
  intros e He. split; [reflexivity|].
  apply RelFacts.order_by_in in He. now apply OutlierFacts.in_union_all.
Qed.

Lemma outlier_report_witness :
  reachable Sample.library = true /\
  exists sorted,
    snd (run Sample.no_rows BookAndMovieOutliers Sample.library)
    = json (Js.Arr (map outlier_to_js sorted)) /\
    List.length sorted = 2%nat.
Proof.
  split; [reflexivity|].
  pose proof (outlier_report_is_sorted_labelled_union
                Sample.no_rows Sample.library eq_refl) as H.
  vm_compute outliers_of in H.
  destruct H as (sorted & Hresp & Hperm & _).
  exists sorted. split; [exact Hresp|].
  apply Permutation_length in Hperm. symmetry. exact Hperm.
Defined.

(** C3, as the claim has it, fails: the report is labelled.  On the sample
    database the movie entry reads ['Movie'] and the book entry ['Book'] in
    [media_type], and that constant column tells the two kinds apart in
    every state. *)
Lemma outlier_report_is_not_unlabeled :
  (exists movie_entry book_entry,
      entries (snd (run Sample.no_rows BookAndMovieOutliers Sample.library))
      = [movie_entry; book_entry] /\
      Js.get movie_entry "media_type" = Js.Str "Movie" /\
      Js.get book_entry "media_type" = Js.Str "Book")
  /\ ~ unlabeled.
Proof.
  split.
  - eexists. eexists. split; [vm_compute; reflexivity|]. split; reflexivity.
  - intros H. exact (H _ _ _ OutlierFacts.media_type_labels).
Qed.

(* ================================================================== *)
(** ** Where the guards of the book handlers do agree with their claims *)

Lemma decimal_from_shift (s : string) :
  digits s = true ->
  exists v,
    0 <= v < 10 ^ Z.of_nat (String.length s) /\
    forall acc, decimal_from acc s = Some (acc * 10 ^ Z.of_nat (String.length s) + v).
Proof.
  induction s as [|c rest IH]; cbn [digits decimal_from String.length].
  - intros _. exists 0. split; [simpl; lia|]. intros acc. f_equal. simpl. lia.
  - intros H. apply andb_prop in H. destruct H as [Hc Hrest].
    destruct (IH Hrest) as (v & Hv & Hsum). unfold is_digit in Hc.
    destruct (digit c) as [dc|] eqn:Edc; [|discriminate].
    assert (Hdc : 0 <= dc <= 9).
    { unfold digit in Edc.
      destruct ((48 <=? Z.of_N (N_of_ascii c)) && (Z.of_N (N_of_ascii c) <=? 57)) eqn:E;
        [|discriminate].
      apply andb_prop in E. destruct E as [E1 E2].
      apply Z.leb_le in E1. apply Z.leb_le in E2. inversion Edc. lia. }
    rewrite Nat2Z.inj_succ, Z.pow_succ_r by lia.
    exists (dc * 10 ^ Z.of_nat (String.length rest) + v). split; [nia|].
    intros acc. rewrite Hsum. f_equal. ring.
Qed.

Lemma digit_compare (c c' : ascii) (dc dc' : Z) :
  digit c = Some dc -> digit c' = Some dc' ->
  Ascii.compare c c' = (dc ?= dc').
Proof.
  unfold digit, Ascii.compare. intros H H'.
  destruct ((48 <=? Z.of_N (N_of_ascii c)) && (Z.of_N (N_of_ascii c) <=? 57));
    [|discriminate].
  destruct ((48 <=? Z.of_N (N_of_ascii c')) && (Z.of_N (N_of_ascii c') <=? 57));
    [|discriminate].
  inversion H; inversion H'; subst.
  rewrite <- N2Z.inj_compare.
  destruct (Z.compare_spec (Z.of_N (N_of_ascii c)) (Z.of_N (N_of_ascii c')));
    symmetry; [apply Z.compare_eq_iff | apply Z.compare_lt_iff
               | apply Z.compare_gt_iff]; lia.
Qed.

(** On digit texts of one length, the order of the texts is the order of
    the numbers. *)
Lemma compare_digits (a : string) :
  forall b va vb,
    digits a = true -> digits b = true ->
    String.length a = String.length b ->
    decimal_from 0 a = Some va -> decimal_from 0 b = Some vb ->
    String.compare a b = (va ?= vb).
Proof.
  induction a as [|c a' IH]; intros [|c' b'] va vb Ha Hb Hlen Hva Hvb;
    simpl in Hlen; try discriminate.
  - simpl in *. inversion Hva; inversion Hvb; subst. reflexivity.
  - simpl in Ha, Hb. apply andb_prop in Ha. apply andb_prop in Hb.
    destruct Ha as [Hc Ha]. destruct Hb as [Hc' Hb].
    injection Hlen as Hlen.
    destruct (decimal_from_shift a' Ha) as (wa & Hwa & Hsa).
    destruct (decimal_from_shift b' Hb) as (wb & Hwb & Hsb).
    unfold is_digit in Hc, Hc'.
    destruct (digit c) as [dc|] eqn:Edc; [|discriminate].
    destruct (digit c') as [dc'|] eqn:Edc'; [|discriminate].
    simpl in Hva, Hvb. rewrite Edc in Hva. rewrite Edc' in Hvb.
    rewrite Hsa in Hva. rewrite Hsb in Hvb.
    inversion Hva; inversion Hvb; subst va vb. clear Hva Hvb.
    simpl. rewrite (digit_compare c c' dc dc' Edc Edc').
    rewrite <- Hlen in *.
    set (n := 10 ^ Z.of_nat (String.length a')) in *.
    destruct (Z.compare_spec dc dc') as [Heq|Hlt|Hgt].
    + subst dc'. rewrite (IH b' wa wb Ha Hb Hlen).
      * symmetry. destruct (Z.compare_spec wa wb);
          [apply Z.compare_eq_iff | apply Z.compare_lt_iff | apply Z.compare_gt_iff];
          lia.
      * rewrite Hsa. f_equal; lia.
      * rewrite Hsb. f_equal; lia.
    + symmetry. apply Z.compare_lt_iff. nia.
    + symmetry. apply Z.compare_gt_iff. nia.
Qed.

(** X1.  When both year texts are digit texts of one length (two four-digit
    years, say), the guard of [search_books] answers 404 without a statement
    exactly when [yearLow] is the greater year. *)
Theorem search_books_guard_on_equal_length_years :
  forall (title name genre : option string) (lo hi : string),
    lo <> "" -> digits lo = true -> digits hi = true ->
    String.length lo = String.length hi ->
    exists nlo nhi,
      decimal lo = Some nlo /\ decimal hi = Some nhi /\
      (search_books title name genre (Some lo) (Some hi)
       = Respond (status_json 404 (Js.Obj [("error", Js.Str "Invalid year range")]))
       <-> nhi < nlo).
Proof.
  intros title name genre lo hi Hne Hlo Hhi Hlen.
  destruct (decimal_from_shift lo Hlo) as (nlo & _ & Hnlo).
  destruct (decimal_from_shift hi Hhi) as (nhi & _ & Hnhi).
  assert (Hdlo : decimal_from 0 lo = Some nlo) by (rewrite Hnlo; f_equal; lia).
  assert (Hdhi : decimal_from 0 hi = Some nhi) by (rewrite Hnhi; f_equal; lia).
  exists nlo, nhi.
  assert (Hhine : hi <> "").
  { intros ->. destruct lo; [congruence | discriminate]. }
  split; [destruct lo; [congruence | exact Hdlo]|].
  split; [destruct hi; [congruence | exact Hdhi]|].
  unfold search_books, Js.lt, String.ltb.
  rewrite (compare_digits hi lo nhi nlo Hhi Hlo (eq_sym Hlen) Hdhi Hdlo).
  destruct (Z.compare_spec nhi nlo) as [Hc|Hc|Hc]; split; intros Hg; try lia;
    try reflexivity; discriminate.
Qed.

Lemma search_books_guard_witness :
  ("2025" <> "" /\ digits "2025" = true /\ digits "2000" = true /\
   String.length "2025" = String.length "2000")
  /\
  exists nlo nhi,
    decimal "2025" = Some nlo /\ decimal "2000" = Some nhi /\
    (search_books None None None (Some "2025") (Some "2000")
     = Respond (status_json 404 (Js.Obj [("error", Js.Str "Invalid year range")]))
     <-> nhi < nlo).
Proof.
  assert (Hne : "2025" <> "") by discriminate.
  split; [repeat split; exact Hne |].
  exact (search_books_guard_on_equal_length_years None None None "2025" "2000"
           Hne eq_refl eq_refl eq_refl).
Defined.

Lemma details_row_title (g : book * list (book * author_row)) :
  Js.has_property (details_to_js g) "book_title" = true /\
  Js.get (details_to_js g) "book_title" = Js.Str (title (fst g)).
Proof. split; reflexivity. Qed.

Lemma details_group_book d id g :
  In g (book_details_groups d id) -> In (fst g) (books_data d) /\ book_id (fst g) = id.
Proof.
  unfold book_details_groups. destruct g as [bd members]. intros H.
  apply RelFacts.in_group_by in H. destruct H as [_ Hk].
  apply in_map_iff in Hk. destruct Hk as ([bd' ba] & Heq & Hin).
  simpl in Heq. subst bd'. apply filter_In in Hin. destruct Hin as [Hin Hid].
  apply RelFacts.in_join in Hin. simpl in *. apply Z.eqb_eq in Hid. tauto.
Qed.

(** X2.  [get_book_details] answers every negative [book_id] with 404
    [{message: 'No books found'}] and sends no statement; for any other
    [book_id] within 32 bits, with the statement carried out, it answers 200
    with an array whose elements each carry [book_title], the title of a row
    of [books_data] with that id. *)
Theorem book_details_rows_carry_book_title :
  forall (engine : rows_engine) (d : Db.state) (id : Z),
    (id < 0 ->
     get_book_details id
     = Respond (status_json 404 (Js.Obj [("message", Js.Str "No books found")])))
    /\
    (0 <= id -> id <= 2147483647 -> reachable d = true ->
     exists rows,
       snd (run engine (get_book_details id) d) = status_json 200 (Js.Arr rows) /\
       forall r, In r rows ->
                 Js.has_property r "book_title" = true /\
                 exists b, In b (books_data d) /\ book_id b = id /\
                           Js.get r "book_title" = Js.Str (title b)).
Proof.
  intros engine d id. unfold get_book_details. split.
  - intros H. apply Z.ltb_lt in H. now rewrite H.
  - intros Hid Hmax Hup.
    replace (id <? 0) with false by (symmetry; apply Z.ltb_ge; lia).
    exists (select_book_details d id). carried_out Hup. unfold int4.
    replace (-2147483648 <=? id) with true by (symmetry; apply Z.leb_le; lia).
    replace (id <=? 2147483647) with true by (symmetry; apply Z.leb_le; lia).
    simpl.
    split; [reflexivity|]. intros r Hr. unfold select_book_details in Hr.
    apply in_map_iff in Hr. destruct Hr as (g & <- & Hg).
    destruct (details_row_title g) as [Hhas Hget].
    split; [exact Hhas|]. exists (fst g).
    destruct (details_group_book d id g Hg). auto.
Qed.

(** On the sample database: a mapped book, an unmapped movie, a known book,
    and a wrong password. *)
Example adaptation_of_unmapped_movie :
  snd (run Sample.no_rows (app (GET_adaptations_books "tt0000001")) Sample.library)
  = json (Js.Arr []).
Proof. reflexivity. Qed.

Example details_of_book_1 :
  snd (run Sample.no_rows (app (GET_book_details 1)) Sample.library)
  = json (Js.Arr
            [Js.Obj [("book_id", Js.Num 1);
                     ("book_title", Js.Str "Dune");
                     ("book_description", Js.Str "");
                     ("book_image_link", Js.Str "");
                     ("book_publisher_name", Js.Str "");
                     ("book_published_date", Js.Str "1965-08-01");
                     ("authors", Js.Str "Herbert")]]).
Proof. reflexivity. Qed.

Example login_with_wrong_password :
  snd (run Sample.no_rows (app (POST_login (Js.Text "ann") (Js.Text "guess")))
         Sample.library)
  = incorrect_login.
Proof. reflexivity. Qed.

Example signup_then_login :
  snd (serve Sample.no_rows
         [POST_signup (Js.Text "bob") (Js.Text "pw");
          POST_signup (Js.Text "bob") (Js.Text "other");
          POST_signup (Js.Text "") (Js.Text "pw");
          POST_login (Js.Text "bob") (Js.Text "pw")]
         Sample.library)
  = [status_json 201 (message_object "User created successfully");
     status_json 500 (error_object "User already exists or database error!");
     status_json 500 (error_object "User already exists or database error!");
     json (message_object "Login successful")].
Proof. reflexivity. Qed.

(** A path with an empty parameter: [/adaptations/books/] matches no route,
    and [/movies/details/] is answered by [moviesDetails]. *)
Example paths_with_an_empty_parameter :
  app (GET_adaptations_books "") = Respond cannot_get
  /\ app (GET_movies_details_id "") = moviesDetails None.
Proof. split; reflexivity. Qed.

Lemma rows_or_500_shape (o : outcome) :
  o <> Several -> rows_or_object (body (rows_or_500 o)) = true.
Proof. destruct o; [reflexivity | reflexivity | congruence]. Qed.

(** The answer of a handler that sends a SELECT with [rows_or_500], for a
    text that is read as meant. *)
Lemma meant_rows_or_500 (engine : rows_engine) (q : select) (d : Db.state) :
  match parse q with
  | Reads _ => True
  | Malformed => True
  | _ => False
  end ->
  rows_or_object (body (snd (run engine (Query (Select q) rows_or_500) d))) = true.
Proof.
  intros H. destruct (meant_select engine q d H) as [_ Hone].
  unfold run. destruct (exec engine (Select q) d) as [d' o]. simpl in *.
  now apply rows_or_500_shape.
Qed.

(** X3.  Apart from [get_book_reviews] and
    [PositiveReviewsforBooksvsLowMovierating], every handler answers every
    request that matches its route and whose text, if it sends one, the
    server reads as it was meant, in every state, with an array of rows or
    with an object that has a [message] or an [error] field. *)
Theorem other_handlers_answer_rows_or_object :
  forall (engine : rows_engine) (d : Db.state) (r : request),
    matched r = true -> as_meant r = true ->
    match r with
    | GET_books_reviews _ _ _ => True
    | GET_analytics_PositiveReviews _ => True
    | _ => rows_or_object (body (snd (run engine (app r) d))) = true
    end.
Proof.
  intros engine d r Hmatched Hmeant.
  assert (Hq : forall q callback,
             app r = Query (Select q) callback ->
             match parse q with
             | Reads _ => True
             | Malformed => True
             | _ => False
             end).
  { intros q callback Happ. unfold as_meant in Hmeant. rewrite Happ in Hmeant.
    simpl in Hmeant. destruct (parse q); try discriminate; exact I. }
  destruct r as [u p|u p|id|id lo hi|t|id|title|t|title adult genre lo hi rlo rhi
                 |title name genre lo hi| | |invalid|invalid| |];
    try exact I; try discriminate Hmatched; cbn [app] in Hq |- *.
  - (* signup *)
    unfold signup. simpl. destruct (negb (reachable d)); [reflexivity|].
    unfold inserted. destruct (insert_login d u p); reflexivity.
  - (* login *)
    unfold Routes.login. simpl. destruct (negb (reachable d)); [reflexivity|].
    simpl. destruct (select_login d u) as [|row rest]; [reflexivity|].
    simpl. destruct (Js.strict_eq _ _); reflexivity.
  - (* book details *)
    unfold get_book_details in *. destruct (id <? 0); [reflexivity|].
    simpl. destruct (negb (reachable d)); [reflexivity|]. simpl.
    destruct (int4 id); [reflexivity|].
    destruct (rows_of engine _ d); reflexivity.
  - (* book adaptations *)
    simpl in Hmatched. apply negb_true_iff in Hmatched.
    rewrite Hmatched in *. unfold get_book_adaptations_for_movie in *.
    destruct (String.length t =? 0)%nat; [reflexivity|].
    apply meant_rows_or_500; exact (Hq _ _ eq_refl).
  - (* movie adaptations *)
    unfold get_movie_adaptations_for_book in *.
    destruct (id <? -1); [reflexivity|].
    apply meant_rows_or_500; exact (Hq _ _ eq_refl).
  - (* movies details *)
    apply meant_rows_or_500; exact (Hq _ _ eq_refl).
  - (* movies details with id *)
    destruct (String.eqb t "") eqn:Et.
    + apply meant_rows_or_500; exact (Hq _ _ eq_refl).
    + unfold moviesDetailsWithId in *.
      assert (Hne : (String.length t =? 0)%nat = false).
      { destruct t; [discriminate Et | reflexivity]. }
      rewrite Hne in *.
      apply meant_rows_or_500; exact (Hq _ _ eq_refl).
  - (* search movies *)
    apply meant_rows_or_500; exact (Hq _ _ eq_refl).
  - (* search books *)
    unfold search_books in *. destruct (Js.lt hi lo); [reflexivity|].
    apply meant_rows_or_500; exact (Hq _ _ eq_refl).
  - apply meant_rows_or_500; exact (Hq _ _ eq_refl).
  - apply meant_rows_or_500; exact (Hq _ _ eq_refl).
  - unfold correlationReviewsMovieRatings in *.
    destruct (Js.truthy invalid); [reflexivity|].
    apply meant_rows_or_500; exact (Hq _ _ eq_refl).
  - apply meant_rows_or_500; exact (Hq _ _ eq_refl).
Qed.

Lemma other_handlers_witness :
  (matched (GET_adaptations_books "tt1160419") = true /\
   as_meant (GET_adaptations_books "tt1160419") = true) /\
  rows_or_object
    (body (snd (run Sample.no_rows (app (GET_adaptations_books "tt1160419"))
                  Sample.library)))
  = true.
Proof.
  split; [split; reflexivity|].
  exact (other_handlers_answer_rows_or_object Sample.no_rows Sample.library
           (GET_adaptations_books "tt1160419") eq_refl eq_refl).
Defined.

(* ================================================================== *)
(** ** More facts about groups, orderings and limits *)

Module MoreRelFacts.
Import Rel RelFacts.

Section Keys.
Context {A K : Type} (same : K -> K -> bool).
Hypothesis same_spec : forall a b, same a b = true <-> a = b.

Lemma distinct_NoDup (ks : list K) : NoDup (distinct same ks).
Proof.
  induction ks as [|k rest IH]; simpl; constructor.
  - intros H. apply filter_In in H. destruct H as [_ H].
    apply negb_true_iff in H.
    assert (same k k = true) by now apply same_spec. congruence.
  - now apply NoDup_filter.
Qed.

Lemma group_keys (key : A -> K) (l : list A) :
  map fst (group_by same key l) = distinct same (map key l).
Proof.
  unfold group_by. rewrite map_map. simpl. apply map_id.
Qed.

Lemma group_keys_NoDup (key : A -> K) (l : list A) :
  NoDup (map fst (group_by same key l)).
Proof. rewrite group_keys. apply distinct_NoDup. Qed.

Lemma group_sizes_over (key : A -> K) (ks : list K) (l : list A) :
  NoDup ks -> (forall a, In a l -> In (key a) ks) ->
  fold_right Nat.add 0%nat
    (map (fun k => List.length (filter (fun a => same k (key a)) l)) ks)
  = List.length l.
Proof.
  intros Hnd. induction l as [|a rest IH]; intros Hin.
  - clear Hnd Hin. induction ks as [|k ks' IH]; simpl; auto.
  - assert (Hrest : forall x, In x rest -> In (key x) ks)
      by (intros x Hx; apply Hin; now right).
    specialize (IH Hrest). simpl. rewrite <- IH.
    assert (Ha : In (key a) ks) by (apply Hin; now left).
    clear IH Hin Hrest. revert Ha.
    induction Hnd as [|k ks' Hnotin Hnd IHnd]; simpl; [tauto|].
    intros [->|Ha].
    + assert (E : same (key a) (key a) = true) by now apply same_spec.
      rewrite E. simpl. f_equal. f_equal.
      clear IHnd. induction ks' as [|k' ks'' IH']; simpl; [reflexivity|].
      destruct (same k' (key a)) eqn:E'.
      * apply same_spec in E'. subst k'. exfalso. apply Hnotin. now left.
      * f_equal. apply IH'.
        -- intros H. apply Hnotin. now right.
        -- now inversion Hnd.
    + destruct (same k (key a)) eqn:E.
      * apply same_spec in E. subst k. contradiction.
      * rewrite (IHnd Ha). lia.
Qed.

Lemma group_nonempty (key : A -> K) (l : list A) k g :
  In (k, g) (group_by same key l) -> g <> [].
Proof.
  intros H. apply in_group_by in H. destruct H as [-> Hk].
  apply in_map_iff in Hk. destruct Hk as (a & <- & Ha). intros Hnil.
  assert (Hin : In a (filter (fun x => same (key a) (key x)) l))
    by (apply filter_In; split; [assumption | now apply same_spec]).
  rewrite Hnil in Hin. destruct Hin.
Qed.

(** The groups of a table partition it. *)
Lemma group_sizes (key : A -> K) (l : list A) :
  fold_right Nat.add 0%nat (map (fun g => List.length (snd g)) (group_by same key l))
  = List.length l.
Proof.
  unfold group_by. rewrite map_map. simpl.
  apply group_sizes_over.
  - apply distinct_NoDup.
  - intros a Ha. apply (distinct_complete same same_spec). now apply in_map.
Qed.

End Keys.

Section Prefix.
Context {A : Type}.

Lemma sorted_prefix_dominates (R : A -> A -> Prop) (l : list A) (n : nat) :
  StronglySorted R l ->
  forall y x, In y (firstn n l) -> In x (skipn n l) -> R y x.
Proof.
  intros Hs. revert n. induction Hs as [|a rest Hs IH Hall]; intros n y x Hy Hx.
  - rewrite firstn_nil in Hy. destruct Hy.
  - destruct n as [|n]; simpl in *; [destruct Hy|].
    destruct Hy as [<-|Hy].
    + rewrite Forall_forall in Hall. apply Hall.
      rewrite <- (firstn_skipn n rest). apply in_or_app. now right.
    + now apply (IH n).
Qed.

Lemma sorted_firstn (R : A -> A -> Prop) (l : list A) (n : nat) :
  StronglySorted R l -> StronglySorted R (firstn n l).
Proof.
  intros Hs. revert n. induction Hs as [|a rest Hs IH Hall]; intros [|n]; simpl;
    try constructor; auto.
  rewrite Forall_forall in *. intros x Hx. apply Hall.
  rewrite <- (firstn_skipn n rest). apply in_or_app. now left.
Qed.

Lemma in_firstn (l : list A) (n : nat) x : In x (firstn n l) -> In x l.
Proof.
  intros H. rewrite <- (firstn_skipn n l). apply in_or_app. now left.
Qed.

Lemma short_limit (l : list A) (n : nat) :
  (List.length (firstn n l) < n)%nat -> firstn n l = l.
Proof.
  intros H. apply firstn_all2. rewrite length_firstn in H. lia.
Qed.

End Prefix.

Lemma NoDup_map_firstn {A B : Type} (f : A -> B) (l : list A) (n : nat) :
  NoDup (map f l) -> NoDup (map f (firstn n l)).
Proof.
  intros H. rewrite <- (firstn_skipn n l), map_app in H.
  now apply NoDup_app_remove_r in H.
Qed.

Lemma sorted_relation {A : Type} (R S : A -> A -> Prop) (l : list A) :
  (forall x y, In x l -> In y l -> R x y -> S x y) ->
  StronglySorted R l -> StronglySorted S l.
Proof.
  intros Himp Hs. induction Hs as [|a rest Hs IH Hall]; constructor.
  - apply IH. intros x y Hx Hy. apply Himp; now right.
  - rewrite Forall_forall in *. intros x Hx.
    apply Himp; [now left | now right | now apply Hall].
Qed.

End MoreRelFacts.

(* ================================================================== *)
(** ** Properties of the reports *)

Module ReportFacts.
Import Db Sql Reports ReportSpec RelFacts MoreRelFacts.

Lemma desc_nulls_first_total a b :
  desc_nulls_first a b = true \/ desc_nulls_first b a = true.
Proof.
  destruct a as [x|], b as [y|]; simpl; auto.
  rewrite !Qle_bool_iff.
  destruct (Qlt_le_dec x y); [right; now apply Qlt_le_weak | now left].
Qed.

Lemma desc_nulls_first_trans a b c :
  desc_nulls_first a b = true -> desc_nulls_first b c = true ->
  desc_nulls_first a c = true.
Proof.
  destruct a as [x|], b as [y|], c as [z|]; simpl; auto; try discriminate.
  rewrite !Qle_bool_iff. intros H1 H2. now apply Qle_trans with y.
Qed.

(** The rows of the join under an author name are the ratings of
    [author_ratings]. *)
Lemma author_group_ratings d name :
  map (fun p => rating (snd p))
      (filter (fun p => String.eqb name (author_name (fst p))) (authors_reviews d))
  = author_ratings d name.
Proof.
  unfold authors_reviews, author_ratings, Rel.join.
  induction (books_authors d) as [|ba rest IH]; simpl; [reflexivity|].
  rewrite filter_app, map_app, IH. f_equal.
  destruct (String.eqb name (author_name ba)) eqn:E.
  - induction (filter _ (books_rating d)) as [|br more IHm]; simpl;
      [reflexivity|]. rewrite E. simpl. now rewrite IHm.
  - induction (filter _ (books_rating d)) as [|br more IHm]; simpl;
      [reflexivity|]. now rewrite E.
Qed.

Lemma author_average_row d r :
  In r (author_averages d) ->
  snd r = Rel.avg (author_ratings d (fst r)) /\ snd r <> None.
Proof.
  unfold author_averages. intros H. apply in_map_iff in H.
  destruct H as ([name g] & <- & Hg). simpl.
  pose proof (group_nonempty String.eqb String.eqb_eq _ _ _ _ Hg) as Hne.
  apply in_group_by in Hg. destruct Hg as [-> _].
  rewrite author_group_ratings in *. split; [reflexivity|].
  rewrite <- author_group_ratings.
  destruct (filter _ (authors_reviews d)); [congruence | discriminate].
Qed.

Lemma author_average_complete d name q :
  Rel.avg (author_ratings d name) = Some q -> In (name, Some q) (author_averages d).
Proof.
  intros H. rewrite <- author_group_ratings in H.
  destruct (filter (fun p => String.eqb name (author_name (fst p)))
              (authors_reviews d)) as [|p rest] eqn:E; [discriminate|].
  assert (Hp : In p (filter (fun p => String.eqb name (author_name (fst p)))
                       (authors_reviews d))) by (rewrite E; now left).
  apply filter_In in Hp. destruct Hp as [Hp Hname].
  apply String.eqb_eq in Hname.
  pose proof (group_by_complete String.eqb String.eqb_eq
                (fun p => author_name (fst p)) (authors_reviews d) p Hp) as Hg.
  simpl in Hg. rewrite <- Hname in Hg. rewrite E in Hg.
  unfold author_averages.
  apply (in_map (fun g => (fst g, Rel.avg (map (fun p => rating (snd p)) (snd g)))))
    in Hg.
  simpl in Hg. simpl in H. rewrite H in Hg. exact Hg.
Qed.

End ReportFacts.

Import Reports ReportSpec.

(** X4.  With the statement carried out, [book_analytics_top_authors]
    answers 200 with at most five rows, one per author name, in descending
    order of [average_rating]; the average of a row is the mean of the
    ratings of all reviews of the books listed under that name, and an author
    with a reviewed book who is left out is rated no higher than any of the
    five returned. *)
Theorem top_authors_are_the_five_best :
  forall (rest : rows_engine) (d : Db.state),
    reachable d = true ->
    exists rows,
      snd (run (interpreted rest) book_analytics_top_authors d)
      = status_json 200 (Js.Arr (map author_to_js rows)) /\
      (List.length rows <= 5)%nat /\
      NoDup (map fst rows) /\
      StronglySorted (fun x y => at_least (snd x) (snd y)) rows /\
      (forall r, In r rows ->
                 snd r = Rel.avg (author_ratings d (fst r)) /\ snd r <> None) /\
      (forall name q,
          Rel.avg (author_ratings d name) = Some q ->
          In (name, Some q) rows \/
          (List.length rows = 5%nat /\
           forall r, In r rows -> at_least (snd r) (Some q))).
Proof.
  intros rest d Hup. exists (top_authors d).
  split; [carried_out Hup; reflexivity|].
  unfold top_authors, Rel.limit.
  set (before := fun x y : string * option Q => desc_nulls_first (snd x) (snd y)).
  set (sorted := Rel.order_by before (author_averages d)).
  assert (Hsorted : StronglySorted (fun x y => before x y = true) sorted).
  { apply RelFacts.order_by_sorted.
    - intros x y. apply ReportFacts.desc_nulls_first_total.
    - intros x y z. apply ReportFacts.desc_nulls_first_trans. }
  assert (Hrow : forall r, In r sorted ->
                 snd r = Rel.avg (author_ratings d (fst r)) /\ snd r <> None).
  { intros r Hr. apply ReportFacts.author_average_row.
    now apply (RelFacts.order_by_in before). }
  assert (Hleast : forall x y, In x sorted -> In y sorted ->
                   before x y = true -> at_least (snd x) (snd y)).
  { intros x y Hx Hy Hb. destruct (Hrow x Hx) as [_ Hx'].
    destruct (Hrow y Hy) as [_ Hy']. unfold before in Hb.
    destruct (snd x), (snd y); try congruence. simpl in *.
    now apply Qle_bool_iff. }
  split; [rewrite length_firstn; lia|]. split.
  { apply MoreRelFacts.NoDup_map_firstn.
    apply (Permutation_NoDup (l := map fst (author_averages d))).
    - apply Permutation_map. apply RelFacts.order_by_perm.
    - unfold author_averages. rewrite map_map. simpl.
      apply (MoreRelFacts.group_keys_NoDup String.eqb String.eqb_eq). }
  split.
  { apply MoreRelFacts.sorted_firstn.
    now apply (MoreRelFacts.sorted_relation (fun x y => before x y = true)). }
  split.
  { intros r Hr. apply Hrow. now apply MoreRelFacts.in_firstn in Hr. }
  intros name q Hq.
  assert (Hin : In (name, Some q) sorted).
  { apply (RelFacts.order_by_in before).
    now apply ReportFacts.author_average_complete. }
  rewrite <- (firstn_skipn 5 sorted) in Hin. apply in_app_or in Hin.
  destruct Hin as [Hin|Hin]; [now left|]. right. split.
  - rewrite length_firstn. apply Nat.min_l.
    destruct (Nat.le_gt_cases 5 (List.length sorted)) as [|Hlt]; [assumption|].
    rewrite skipn_all2 in Hin by lia. destruct Hin.
  - intros r Hr.
    apply (Hleast r (name, Some q)).
    + now apply MoreRelFacts.in_firstn in Hr.
    + rewrite <- (firstn_skipn 5 sorted). apply in_or_app. now right.
    + exact (MoreRelFacts.sorted_prefix_dominates
               (fun x y => before x y = true) sorted 5 Hsorted r _ Hr Hin).
Qed.

Lemma top_authors_witness :
  reachable Showcase.catalogue = true /\
  exists rows,
    snd (run Showcase.engine book_analytics_top_authors Showcase.catalogue)
    = status_json 200 (Js.Arr (map author_to_js rows)) /\
    (List.length rows <= 5)%nat /\
    NoDup (map fst rows).
Proof.
  split; [reflexivity|].
  destruct (top_authors_are_the_five_best Sample.no_rows Showcase.catalogue eq_refl)
    as (rows & Hresp & Hlen & Hnd & _).
  exists rows. auto.
Defined.

Example top_authors_of_the_catalogue :
  snd (run Showcase.engine (app GET_analytics_topAuthors) Showcase.catalogue)
  = json (Js.Arr
            [Js.Obj [("author_name", Js.Str "Herbert");
                     ("average_rating", Js.Num (9 # 2))];
             Js.Obj [("author_name", Js.Str "Austen");
                     ("average_rating", Js.Num 2)];
             Js.Obj [("author_name", Js.Str "Anon");
                     ("average_rating", Js.Num 2)]]).
Proof. vm_compute. reflexivity. Qed.

Module ReportOrderFacts.
Import Db Sql Reports ReportSpec RelFacts MoreRelFacts.

Lemma ascii_lt_trans a b c :
  Ascii.compare a b = Lt -> Ascii.compare b c = Lt -> Ascii.compare a c = Lt.
Proof.
  unfold Ascii.compare. rewrite !N.compare_lt_iff. apply N.lt_trans.
Qed.

Lemma string_lt_trans a :
  forall b c, String.compare a b = Lt -> String.compare b c = Lt ->
              String.compare a c = Lt.
Proof.
  induction a as [|x a' IH]; intros [|y b'] [|z c']; simpl; try congruence.
  destruct (Ascii.compare x y) eqn:Exy; try discriminate;
    destruct (Ascii.compare y z) eqn:Eyz; try discriminate; intros H1 H2.
  - apply Ascii.compare_eq_iff in Exy. apply Ascii.compare_eq_iff in Eyz.
    subst. assert (E : Ascii.compare z z = Eq)
      by (unfold Ascii.compare; apply N.compare_refl).
    rewrite E. now apply IH with b'.
  - apply Ascii.compare_eq_iff in Exy. subst. now rewrite Eyz.
  - apply Ascii.compare_eq_iff in Eyz. subst. now rewrite Exy.
  - now rewrite (ascii_lt_trans x y z Exy Eyz).
Qed.

Lemma string_compare_refl a : String.compare a a = Eq.
Proof.
  induction a as [|x a' IH]; simpl; [reflexivity|].
  assert (E : Ascii.compare x x = Eq)
    by (unfold Ascii.compare; apply N.compare_refl).
  now rewrite E.
Qed.

Lemma ltb_irrefl a : String.ltb a a = false.
Proof. unfold String.ltb. now rewrite string_compare_refl. Qed.

Lemma ltb_or_eq a b : String.ltb a b = true \/ a = b \/ String.ltb b a = true.
Proof.
  unfold String.ltb. destruct (String.compare a b) eqn:E.
  - right. left. now apply String.compare_eq_iff.
  - now left.
  - right. right. rewrite String.compare_antisym, E. reflexivity.
Qed.

Lemma ltb_trans a b c :
  String.ltb a b = true -> String.ltb b c = true -> String.ltb a c = true.
Proof.
  unfold String.ltb.
  destruct (String.compare a b) eqn:E1; try discriminate.
  destruct (String.compare b c) eqn:E2; try discriminate.
  now rewrite (string_lt_trans a b c E1 E2).
Qed.

Lemma genre_then_rank_total x y :
  genre_then_rank x y = true \/ genre_then_rank y x = true.
Proof.
  unfold genre_then_rank.
  destruct (ltb_or_eq (top_genre x) (top_genre y)) as [H|[H|H]].
  - left. now rewrite H.
  - rewrite H, ltb_irrefl, String.eqb_refl. simpl. rewrite !Z.leb_le. lia.
  - right. now rewrite H.
Qed.

Lemma genre_then_rank_trans x y z :
  genre_then_rank x y = true -> genre_then_rank y z = true ->
  genre_then_rank x z = true.
Proof.
  unfold genre_then_rank. intros H1 H2.
  apply orb_true_iff in H1. apply orb_true_iff in H2. apply orb_true_iff.
  destruct H1 as [H1|H1], H2 as [H2|H2].
  - left. now apply ltb_trans with (top_genre y).
  - apply andb_true_iff in H2. destruct H2 as [H2 _].
    apply String.eqb_eq in H2. left. now rewrite <- H2.
  - apply andb_true_iff in H1. destruct H1 as [H1 _].
    apply String.eqb_eq in H1. left. now rewrite H1.
  - apply andb_true_iff in H1. apply andb_true_iff in H2.
    destruct H1 as [H1 R1], H2 as [H2 R2].
    apply String.eqb_eq in H1. apply String.eqb_eq in H2.
    right. apply andb_true_iff. split.
    + apply String.eqb_eq. congruence.
    + apply Z.leb_le. apply Z.leb_le in R1. apply Z.leb_le in R2. lia.
Qed.

Lemma count_desc_rating_asc_total x y :
  count_desc_rating_asc x y = true \/ count_desc_rating_asc y x = true.
Proof.
  unfold count_desc_rating_asc.
  destruct (Z.lt_trichotomy (btm_count x) (btm_count y)) as [H|[H|H]].
  - right. apply orb_true_iff. left. now apply Z.ltb_lt.
  - rewrite H, Z.ltb_irrefl, Z.eqb_refl. simpl. rewrite !Qle_bool_iff.
    destruct (Qlt_le_dec (btm_rating x) (btm_rating y));
      [left; now apply Qlt_le_weak | now right].
  - left. apply orb_true_iff. left. now apply Z.ltb_lt.
Qed.

Lemma count_desc_rating_asc_spec x y :
  count_desc_rating_asc x y = true <->
  btm_count y < btm_count x \/
  (btm_count x = btm_count y /\ (btm_rating x <= btm_rating y)%Q).
Proof.
  unfold count_desc_rating_asc.
  rewrite orb_true_iff, andb_true_iff, Z.ltb_lt, Z.eqb_eq, Qle_bool_iff.
  tauto.
Qed.

Lemma count_desc_rating_asc_trans x y z :
  count_desc_rating_asc x y = true -> count_desc_rating_asc y z = true ->
  count_desc_rating_asc x z = true.
Proof.
  rewrite !count_desc_rating_asc_spec.
  intros [H1|[H1 R1]] [H2|[H2 R2]]; try (left; lia).
  right. split; [lia|]. now apply Qle_trans with (btm_rating y).
Qed.

Lemma sum_perm l l' : Permutation l l' -> sum l = sum l'.
Proof.
  induction 1; simpl in *; lia.
Qed.

Lemma sum_of_sizes {A : Type} (gs : list (string * list A)) :
  sum (map (fun g => Z.of_nat (List.length (snd g))) gs)
  = Z.of_nat (fold_right Nat.add 0%nat (map (fun g => List.length (snd g)) gs)).
Proof.
  induction gs as [|g rest IH]; simpl; [reflexivity|].
  unfold sum in *. simpl. rewrite IH. lia.
Qed.

Lemma label_count_row d r :
  In r (label_counts d) ->
  snd r = Z.of_nat (List.length (labelled d (fst r))) /\ 1 <= snd r.
Proof.
  unfold label_counts. intros H. apply in_map_iff in H.
  destruct H as ([l g] & <- & Hg). simpl.
  pose proof (group_nonempty String.eqb String.eqb_eq _ _ _ _ Hg) as Hne.
  apply in_group_by in Hg. destruct Hg as [-> _].
  split; [reflexivity|]. unfold labelled in *.
  destruct (filter _ (ReviewMovieStats2 d)); [congruence | simpl; lia].
Qed.

Lemma contrast_in_join d x : In x (books_to_movies d) <-> contrast d x.
Proof.
  unfold books_to_movies, contrast. destruct x as [[pb bm] lm]. simpl.
  rewrite in_join, in_join. simpl. rewrite Z.eqb_eq, String.eqb_eq. tauto.
Qed.

Lemma review_in_range d id lo hi p :
  In p (reviews_in_range d id lo hi) <-> review_of d id lo hi p.
Proof.
  unfold reviews_in_range, review_of. destruct p as [r b]. simpl.
  rewrite filter_In, in_join. simpl.
  rewrite !andb_true_iff, !Z.eqb_eq, !Qle_bool_iff.
  split.
  - intros [(Hr & Hb & Hon) ((Hid & Hlo) & Hhi)].
    repeat split; auto; congruence.
  - intros (Hr & Hb & Hrid & Hbid & Hlo & Hhi).
    repeat split; auto; congruence.
Qed.

End ReportOrderFacts.

(** X5.  [correlationReviewsMovieRatings] answers a truthy [invalid] query
    value with 400 and sends nothing.  Otherwise, with the statement carried
    out, it answers 200 with one row per label of [ReviewMovieStats2], no
    label twice, each with the number of view rows under that label (at least
    one), in descending order of that count; the counts add up to the size
    of the view. *)
Theorem correlation_counts_partition_the_view :
  forall (rest : rows_engine) (d : Db.state) (invalid : option string),
    (Js.truthy invalid = true ->
     correlationReviewsMovieRatings invalid
     = Respond (status_json 400 (Js.Obj [("error", Js.Str "Invalid IMDb ID")])))
    /\
    (Js.truthy invalid = false -> reachable d = true ->
     exists rows,
       snd (run (interpreted rest) (correlationReviewsMovieRatings invalid) d)
       = status_json 200 (Js.Arr (map label_count_to_js rows)) /\
       NoDup (map fst rows) /\
       StronglySorted (fun x y => snd y <= snd x) rows /\
       (forall r, In r rows ->
                  snd r = Z.of_nat (List.length (labelled d (fst r))) /\
                  1 <= snd r) /\
       (forall s, In s (ReviewMovieStats2 d) -> In (label s) (map fst rows)) /\
       sum (map snd rows) = Z.of_nat (List.length (ReviewMovieStats2 d))).
Proof.
  intros rest d invalid. unfold correlationReviewsMovieRatings. split.
  - intros H. now rewrite H.
  - intros Hinv Hup. rewrite Hinv. exists (correlation d).
    split; [carried_out Hup; reflexivity|].
    unfold correlation.
    set (before := fun x y : string * Z => snd y <=? snd x).
    assert (Hperm : Permutation (label_counts d) (Rel.order_by before (label_counts d)))
      by apply RelFacts.order_by_perm.
    assert (Hkeys : map fst (label_counts d)
                    = Rel.distinct String.eqb (map label (ReviewMovieStats2 d))).
    { unfold label_counts. rewrite map_map. simpl.
      apply (MoreRelFacts.group_keys String.eqb). }
    split.
    { apply (Permutation_NoDup (l := map fst (label_counts d))).
      - now apply Permutation_map.
      - rewrite Hkeys. apply (MoreRelFacts.distinct_NoDup String.eqb String.eqb_eq). }
    split.
    { apply (MoreRelFacts.sorted_relation (fun x y => before x y = true)).
      - intros x y _ _ H. now apply Z.leb_le.
      - apply RelFacts.order_by_sorted.
        + intros x y. unfold before. rewrite !Z.leb_le. lia.
        + intros x y z. unfold before. rewrite !Z.leb_le. lia. }
    split.
    { intros r Hr. apply ReportOrderFacts.label_count_row.
      now apply (RelFacts.order_by_in before). }
    split.
    { intros s Hs. apply (Permutation_in (l := map fst (label_counts d))).
      - now apply Permutation_map.
      - rewrite Hkeys.
        apply (RelFacts.distinct_complete String.eqb String.eqb_eq).
        now apply in_map. }
    rewrite <- (ReportOrderFacts.sum_perm _ _ (Permutation_map snd Hperm)).
    unfold label_counts. rewrite map_map. simpl.
    rewrite ReportOrderFacts.sum_of_sizes.
    now rewrite (MoreRelFacts.group_sizes String.eqb String.eqb_eq).
Qed.

Lemma correlation_witness :
  (Js.truthy None = false /\ reachable Showcase.catalogue = true) /\
  exists rows,
    snd (run Showcase.engine (correlationReviewsMovieRatings None) Showcase.catalogue)
    = status_json 200 (Js.Arr (map label_count_to_js rows)) /\
    sum (map snd rows) = 3.
Proof.
  split; [split; reflexivity|].
  destruct (proj2 (correlation_counts_partition_the_view
                     Sample.no_rows Showcase.catalogue None) eq_refl eq_refl)
    as (rows & Hresp & _ & _ & _ & _ & Hsum).
  exists rows. split; [exact Hresp | exact Hsum].
Defined.

(** X6.  With no truthy [invalid] and the statement carried out,
    [PositiveReviewsforBooksvsLowMovierating] answers 200 with exactly the
    pairs of a row of [mv_positive_books2] and a row of [mv_low_rated_movies]
    that [books_movies_map] links and whose [positive_review_count] is above
    20, by descending count and, for equal counts, ascending movie
    rating. *)
Theorem positive_reviews_rows_exceed_twenty :
  forall (rest : rows_engine) (d : Db.state) (invalid : option string),
    Js.truthy invalid = false -> reachable d = true ->
    exists rows,
      snd (run (interpreted rest) (PositiveReviewsforBooksvsLowMovierating invalid) d)
      = status_json 200 (Js.Arr (map positive_vs_low_to_js rows)) /\
      (forall x, In x rows <-> contrast d x /\ 20 < btm_count x) /\
      (forall x, In x rows ->
                 Js.get (positive_vs_low_to_js x) "positive_review_count"
                 = num (btm_count x)) /\
      StronglySorted
        (fun x y => btm_count y < btm_count x \/
                    (btm_count x = btm_count y /\ (btm_rating x <= btm_rating y)%Q))
        rows.
Proof.
  intros rest d invalid Hinv Hup.
  unfold PositiveReviewsforBooksvsLowMovierating. rewrite Hinv.
  exists (positive_vs_low d). split; [carried_out Hup; reflexivity|].
  unfold positive_vs_low. split; [|split].
  - intros x. rewrite (RelFacts.order_by_in count_desc_rating_asc).
    rewrite filter_In, Z.ltb_lt, ReportOrderFacts.contrast_in_join. tauto.
  - intros x _. reflexivity.
  - apply (MoreRelFacts.sorted_relation (fun x y => count_desc_rating_asc x y = true)).
    + intros x y _ _ H. now apply ReportOrderFacts.count_desc_rating_asc_spec.
    + apply RelFacts.order_by_sorted.
      * apply ReportOrderFacts.count_desc_rating_asc_total.
      * apply ReportOrderFacts.count_desc_rating_asc_trans.
Qed.

Lemma positive_reviews_witness :
  (Js.truthy None = false /\ reachable Showcase.catalogue = true) /\
  exists rows,
    snd (run Showcase.engine (PositiveReviewsforBooksvsLowMovierating None)
           Showcase.catalogue)
    = status_json 200 (Js.Arr (map positive_vs_low_to_js rows)) /\
    forall x, In x rows <-> contrast Showcase.catalogue x /\ 20 < btm_count x.
Proof.
  split; [split; reflexivity|].
  destruct (positive_reviews_rows_exceed_twenty
              Sample.no_rows Showcase.catalogue None eq_refl eq_refl)
    as (rows & Hresp & Hin & _).
  exists rows. split; [exact Hresp | exact Hin].
Defined.

(** X7.  With the statement carried out, [topMoviesByGenre] answers 200 with
    one row for every row of [mv_top_movies_by_genre], none dropped and none
    added, and of two rows of one genre the one listed first has the lower
    or equal rank. *)
Theorem top_movies_are_listed_by_rank_within_a_genre :
  forall (rest : rows_engine) (d : Db.state),
    reachable d = true ->
    exists rows,
      snd (run (interpreted rest) topMoviesByGenre d)
      = status_json 200 (Js.Arr (map top_movie_to_js rows)) /\
      Permutation (mv_top_movies_by_genre d) rows /\
      forall front x back,
        rows = (front ++ x :: back)%list ->
        forall y, In y back -> top_genre y = top_genre x ->
                  top_rank x <= top_rank y.
Proof.
  intros rest d Hup. exists (top_movies_by_genre d).
  split; [carried_out Hup; reflexivity|].
  unfold top_movies_by_genre. split; [apply RelFacts.order_by_perm|].
  intros front x back Hrows y Hy Hgenre.
  pose proof (RelFacts.order_by_sorted genre_then_rank
                ReportOrderFacts.genre_then_rank_total
                ReportOrderFacts.genre_then_rank_trans
                (mv_top_movies_by_genre d)) as Hs.
  rewrite Hrows in Hs. clear Hrows.
  induction front as [|f front IH]; simpl in Hs.
  - apply StronglySorted_inv in Hs. destruct Hs as [_ Hall].
    rewrite Forall_forall in Hall. specialize (Hall y Hy).
    unfold genre_then_rank in Hall. rewrite Hgenre in Hall.
    rewrite ReportOrderFacts.ltb_irrefl, String.eqb_refl in Hall.
    simpl in Hall. now apply Z.leb_le.
  - apply StronglySorted_inv in Hs. destruct Hs as [Hs _]. now apply IH.
Qed.

Lemma top_movies_witness :
  reachable Showcase.catalogue = true /\
  exists rows,
    snd (run Showcase.engine topMoviesByGenre Showcase.catalogue)
    = status_json 200 (Js.Arr (map top_movie_to_js rows)) /\
    Permutation (mv_top_movies_by_genre Showcase.catalogue) rows.
Proof.
  split; [reflexivity|].
  destruct (top_movies_are_listed_by_rank_within_a_genre
              Sample.no_rows Showcase.catalogue eq_refl)
    as (rows & Hresp & Hperm & _).
  exists rows. split; [exact Hresp | exact Hperm].
Defined.

Module ReadingFacts.
Import Sql Spec.

Lemma digit_is_plain (c : ascii) (v : Z) :
  digit c = Some v ->
  Ascii.eqb c apostrophe = false /\ Ascii.eqb c backslash = false
  /\ Ascii.eqb c nul = false.
Proof.
  unfold digit. intros H.
  destruct ((48 <=? Z.of_N (N_of_ascii c)) && (Z.of_N (N_of_ascii c) <=? 57)) eqn:E;
    [|discriminate].
  apply andb_prop in E. destruct E as [E1 E2].
  apply Z.leb_le in E1. apply Z.leb_le in E2.
  repeat split; apply Ascii.eqb_neq; intros ->; vm_compute in E1, E2;
    first [now apply E1 | now apply E2].
Qed.

(** A text of digits is read as the literal it is. *)
Lemma digits_read_as_written (s : string) :
  forall acc v, decimal_from acc s = Some v -> read_quoted s = Literal s.
Proof.
  induction s as [|c rest IH]; intros acc v H; [reflexivity|].
  cbn [decimal_from] in H. destruct (digit c) as [dc|] eqn:Edc; [|discriminate].
  destruct (digit_is_plain c dc Edc) as (Ha & Hb & Hn).
  cbn [read_quoted]. rewrite Ha, Hb, Hn. cbn [orb].
  now rewrite (IH _ _ H).
Qed.

Lemma bound_read_as_written (text : string) (q : Q) :
  Reports.bound text = Some q -> literal text = Some text.
Proof.
  unfold Reports.bound, literal, decimal.
  destruct (String.length text <=? 15)%nat; [|discriminate].
  destruct text as [|c rest]; [discriminate|].
  destruct (decimal_from 0 (String c rest)) as [v|] eqn:E; [|discriminate].
  intros _. now rewrite (digits_read_as_written _ _ _ E).
Qed.

(** The characters of a word are read as they are. *)
Lemma word_read_as_written (s : string) :
  Pages.word s = true -> read_quoted s = Literal s.
Proof.
  induction s as [|c rest IH]; [reflexivity|].
  cbn [Pages.word]. intros H. apply andb_prop in H. destruct H as [Hc Hrest].
  assert (Hplain : Ascii.eqb c apostrophe = false /\ Ascii.eqb c backslash = false
                   /\ Ascii.eqb c nul = false).
  { repeat split; apply Ascii.eqb_neq; intros ->; discriminate Hc. }
  destruct Hplain as (Ha & Hb & Hn).
  cbn [read_quoted]. rewrite Ha, Hb, Hn. cbn [orb]. now rewrite (IH Hrest).
Qed.

End ReadingFacts.

(** X8.  For a [book_id] that is not negative, within 32 bits, and bounds
    that are texts of up to 15 digits (the defaults 0 and 5 when absent),
    with the statement carried out, [get_book_reviews] answers 200 with
    exactly the reviews of that book whose rating lies within the bounds,
    each next to the row of [books_data] it joins, in descending order of
    rating. *)
Theorem book_reviews_are_the_reviews_in_range :
  forall (rest : rows_engine) (d : Db.state) (id : Z)
         (minrating maxrating : option string) (lo hi : Q),
    0 <= id -> id <= 2147483647 -> reachable d = true ->
    bound (Js.nullish minrating "0") = Some lo ->
    bound (Js.nullish maxrating "5") = Some hi ->
    exists rows,
      snd (run (interpreted rest) (get_book_reviews (Some id) minrating maxrating) d)
      = status_json 200 (Js.Arr (map review_to_js rows)) /\
      (forall p, In p rows <-> review_of d id lo hi p) /\
      StronglySorted (fun x y => (rating (fst y) <= rating (fst x))%Q) rows /\
      (forall p, In p rows ->
                 Js.get (review_to_js p) "book_rating" = Js.Num (rating (fst p)) /\
                 Js.get (review_to_js p) "book_title" = Js.Str (title (snd p))).
Proof.
  intros rest d id minrating maxrating lo hi Hid Hmax Hup Hlo Hhi.
  unfold get_book_reviews, negative.
  replace (id <? 0) with false by (symmetry; apply Z.ltb_ge; lia).
  exists (book_reviews d id lo hi). split.
  { carried_out Hup.
    rewrite (ReadingFacts.bound_read_as_written _ _ Hlo),
      (ReadingFacts.bound_read_as_written _ _ Hhi).
    cbn. rewrite Hlo, Hhi. unfold int4.
    replace (-2147483648 <=? id) with true by (symmetry; apply Z.leb_le; lia).
    replace (id <=? 2147483647) with true by (symmetry; apply Z.leb_le; lia).
    reflexivity. }
  unfold book_reviews.
  set (before := fun x y : review_row * book =>
                   Qle_bool (rating (fst y)) (rating (fst x))).
  split; [|split].
  - intros p. rewrite (RelFacts.order_by_in before).
    apply ReportOrderFacts.review_in_range.
  - apply (MoreRelFacts.sorted_relation (fun x y => before x y = true)).
    + intros x y _ _ H. now apply Qle_bool_iff.
    + apply RelFacts.order_by_sorted.
      * intros x y. unfold before. rewrite !Qle_bool_iff.
        destruct (Qlt_le_dec (rating (fst x)) (rating (fst y)));
          [right; now apply Qlt_le_weak | now left].
      * intros x y z. unfold before. rewrite !Qle_bool_iff.
        intros H1 H2. now apply Qle_trans with (rating (fst y)).
  - intros p _. split; reflexivity.
Qed.

Lemma book_reviews_witness :
  (0 <= 2 /\ 2 <= 2147483647 /\ reachable Showcase.catalogue = true /\
   bound (Js.nullish None "0") = Some 0%Q /\ bound (Js.nullish None "5") = Some 5%Q)
  /\
  exists rows,
    snd (run Showcase.engine (get_book_reviews (Some 2) None None) Showcase.catalogue)
    = status_json 200 (Js.Arr (map review_to_js rows)) /\
    forall p, In p rows <-> review_of Showcase.catalogue 2 0 5 p.
Proof.
  assert (Hid : 0 <= 2) by lia.
  assert (Hmax : 2 <= 2147483647) by lia.
  split; [split; [exact Hid | split; [exact Hmax | repeat split]]|].
  destruct (book_reviews_are_the_reviews_in_range
              Sample.no_rows Showcase.catalogue 2 None None 0 5 Hid Hmax
              eq_refl eq_refl eq_refl)
    as (rows & Hresp & Hin & _).
  exists rows. split; [exact Hresp | exact Hin].
Defined.

(** X9.  Whatever the engine and the state, [get_book_reviews] answers 404
    exactly when [book_id] is negative, with the body
    ['Internal Server Error'] and without a statement.  Otherwise it answers
    500 when the statement fails and 200 with the rows when it succeeds, also
    when there is no row: its two ['No reviews found'] answers are never
    given.  When the bounds make the text several statements that succeed,
    it answers 200 with an empty body. *)
Theorem book_reviews_answer_404_only_to_negative_ids :
  forall (engine : rows_engine) (d : Db.state) (book_id : option Z)
         (minrating maxrating : option string),
    let answer := snd (run engine (get_book_reviews book_id minrating maxrating) d) in
    (status answer = 404 <-> negative book_id = true) /\
    (negative book_id = true ->
     get_book_reviews book_id minrating maxrating
     = Respond (status_json 404 (Js.Str "Internal Server Error"))) /\
    (negative book_id = false ->
     answer = status_json 500 (Js.Str "Internal Server Error") \/
     (exists rows, answer = status_json 200 (Js.Arr rows)) \/
     answer = status_json 200 Js.Undefined) /\
    body answer <> Js.Str "No reviews found for the specified book title".
Proof.
  intros engine d book_id minrating maxrating. cbv zeta.
  unfold get_book_reviews.
  destruct (negative book_id) eqn:Eneg.
  - simpl. repeat split; try discriminate; auto.
  - unfold run.
    destruct (exec engine _ d) as [d' [|data|]]; simpl.
    + repeat split; try discriminate; auto.
    + repeat split; try discriminate; eauto.
    + repeat split; try discriminate; auto.
Qed.

(** With a [maxrating] that ends its literal and goes on with a second
    statement, on an engine that carries the two statements out. *)
Example book_reviews_of_a_stacked_text :
  forall d : Db.state,
    reachable d = true ->
    snd (run {| rows_of := fun _ _ => Some []; stray := fun _ s => (s, Several) |}
           (get_book_reviews (Some 1) None
              (Some "5' order by 1; SELECT 1 AS rating FROM (SELECT 1 AS rating) r WHERE '1'='1"))
           d)
    = status_json 200 Js.Undefined.
Proof. intros d Hup. now carried_out Hup. Qed.

Module MovieDetailFacts.
Import Db Sql Reports RelFacts MoreRelFacts.

Lemma movie_eqb_refl m : movie_eqb m m = true.
Proof.
  unfold movie_eqb.
  now rewrite !String.eqb_refl, Bool.eqb_reflx, Z.eqb_refl.
Qed.

Lemma same_detail_key_refl k : same_detail_key k k = true.
Proof.
  unfold same_detail_key. rewrite movie_eqb_refl. simpl.
  destruct (snd k) as [[q v]|]; [|reflexivity].
  simpl. now rewrite Qeq_bool_refl, Z.eqb_refl.
Qed.

Lemma in_genres_of l g :
  In g (genres_of l) <-> exists y mg, In (y, Some mg) l /\ genre mg = g.
Proof.
  induction l as [|[y [mg|]] rest IH]; simpl.
  - split; [tauto | intros (? & ? & [] & _)].
  - rewrite IH. split.
    + intros [<-|(y' & mg' & Hin & Hg)]; [exists y, mg; auto|].
      exists y', mg'. auto.
    + intros (y' & mg' & [Heq|Hin] & Hg).
      * inversion Heq; subst. now left.
      * right. eauto.
  - rewrite IH. split.
    + intros (y' & mg' & Hin & Hg). exists y', mg'. auto.
    + intros (y' & mg' & [Heq|Hin] & Hg); [discriminate|eauto].
Qed.

Lemma group_by_nil {A K : Type} (same : K -> K -> bool) (key : A -> K) l :
  Rel.group_by same key l = [] <-> l = [].
Proof.
  unfold Rel.group_by. destruct l as [|a rest]; simpl; split; try reflexivity;
    discriminate.
Qed.

(** The rows that pass WHERE belong to a movie with the requested id and a
    positive runtime. *)
Lemma detail_row_movie d t x :
  In x (filter (fun x => String.eqb (tconst (fst (fst x))) t
                         && (0 <? runtimeminutes (fst (fst x))))
          (movie_detail_from d)) ->
  In (fst (fst x)) (movies_metadata d) /\ tconst (fst (fst x)) = t /\
  0 < runtimeminutes (fst (fst x)).
Proof.
  intros H. apply filter_In in H. destruct H as [Hfrom Hw].
  apply andb_true_iff in Hw. destruct Hw as [Ht Hr].
  apply String.eqb_eq in Ht. apply Z.ltb_lt in Hr.
  unfold movie_detail_from in Hfrom.
  apply left_join_fst in Hfrom. apply left_join_fst in Hfrom. auto.
Qed.

Lemma movie_has_detail_row d t m :
  In m (movies_metadata d) -> tconst m = t -> 0 < runtimeminutes m ->
  exists x, In x (filter (fun x => String.eqb (tconst (fst (fst x))) t
                                   && (0 <? runtimeminutes (fst (fst x))))
                    (movie_detail_from d)).
Proof.
  intros Hm Ht Hr.
  destruct (left_join_keeps (fun m r => String.eqb (tconst m) (movie_id r))
              (movies_metadata d) (movies_ratings d) m Hm) as [orr H1].
  destruct (left_join_keeps
              (fun x g => String.eqb (tconst (fst x)) (genre_movie_id g))
              _ (movies_genres d) _ H1) as [og H2].
  exists ((m, orr), og). apply filter_In. split; [exact H2|]. simpl.
  apply andb_true_iff. split; [now apply String.eqb_eq | now apply Z.ltb_lt].
Qed.

(** The genres aggregated in a group are those of the rows of
    [movies_genres] for the movie. *)
Lemma group_genres d t k g :
  In (k, g) (movie_detail_groups d t) ->
  forall name,
    In name (genres_of g) <->
    exists mg, In mg (movies_genres d) /\ genre_movie_id mg = t /\ genre mg = name.
Proof.
  unfold movie_detail_groups. intros Hg name.
  apply in_group_by in Hg. destruct Hg as [-> Hk].
  apply in_map_iff in Hk. destruct Hk as (x0 & <- & Hx0).
  rewrite in_genres_of. split.
  - intros (y & mg & Hin & Hname). exists mg.
    apply filter_In in Hin. destruct Hin as [Hin _].
    destruct (detail_row_movie d t _ Hin) as (_ & Ht & _).
    apply filter_In in Hin. destruct Hin as [Hfrom _].
    unfold movie_detail_from in Hfrom. apply in_left_join_some in Hfrom.
    destruct Hfrom as (_ & Hmg & Hon). apply String.eqb_eq in Hon.
    simpl in Ht. repeat split; auto. congruence.
  - intros (mg & Hmg & Hid & Hname).
    destruct (detail_row_movie d t _ Hx0) as (_ & Ht & Hr).
    exists (fst x0), mg. split; [|assumption].
    apply filter_In. split.
    + apply filter_In. split.
      * unfold movie_detail_from. apply in_left_join_some.
        split; [|split; [assumption|]].
        -- apply filter_In in Hx0. destruct Hx0 as [Hx0 _].
           unfold movie_detail_from in Hx0. now apply left_join_fst in Hx0.
        -- apply String.eqb_eq. congruence.
      * simpl. apply andb_true_iff.
        split; [now apply String.eqb_eq | now apply Z.ltb_lt].
    + unfold detail_key_of. simpl. apply same_detail_key_refl.
Qed.

End MovieDetailFacts.

Lemma movie_details_lookup (rest : rows_engine) d t s :
  t <> "" -> reachable d = true -> read_quoted t = Literal s ->
  run (interpreted rest) (moviesDetailsWithId t) d
  = (d, json (Js.Arr (map movie_detail_to_js (movie_detail_groups d s)))).
Proof.
  intros Ht Hup Hs. unfold moviesDetailsWithId. rewrite (nonempty_text t Ht).
  carried_out Hup. unfold last_literal. now rewrite Hs.
Qed.

(** X10.  For a non-empty [tconst] that the server reads as the literal it
    was written as, denoting [s], with the statement carried out,
    [moviesDetailsWithId] answers 200 with rows that all show a row of
    [movies_metadata] with the [tconst] [s] and a runtime above 0, with
    [genres] joining exactly the genres that [movies_genres] has for the
    movie (NULL when it has none); the array is empty exactly when no row of
    [movies_metadata] has that [tconst] with a positive runtime.  A [tconst]
    that ends in an apostrophe by itself is answered 500. *)
Theorem movie_details_need_a_positive_runtime :
  forall (rest : rows_engine) (d : Db.state) (t s : string),
    t <> "" -> reachable d = true ->
    (read_quoted t = Literal s ->
     exists rows,
       snd (run (interpreted rest) (moviesDetailsWithId t) d)
       = status_json 200 (Js.Arr rows) /\
       (forall r, In r rows ->
          exists m gs,
            In m (movies_metadata d) /\ tconst m = s /\ 0 < runtimeminutes m /\
            Js.get r "tconst" = Js.Str s /\
            Js.get r "primarytitle" = Js.Str (primarytitle m) /\
            Js.get r "runtimeminutes" = num (runtimeminutes m) /\
            Js.get r "genres" = string_agg gs /\
            (forall name,
                In name gs <->
                exists mg, In mg (movies_genres d) /\
                           genre_movie_id mg = s /\ genre mg = name)) /\
       (rows = [] <->
        forall m, In m (movies_metadata d) -> tconst m = s ->
                  runtimeminutes m <= 0))
    /\
    (read_quoted t = Unterminated ->
     snd (run (interpreted rest) (moviesDetailsWithId t) d)
     = status_json 500 (Js.Obj [("error", Js.Str "Internal Server Error")])).
Proof.
  intros rest d t s Ht Hup. split.
  2:{ intros Hbad. unfold moviesDetailsWithId. rewrite (nonempty_text t Ht).
      carried_out Hup. unfold last_literal. now rewrite Hbad. }
  intros Hs.
  exists (map movie_detail_to_js (movie_detail_groups d s)).
  split; [now rewrite (movie_details_lookup rest d t s Ht Hup Hs)|]. split.
  - intros r Hr. apply in_map_iff in Hr. destruct Hr as ([k g] & <- & Hg).
    pose proof (MovieDetailFacts.group_genres d s k g Hg) as Hgen.
    unfold movie_detail_groups in Hg. apply RelFacts.in_group_by in Hg.
    destruct Hg as [_ Hk]. apply in_map_iff in Hk.
    destruct Hk as (x0 & <- & Hx0).
    destruct (MovieDetailFacts.detail_row_movie d s _ Hx0) as (Hm & Htc & Hr).
    exists (fst (fst x0)), (genres_of g).
    repeat split; auto; simpl; try (now rewrite Htc); apply Hgen.
  - unfold movie_detail_groups. split.
    + intros Hnil m Hm Htc.
      apply map_eq_nil in Hnil. apply MovieDetailFacts.group_by_nil in Hnil.
      destruct (Z.le_gt_cases (runtimeminutes m) 0) as [|Hpos]; [assumption|].
      destruct (MovieDetailFacts.movie_has_detail_row d s m Hm Htc) as [x Hx];
        [lia|].
      rewrite Hnil in Hx. destruct Hx.
    + intros Hnone.
      replace (filter _ (movie_detail_from d))
        with (@nil ((movie * option movie_rating) * option movie_genre));
        [reflexivity|].
      symmetry. apply AdaptationFacts.no_member_nil. intros x Hx.
      destruct (MovieDetailFacts.detail_row_movie d s _ Hx) as (Hm & Htc & Hr).
      specialize (Hnone _ Hm Htc). lia.
Qed.

Lemma movie_details_witness :
  ("tt0116191" <> "" /\ reachable Showcase.catalogue = true /\
   read_quoted "tt0116191" = Literal "tt0116191") /\
  exists rows,
    snd (run Showcase.engine (moviesDetailsWithId "tt0116191") Showcase.catalogue)
    = status_json 200 (Js.Arr rows) /\
    (rows = [] <->
     forall m, In m (movies_metadata Showcase.catalogue) ->
               tconst m = "tt0116191" -> runtimeminutes m <= 0).
Proof.
  assert (Ht : "tt0116191" <> "") by discriminate.
  split; [split; [exact Ht | split; reflexivity]|].
  destruct (proj1 (movie_details_need_a_positive_runtime
                     Sample.no_rows Showcase.catalogue "tt0116191" "tt0116191"
                     Ht eq_refl) eq_refl)
    as (rows & Hresp & _ & Hnil).
  exists rows. split; [exact Hresp | exact Hnil].
Defined.

Example details_of_a_movie :
  snd (run Showcase.engine (app (GET_movies_details_id "tt1160419")) Showcase.catalogue)
  = json (Js.Arr
            [Js.Obj [("tconst", Js.Str "tt1160419");
                     ("primarytitle", Js.Str "Dune (2021)");
                     ("originaltitle", Js.Str "Dune (2021)");
                     ("isadult", Js.Bool false);
                     ("runtimeminutes", Js.Num 155);
                     ("genres", Js.Str "Sci-Fi, Adventure");
                     ("averagerating", Js.Num 8);
                     ("numvotes", Js.Num 10)]]).
Proof. reflexivity. Qed.

(* ================================================================== *)
(** ** Signing up and logging in, one after the other *)

Module AccountFacts.
Import Db Sql Routes Spec.

Lemma with_login_same d : with_login d (Db.login d) = d.
Proof. destruct d; reflexivity. Qed.

Lemma with_login_twice d l l' : with_login (with_login d l) l' = with_login d l'.
Proof. reflexivity. Qed.

Lemma taken_iff_stored d name :
  existsb (fun r => String.eqb (username r) name) (Db.login d) = false <->
  stored_row d (Js.Text name) = None.
Proof.
  simpl. induction (Db.login d) as [|r rest IH]; simpl; [tauto|].
  destruct (String.eqb (username r) name); simpl; [split; discriminate | exact IH].
Qed.

Lemma insert_login_some d u p d' :
  insert_login d u p = Some d' <->
  exists name pw,
    u = Js.Text name /\ p = Js.Text pw /\ name <> "" /\ stored_row d u = None /\
    d' = with_login d (Db.login d ++ [{| username := name; password := pw |}]).
Proof.
  unfold insert_login. split.
  - destruct u as [| |name]; try discriminate.
    destruct p as [| |pw]; try discriminate.
    pose proof (taken_iff_stored d name) as Ht.
    destruct (String.eqb name "") eqn:En; [discriminate|].
    destruct (existsb _ (Db.login d)); [discriminate|].
    intros H. inversion H. exists name, pw.
    repeat split; [now apply String.eqb_neq | now apply Ht].
  - intros (name & pw & -> & -> & Hne & Hfree & ->).
    apply taken_iff_stored in Hfree. apply String.eqb_neq in Hne.
    now rewrite Hne, Hfree.
Qed.

Lemma signup_run (engine : rows_engine) d u p :
  run engine (signup u p) d
  = match (if reachable d then insert_login d u p else None) with
    | Some d' => (d', status_json 201 (message_object "User created successfully"))
    | None => (d, status_json 500
                    (error_object "User already exists or database error!"))
    end.
Proof.
  simpl. destruct (reachable d); simpl; [|reflexivity].
  unfold inserted. destruct (insert_login d u p); reflexivity.
Qed.

(** What one signup does to the state. *)
Lemma signup_effect (engine : rows_engine) d u p :
  fst (run engine (signup u p) d)
  = match u, p with
    | Js.Text name, Js.Text pw =>
        if reachable d && negb (String.eqb name "")
        then match stored_row d u with
             | None => with_login d (Db.login d
                                       ++ [{| username := name; password := pw |}])
             | Some _ => d
             end
        else d
    | _, _ => d
    end.
Proof.
  simpl. destruct (reachable d); simpl;
    [|destruct u as [| |name]; try reflexivity; destruct p; reflexivity].
  unfold inserted, insert_login.
  destruct u as [| |name]; try reflexivity.
  destruct p as [| |pw]; try reflexivity.
  destruct (String.eqb name ""); [reflexivity|]. cbn [orb negb].
  pose proof (taken_iff_stored d name) as Ht.
  destruct (existsb _ (Db.login d)).
  - destruct (stored_row d (Js.Text name)); [reflexivity|].
    destruct Ht as [_ Ht]. discriminate (Ht eq_refl).
  - destruct Ht as [Ht _]. now rewrite (Ht eq_refl).
Qed.

Lemma signup_grows_login (engine : rows_engine) u p d :
  exists added,
    fst (run engine (signup u p) d) = with_login d (Db.login d ++ added) /\
    (forall row, In row added -> stored_row d (Js.Text (username row)) = None) /\
    (List.length added <= 1)%nat.
Proof.
  assert (Hsame : exists added,
             d = with_login d (Db.login d ++ added) /\
             (forall row, In row added ->
                          stored_row d (Js.Text (username row)) = None) /\
             (List.length added <= 1)%nat).
  { exists []. rewrite app_nil_r, with_login_same.
    split; [reflexivity|]. split; [intros row []|simpl; lia]. }
  rewrite signup_effect.
  destruct u as [| |name]; try exact Hsame.
  destruct p as [| |pw]; try exact Hsame.
  destruct (reachable d && negb (String.eqb name "")); [|exact Hsame].
  destruct (stored_row d (Js.Text name)) eqn:Es; [exact Hsame|].
  exists [{| username := name; password := pw |}].
  split; [reflexivity|]. split; [|simpl; lia].
  intros row [<-|[]]. exact Es.
Qed.

(** A request whose text is read as meant leaves the state as it was, up
    to rows added at the end of [login]. *)
Lemma run_grows_login (engine : rows_engine) (r : request) d :
  as_meant r = true ->
  exists added,
    fst (run engine (app r) d) = with_login d (Db.login d ++ added) /\
    (forall row, In row added -> stored_row d (Js.Text (username row)) = None) /\
    (List.length added <= 1)%nat.
Proof.
  intros Hmeant. destruct (is_signup r) eqn:E.
  - destruct r; try discriminate. apply signup_grows_login.
  - exists []. rewrite app_nil_r, with_login_same.
    split; [|split; [intros row []|simpl; lia]].
    now apply meant_frame.
Qed.

Lemma stored_row_appended d name pw :
  stored_row d (Js.Text name) = None ->
  stored_row (with_login d (Db.login d ++ [{| username := name; password := pw |}]))
    (Js.Text name)
  = Some {| username := name; password := pw |}.
Proof.
  simpl. induction (Db.login d) as [|x rest IH]; simpl.
  - now rewrite String.eqb_refl.
  - destruct (String.eqb (username x) name); [discriminate | exact IH].
Qed.

Lemma stored_row_grows d added u r :
  stored_row d u = Some r ->
  stored_row (with_login d (Db.login d ++ added)) u = Some r.
Proof.
  destruct u as [| |name]; simpl; try discriminate.
  induction (Db.login d) as [|x rest IH]; simpl; [discriminate|].
  destruct (String.eqb (username x) name); auto.
Qed.

Lemma distinct_names_grow d added :
  NoDup (map username (Db.login d)) ->
  (forall row, In row added -> stored_row d (Js.Text (username row)) = None) ->
  (List.length added <= 1)%nat ->
  NoDup (map username (Db.login d ++ added)).
Proof.
  intros Hnd Hnew Hlen. destruct added as [|row [|row' more]];
    [now rewrite app_nil_r | | simpl in Hlen; lia].
  rewrite map_app. simpl.
  apply (Permutation_NoDup (Permutation_cons_append _ (username row))).
  constructor; [|assumption].
  intros Hin. apply in_map_iff in Hin. destruct Hin as (x & Hx & Hin).
  specialize (Hnew row (or_introl eq_refl)). simpl in Hnew.
  apply find_none with (x := x) in Hnew; [|assumption].
  rewrite Hx, String.eqb_refl in Hnew. discriminate.
Qed.

Lemma serve_grows_login (engine : rows_engine) (reqs : list request) :
  forallb as_meant reqs = true ->
  forall d,
  exists added,
    fst (serve engine reqs d) = with_login d (Db.login d ++ added) /\
    (NoDup (map username (Db.login d)) ->
     NoDup (map username (Db.login d ++ added))).
Proof.
  induction reqs as [|r rest IH]; intros Hall d.
  - exists []. simpl. rewrite app_nil_r, with_login_same. auto.
  - simpl in Hall. apply andb_prop in Hall. destruct Hall as [Hr Hrest].
    destruct (run_grows_login engine r d Hr) as (added & Hstep & Hnew & Hlen).
    simpl. destruct (run engine (app r) d) as [d1 resp]. simpl in Hstep.
    destruct (IH Hrest d1) as (added' & Hd2 & Hnd).
    destruct (serve engine rest d1) as [d2 resps]. simpl in Hd2 |- *.
    exists (added ++ added')%list. subst d1 d2. simpl in *.
    rewrite <- app_assoc in *. split; [reflexivity|].
    intros H. apply Hnd. now apply distinct_names_grow.
Qed.

(** The answer of [login] on a reachable database, read off the row that
    the user name selects first. *)
Lemma login_response (engine : rows_engine) d user pass :
  reachable d = true ->
  snd (run engine (Routes.login user pass) d)
  = match stored_row d user with
    | Some r =>
        if Js.strict_eq (Js.of_field pass) (Js.Str (Db.password r))
        then json (message_object "Login successful")
        else incorrect_login
    | None => incorrect_login
    end.
Proof.
  intros Hup. pose proof (first_selected_row d user) as Hrow.
  carried_out Hup. destruct (stored_row d user) as [r|].
  - destruct Hrow as [rest ->]. reflexivity.
  - now rewrite Hrow.
Qed.

Lemma login_200_is_success (engine : rows_engine) d user pass :
  status (snd (run engine (Routes.login user pass) d)) = 200 ->
  reachable d = true /\
  exists r, stored_row d user = Some r /\
            Js.strict_eq (Js.of_field pass) (Js.Str (Db.password r)) = true.
Proof.
  intros H.
  assert (Hup : reachable d = true).
  { simpl in H. destruct (reachable d); [reflexivity|]. discriminate. }
  split; [exact Hup|]. rewrite (login_response engine d user pass Hup) in H.
  destruct (stored_row d user) as [r|]; [|discriminate].
  exists r. split; [reflexivity|].
  destruct (Js.strict_eq _ _); [reflexivity|discriminate].
Qed.

Lemma login_survives_growth (engine : rows_engine) d added user pass :
  status (snd (run engine (Routes.login user pass) d)) = 200 ->
  snd (run engine (Routes.login user pass) (with_login d (Db.login d ++ added)))
  = json (message_object "Login successful").
Proof.
  intros H. destruct (login_200_is_success engine d user pass H)
    as (Hup & r & Hr & Heq).
  rewrite login_response by exact Hup.
  now rewrite (stored_row_grows d added user r Hr), Heq.
Qed.

End AccountFacts.

(** X11.  [signup] answers 201 exactly when the database is reachable, both
    body fields are strings, the user name is not empty and [login] has no
    row for it; the state then gains that one row, at the end of [login].
    In every other case it answers 500 with
    ['User already exists or database error!'] and the state stays as it
    was. *)
Theorem signup_creates_the_user_or_changes_nothing :
  forall (engine : rows_engine) (d : Db.state) (u p : Js.field),
    let outcome := run engine (signup u p) d in
    (status (snd outcome) = 201 <->
     reachable d = true /\ stored_row d u = None /\
     exists name pw, u = Js.Text name /\ p = Js.Text pw /\ name <> "") /\
    (forall name pw,
        status (snd outcome) = 201 -> u = Js.Text name -> p = Js.Text pw ->
        fst outcome
        = with_login d (Db.login d ++ [{| username := name; password := pw |}])) /\
    (status (snd outcome) <> 201 ->
     outcome = (d, status_json 500
                     (Js.Obj [("error",
                               Js.Str "User already exists or database error!")]))).
Proof.
  intros engine d u p. cbv zeta. rewrite AccountFacts.signup_run.
  destruct (reachable d) eqn:Hup.
  - destruct (insert_login d u p) as [d'|] eqn:Ei; simpl.
    + apply AccountFacts.insert_login_some in Ei.
      destruct Ei as (name & pw & Hu & Hp & Hne & Hfree & Hd').
      split; [|split].
      * split; [intros _|reflexivity]. split; [reflexivity|].
        split; [assumption|]. eauto.
      * intros n q _ Hn Hq. subst. inversion Hn; inversion Hq; subst.
        reflexivity.
      * intros H. exfalso. now apply H.
    + split; [|split].
      * split; [discriminate|].
        intros (_ & Hfree & name & pw & Hu & Hp & Hne).
        assert (Hsome : insert_login d u p
                        = Some (with_login d (Db.login d
                                    ++ [{| username := name; password := pw |}]))).
        { apply AccountFacts.insert_login_some. exists name, pw. auto. }
        congruence.
      * discriminate.
      * reflexivity.
  - simpl. split; [|split].
    + split; [discriminate | intros (H & _); discriminate].
    + discriminate.
    + reflexivity.
Qed.

(** X12.  After a signup that was answered 201, a login with the same user
    name and password is answered 200, and a login with that user name and
    anything else for a password is answered 401. *)
Theorem login_after_signup :
  forall (engine : rows_engine) (d : Db.state) (name pw : string),
    status (snd (run engine (signup (Js.Text name) (Js.Text pw)) d)) = 201 ->
    let d' := fst (run engine (signup (Js.Text name) (Js.Text pw)) d) in
    snd (run engine (Routes.login (Js.Text name) (Js.Text pw)) d')
    = status_json 200 (Js.Obj [("message", Js.Str "Login successful")])
    /\
    forall other,
      other <> Js.Text pw ->
      snd (run engine (Routes.login (Js.Text name) other) d')
      = status_json 401
          (Js.Obj [("message", Js.Str "Incorrect username/password! Try again.")]).
Proof.
  intros engine d name pw H201. cbv zeta.
  rewrite AccountFacts.signup_run in H201 |- *.
  destruct (reachable d) eqn:Hup; [|discriminate].
  destruct (insert_login d (Js.Text name) (Js.Text pw)) as [d'|] eqn:Ei;
    [|discriminate].
  apply AccountFacts.insert_login_some in Ei.
  destruct Ei as (n & q & Hn & Hq & _ & Hfree & ->).
  inversion Hn; inversion Hq; subst n q. simpl fst.
  set (d' := with_login d (Db.login d ++ [{| username := name; password := pw |}])).
  assert (Hrow : stored_row d' (Js.Text name)
                 = Some {| username := name; password := pw |})
    by now apply AccountFacts.stored_row_appended.
  assert (Hup' : reachable d' = true) by exact Hup.
  split.
  - rewrite (AccountFacts.login_response engine d' _ _ Hup'), Hrow. simpl.
    now rewrite String.eqb_refl.
  - intros other Hother.
    rewrite (AccountFacts.login_response engine d' _ _ Hup'), Hrow. simpl.
    pose proof (strict_eq_stored other pw) as Heq.
    destruct (Js.strict_eq (Js.of_field other) (Js.Str pw)); [|reflexivity].
    exfalso. apply Hother. now apply Heq.
Qed.

Lemma login_after_signup_witness :
  status (snd (run Sample.no_rows (signup (Js.Text "bob") (Js.Text "pw"))
                 Sample.library)) = 201
  /\
  snd (run Sample.no_rows (Routes.login (Js.Text "bob") (Js.Text "pw"))
         (fst (run Sample.no_rows (signup (Js.Text "bob") (Js.Text "pw"))
                 Sample.library)))
  = status_json 200 (Js.Obj [("message", Js.Str "Login successful")]).
Proof.
  split; [reflexivity|].
  exact (proj1 (login_after_signup Sample.no_rows Sample.library "bob" "pw"
                  eq_refl)).
Defined.

(** X13.  Whatever requests are served, as long as the server reads the
    text of each as it was meant: [login] only grows at its end and no other
    table changes; user names that were distinct stay distinct; and a login
    that was answered 200 before is answered 200 afterwards. *)
Theorem served_requests_keep_accounts :
  forall (engine : rows_engine) (reqs : list request) (d : Db.state),
    forallb as_meant reqs = true ->
    let d' := fst (serve engine reqs d) in
    (exists added, d' = with_login d (Db.login d ++ added)) /\
    (NoDup (map username (Db.login d)) -> NoDup (map username (Db.login d'))) /\
    (forall user pass,
        status (snd (run engine (Routes.login user pass) d)) = 200 ->
        snd (run engine (Routes.login user pass) d')
        = status_json 200 (Js.Obj [("message", Js.Str "Login successful")])).
Proof.
  intros engine reqs d Hall. cbv zeta.
  destruct (AccountFacts.serve_grows_login engine reqs Hall d) as (added & Hd' & Hnd).
  rewrite Hd'. split; [now exists added|]. split; [exact Hnd|].
  intros user pass H.
  now rewrite (AccountFacts.login_survives_growth engine d added user pass H).
Qed.

Lemma served_requests_witness :
  forallb as_meant
    (POST_signup (Js.Text "bob") (Js.Text "pw") :: Sample.browsing) = true /\
  exists added,
    fst (serve Sample.no_rows
           (POST_signup (Js.Text "bob") (Js.Text "pw") :: Sample.browsing)
           Sample.library)
    = with_login Sample.library (Db.login Sample.library ++ added).
Proof.
  split; [reflexivity|].
  exact (proj1 (served_requests_keep_accounts Sample.no_rows
                  (POST_signup (Js.Text "bob") (Js.Text "pw") :: Sample.browsing)
                  Sample.library eq_refl)).
Defined.

(* ================================================================== *)
(** ** The pages against the server *)

Module PageFacts.

(** [login] reads only: it leaves the state alone and gives one of three
    answers. *)
Lemma login_run (engine : rows_engine) d u p :
  exists answer,
    run engine (Routes.login u p) d = (d, answer) /\
    (answer = json (message_object "Login successful") \/
     answer = incorrect_login \/
     answer = status_json 500 (error_object "Database error")).
Proof.
  exists (snd (run engine (Routes.login u p) d)). split.
  - assert (Hfst : fst (run engine (Routes.login u p) d) = d).
    { exact (meant_frame engine (POST_login u p) d eq_refl eq_refl). }
    destruct (run engine (Routes.login u p) d). simpl in *. now subst.
  - destruct (reachable d) eqn:Hup.
    + rewrite (AccountFacts.login_response engine d u p Hup).
      destruct (stored_row d u) as [r|]; [|auto].
      destruct (Js.strict_eq _ _); auto.
    + right. right. simpl. now rewrite Hup.
Qed.

(** The login form on an answer of [login]. *)
Lemma handleLogin_delivered (engine : rows_engine) d email password s :
  Pages.handleLogin false (Pages.delivered engine) email password d s
  = let answer :=
      snd (run engine (Routes.login (Js.Text email) (Js.Text password)) d) in
    let form := Pages.setError s (Js.Str "") in
    Some (d,
          if status answer =? 200 then Pages.enter form "undefined" "/home"
          else if status answer =? 401
               then Pages.setError form
                      (Js.Str "Incorrect username/password! Try again.")
               else Pages.setError form (Js.Str "Login failed")).
Proof.
  unfold Pages.handleLogin, Pages.delivered. simpl app.
  destruct (login_run engine d (Js.Text email) (Js.Text password))
    as (answer & Hrun & Hanswer).
  rewrite Hrun. cbv zeta. simpl snd.
  destruct Hanswer as [-> | [-> | ->]]; reflexivity.
Qed.

(** The sign-up form on an answer of [signup]. *)
Lemma handleSignUp_delivered (engine : rows_engine) d email password s :
  Pages.handleSignUp (Pages.delivered engine) email password password d s
  = let created := run engine (signup (Js.Text email) (Js.Text password)) d in
    Some (fst created,
          if status (snd created) =? 201
          then {| Pages.token := Pages.token s; Pages.route := "/";
                  Pages.error := Js.Str "" |}
          else Pages.setError s
                 (Js.Str "User already exists or database error!")).
Proof.
  unfold Pages.handleSignUp, Pages.delivered.
  rewrite String.eqb_refl. simpl app. cbv zeta.
  rewrite AccountFacts.signup_run.
  destruct (if reachable d
            then insert_login d (Js.Text email) (Js.Text password)
            else None); reflexivity.
Qed.

(** *** The [Map] of [uniqueReviews] *)

Lemma strict_eq_text (s : string) (k : Js.value) :
  Js.strict_eq (Js.Str s) k = true <-> Js.Str s = k.
Proof.
  destruct k; simpl; try (split; discriminate).
  rewrite String.eqb_eq. split; [intros -> | intros H; inversion H]; reflexivity.
Qed.

Lemma map_set_key_in k v m k' :
  Forall (fun e => exists s, fst e = Js.Str s) m ->
  In k' (map fst (Pages.map_set k v m)) <-> k' = k \/ In k' (map fst m).
Proof.
  induction 1 as [|[k0 v0] rest (s & Hs) _ IH]; simpl in *.
  - intuition.
  - subst k0. destruct (Js.strict_eq (Js.Str s) k) eqn:E; simpl.
    + apply strict_eq_text in E. subst k. intuition.
    + rewrite IH. intuition.
Qed.

Lemma map_set_NoDup k v m :
  Forall (fun e => exists s, fst e = Js.Str s) m ->
  NoDup (map fst m) -> NoDup (map fst (Pages.map_set k v m)).
Proof.
  induction 1 as [|[k0 v0] rest (s & Hs) Hrest IH]; simpl in *; intros Hnd.
  - repeat constructor. intros [].
  - subst k0. inversion Hnd as [|? ? Hout Hnd']; subst.
    destruct (Js.strict_eq (Js.Str s) k) eqn:E; simpl.
    + now constructor.
    + constructor; [|now apply IH].
      rewrite (map_set_key_in k v rest (Js.Str s) Hrest).
      intros [H | H]; [|contradiction].
      apply strict_eq_text in H. congruence.
Qed.

Lemma map_set_in k v m k' v' :
  Forall (fun e => exists s, fst e = Js.Str s) m ->
  NoDup (map fst m) ->
  In (k', v') (Pages.map_set k v m)
  <-> (k' = k /\ v' = v) \/ (k' <> k /\ In (k', v') m).
Proof.
  induction 1 as [|[k0 v0] rest (s & Hs) Hrest IH]; simpl in *; intros Hnd.
  - split.
    + intros [H | []]. inversion H. auto.
    + intros [[-> ->] | [_ []]]. now left.
  - subst k0. inversion Hnd as [|? ? Hout Hnd']; subst.
    destruct (Js.strict_eq (Js.Str s) k) eqn:E; simpl.
    + apply strict_eq_text in E. subst k. split.
      * intros [H | H]; [inversion H; auto|].
        right. split; [|now right].
        intros ->. apply Hout. apply in_map_iff. now exists (Js.Str s, v').
      * intros [[-> ->] | [Hne [H | H]]]; [now left | |now right].
        inversion H. congruence.
    + rewrite (IH Hnd'). split.
      * intros [H | [H | [Hne H]]]; auto.
        inversion H; subst. right. split; [|now left].
        intros <-. rewrite (proj2 (strict_eq_text s (Js.Str s)) eq_refl) in E.
        discriminate.
      * intros [H | [Hne [H | H]]]; auto.
Qed.

Lemma map_set_text k v m s :
  k = Js.Str s ->
  Forall (fun e => exists s, fst e = Js.Str s) m ->
  Forall (fun e => exists s, fst e = Js.Str s) (Pages.map_set k v m).
Proof.
  intros -> H. induction H as [|[k0 v0] rest Hk Hrest IH]; simpl.
  - repeat constructor. simpl. eauto.
  - destruct (Js.strict_eq k0 (Js.Str s)); constructor; auto.
Qed.

Lemma new_Map_snoc es e :
  Pages.new_Map (es ++ [e]) = Pages.map_set (fst e) (snd e) (Pages.new_Map es).
Proof.
  unfold Pages.new_Map. now rewrite fold_left_app.
Qed.

(** The entries of [new Map(es)]: no key twice, and an entry is in the map
    exactly when it is the last of [es] with its key. *)
Lemma new_Map_spec es :
  Forall (fun e => exists s, fst e = Js.Str s) es ->
  Forall (fun e => exists s, fst e = Js.Str s) (Pages.new_Map es) /\
  NoDup (map fst (Pages.new_Map es)) /\
  forall k v,
    In (k, v) (Pages.new_Map es) <->
    exists front back,
      es = (front ++ (k, v) :: back)%list /\
      forall e, In e back -> fst e <> k.
Proof.
  induction es as [|[k0 v0] es IH] using rev_ind; intros Htext.
  - split; [constructor|]. split; [constructor|].
    intros k v. split; [intros []|].
    intros (front & back & H & _). destruct front; discriminate.
  - apply Forall_app in Htext. destruct Htext as [Hes Hlast].
    inversion Hlast as [|? ? (s0 & Hs0) _]; subst. simpl in Hs0. subst k0.
    destruct (IH Hes) as (Htext & Hnd & Hin).
    rewrite new_Map_snoc. simpl fst. simpl snd.
    split; [now apply (map_set_text _ _ _ s0)|].
    split; [now apply map_set_NoDup|].
    intros k v. rewrite (map_set_in _ _ _ k v Htext Hnd). split.
    + intros [[-> ->] | [Hne H]].
      * exists es, []. split; [reflexivity | intros e []].
      * apply Hin in H. destruct H as (front & back & -> & Hback).
        exists front, (back ++ [(Js.Str s0, v0)])%list. split.
        { now rewrite <- app_assoc. }
        intros e He. apply in_app_iff in He. destruct He as [He | [<- | []]].
        -- now apply Hback.
        -- simpl. congruence.
    + intros (front & back & Heq & Hback).
      destruct back as [|b back] using rev_ind.
      * apply app_inj_tail in Heq. destruct Heq as [_ Heq].
        inversion Heq. now left.
      * clear IHback. rewrite app_comm_cons, app_assoc in Heq.
        apply app_inj_tail in Heq. destruct Heq as [-> <-].
        right. split.
        { intros ->. apply (Hback (Js.Str s0, v0)); [|reflexivity].
          apply in_app_iff. right. now left. }
        apply Hin. exists front, back. split; [reflexivity|].
        intros e He. apply Hback. apply in_app_iff. now left.
Qed.

Lemma new_Map_keys es :
  Forall (fun e => exists s, fst e = Js.Str s) es ->
  forall k, In k (map fst (Pages.new_Map es)) <-> In k (map fst es).
Proof.
  induction es as [|e es IH] using rev_ind; intros Htext k; [reflexivity|].
  apply Forall_app in Htext. destruct Htext as [Hes _].
  rewrite new_Map_snoc, map_app, in_app_iff.
  rewrite map_set_key_in by now apply new_Map_spec.
  rewrite (IH Hes). simpl. intuition.
Qed.

(** The values of the [Map] built over the [book_review] texts of [data]:
    one per text, each the last of [data] with its text. *)
Lemma unique_by_text (data : list Js.value) :
  Forall (fun v => exists s, Js.get v "book_review" = Js.Str s) data ->
  let shown :=
    map snd (Pages.new_Map (map (fun v => (Js.get v "book_review", v)) data)) in
  NoDup (map (fun r => Js.get r "book_review") shown) /\
  (forall r,
      In r shown <->
      exists front back,
        data = (front ++ r :: back)%list /\
        forall r', In r' back ->
                   Js.get r' "book_review" <> Js.get r "book_review") /\
  (forall v, In v data ->
             exists r, In r shown /\
                       Js.get r "book_review" = Js.get v "book_review").
Proof.
  intros Htext. cbv zeta.
  set (entry := fun v : Js.value => (Js.get v "book_review", v)).
  assert (Hes : Forall (fun e => exists s, fst e = Js.Str s) (map entry data)).
  { apply Forall_forall. intros e He. apply in_map_iff in He.
    destruct He as (v & <- & Hv). simpl.
    exact (proj1 (Forall_forall _ _) Htext v Hv). }
  destruct (new_Map_spec _ Hes) as (_ & Hnd & Hin).
  assert (Hkey : forall e, In e (Pages.new_Map (map entry data)) ->
                           e = entry (snd e) /\ In (snd e) data).
  { intros [k v] He. apply Hin in He. destruct He as (front & back & Heq & _).
    assert (H : In (k, v) (map entry data)).
    { rewrite Heq. apply in_app_iff. right. now left. }
    apply in_map_iff in H. destruct H as (v' & Hv' & Hdata).
    inversion Hv'; subst. auto. }
  split; [|split].
  - rewrite map_map.
    rewrite (map_ext_in _ fst); [exact Hnd|].
    intros e He. destruct (Hkey e He) as [-> _]. reflexivity.
  - intros r. rewrite in_map_iff. split.
    + intros ([k v] & <- & He). simpl.
      destruct (Hkey _ He) as [Hk _]. simpl in Hk. inversion Hk as [Hk'].
      apply Hin in He. destruct He as (front & back & Heq & Hback).
      exists (map snd front), (map snd back). split.
      * replace data with (map snd (map entry data))
          by (rewrite map_map; apply map_id).
        rewrite Heq, map_app. reflexivity.
      * intros r' Hr'. apply in_map_iff in Hr'.
        destruct Hr' as ([k' v'] & <- & He'). simpl.
        assert (H : In (k', v') (map entry data)).
        { rewrite Heq. apply in_app_iff. right. now right. }
        apply in_map_iff in H. destruct H as (v'' & Hv'' & _).
        unfold entry in Hv''. inversion Hv'' as [[Hk'' Hv']].
        rewrite Hv' in Hk''. rewrite Hk'', <- Hk'.
        exact (Hback _ He').
    + intros (front & back & -> & Hback).
      exists (entry r). split; [reflexivity|]. apply Hin.
      exists (map entry front), (map entry back). split.
      * now rewrite map_app.
      * intros e He. apply in_map_iff in He. destruct He as (r' & <- & Hr').
        simpl. now apply Hback.
  - intros v Hv.
    assert (H : In (Js.get v "book_review")
                  (map fst (Pages.new_Map (map entry data)))).
    { apply new_Map_keys; [exact Hes|]. rewrite map_map. simpl.
      apply in_map_iff. now exists v. }
    apply in_map_iff in H. destruct H as (e & He & Hin').
    exists (snd e). split; [now apply in_map|].
    destruct (Hkey e Hin') as [Heq _]. rewrite Heq in He. simpl in He.
    exact He.
Qed.

(** The keys of the rows that [get_book_reviews] returns are their texts. *)
Lemma keyed_reviews (rows : list (Db.review_row * Db.book)) :
  Pages.keyed (map review_to_js rows)
  = Some (map (fun v => (Js.get v "book_review", v)) (map review_to_js rows)).
Proof.
  induction rows as [|p rows IH]; [reflexivity|].
  simpl map. simpl Pages.keyed. rewrite IH. reflexivity.
Qed.

(** What the reviews request of the page is answered. *)
Lemma reviews_run (rest : rows_engine) d id :
  0 <= id -> id <= 2147483647 -> reachable d = true ->
  run (interpreted rest) (app (GET_books_reviews (Some id) None None)) d
  = (d, status_json 200
          (Js.Arr (map review_to_js
                     (book_reviews d id (inject_Z 0) (inject_Z 5))))).
Proof.
  intros Hid Hmax Hup.
  simpl app. unfold get_book_reviews, negative.
  replace (id <? 0) with false by (symmetry; apply Z.ltb_ge; lia).
  carried_out Hup. unfold int4.
  replace (-2147483648 <=? id) with true by (symmetry; apply Z.leb_le; lia).
  replace (id <=? 2147483647) with true by (symmetry; apply Z.leb_le; lia).
  reflexivity.
Qed.

End PageFacts.

(** X14.  Outside development mode, with the server reached, the login form
    leaves the database as it is and enters [/home] exactly when [login]
    answers 200; the item it stores under [token] is then the text
    [undefined], since the answer has no [token] field, and the navigation
    bar takes that for a signed-in user.  On any other answer the stored
    item and the route stay, and the form shows the message of the 401
    answer, or ['Login failed'] for the 500 answer, whose body has no
    [message].  In development mode the form signs in whatever is typed
    without a request.  After [handleLogout] nobody is signed in. *)
Theorem login_page_stores_the_text_undefined :
  forall (engine : rows_engine) (d : Db.state) (email password : string)
         (s : Pages.session),
    let answer :=
      snd (run engine (Routes.login (Js.Text email) (Js.Text password)) d) in
    (exists s',
        Pages.handleLogin false (Pages.delivered engine) email password d s
        = Some (d, s') /\
        (status answer = 200 ->
         Pages.token s' = Some "undefined" /\ Pages.route s' = "/home" /\
         Pages.isAuthenticated s' = true) /\
        (status answer <> 200 ->
         Pages.token s' = Pages.token s /\ Pages.route s' = Pages.route s /\
         Pages.error s'
         = Js.Str (if status answer =? 401
                   then "Incorrect username/password! Try again."
                   else "Login failed")) /\
        Pages.isAuthenticated (Pages.handleLogout s') = false) /\
    (forall fetch : Pages.transport,
        exists s',
          Pages.handleLogin true fetch email password d s = Some (d, s') /\
          Pages.token s' = Some "fake-dev-token" /\
          Pages.isAuthenticated s' = true).
Proof.
  intros engine d email password s. cbv zeta. split.
  - rewrite PageFacts.handleLogin_delivered. cbv zeta.
    destruct (PageFacts.login_run engine d (Js.Text email) (Js.Text password))
      as (answer & Hrun & Hanswer).
    rewrite Hrun. simpl snd. eexists. split; [reflexivity|].
    destruct Hanswer as [-> | [-> | ->]]; simpl;
      (split; [|split]); try reflexivity; intros H;
      try discriminate; try (now exfalso; apply H); auto.
  - intros fetch. eexists. split; [reflexivity|]. split; reflexivity.
Qed.

(** X15.  The sign-up form sends nothing when the two passwords differ.
    When they agree and the server is reached, the state is the one [signup]
    leaves: on 201 the form goes to [/] with no error, and the login form
    then signs in with the same e-mail and password, and shows the 401
    message for the same e-mail with any other password; on the 500 answer
    the form stays and shows the [error] text of the answer. *)
Theorem signup_page_then_login_page :
  forall (engine : rows_engine) (d : Db.state)
         (email password confirmPassword : string) (s : Pages.session),
    let created :=
      run engine (signup (Js.Text email) (Js.Text password)) d in
    (password <> confirmPassword ->
     forall fetch : Pages.transport,
       Pages.handleSignUp fetch email password confirmPassword d s
       = Some (d, Pages.setError s (Js.Str "Passwords do not match"))) /\
    (password = confirmPassword ->
     exists s',
       Pages.handleSignUp (Pages.delivered engine) email password
         confirmPassword d s
       = Some (fst created, s') /\
       Pages.token s' = Pages.token s /\
       (status (snd created) = 201 ->
        Pages.route s' = "/" /\ Pages.error s' = Js.Str "" /\
        (exists s'',
            Pages.handleLogin false (Pages.delivered engine) email password
              (fst created) s'
            = Some (fst created, s'') /\
            Pages.route s'' = "/home" /\ Pages.isAuthenticated s'' = true) /\
        (forall other,
            other <> password ->
            exists s'',
              Pages.handleLogin false (Pages.delivered engine) email other
                (fst created) s'
              = Some (fst created, s'') /\
              Pages.token s'' = Pages.token s /\ Pages.route s'' = "/" /\
              Pages.error s''
              = Js.Str "Incorrect username/password! Try again.")) /\
       (status (snd created) <> 201 ->
        fst created = d /\
        s' = Pages.setError s
               (Js.Str "User already exists or database error!"))).
Proof.
  intros engine d email password confirmPassword s. cbv zeta. split.
  - intros Hne fetch. unfold Pages.handleSignUp.
    apply String.eqb_neq in Hne. rewrite Hne. reflexivity.
  - intros <-. rewrite PageFacts.handleSignUp_delivered. cbv zeta.
    rewrite AccountFacts.signup_run.
    destruct (reachable d) eqn:Hup.
    + destruct (insert_login d (Js.Text email) (Js.Text password)) as [d'|] eqn:Ei.
      * apply AccountFacts.insert_login_some in Ei.
        destruct Ei as (n & q & Hn & Hq & _ & Hfree & ->).
        inversion Hn; inversion Hq; subst n q.
        set (d' := with_login d
                     (Db.login d ++ [{| username := email; password := password |}])).
        cbn [fst snd status status_json Z.eqb Pos.eqb].
        eexists. split; [reflexivity|]. split; [reflexivity|]. split.
        2:{ intros H. now exfalso; apply H. }
        intros _. split; [reflexivity|]. split; [reflexivity|].
        assert (Hrow : stored_row d' (Js.Text email)
                       = Some {| username := email; password := password |})
          by now apply AccountFacts.stored_row_appended.
        assert (Hup' : reachable d' = true) by exact Hup.
        split.
        -- rewrite PageFacts.handleLogin_delivered. cbv zeta.
           rewrite (AccountFacts.login_response engine d' _ _ Hup'), Hrow.
           simpl. rewrite String.eqb_refl. simpl.
           eexists. split; [reflexivity|]. split; reflexivity.
        -- intros other Hother.
           rewrite PageFacts.handleLogin_delivered. cbv zeta.
           rewrite (AccountFacts.login_response engine d' _ _ Hup'), Hrow.
           simpl. apply String.eqb_neq in Hother. rewrite Hother. simpl.
           eexists. split; [reflexivity|]. repeat split.
      * simpl. eexists. split; [reflexivity|]. split; [reflexivity|].
        split; [discriminate|]. intros _. split; reflexivity.
    + simpl. eexists. split; [reflexivity|]. split; [reflexivity|].
      split; [discriminate|]. intros _. split; reflexivity.
Qed.

(** X16.  For a [book_id] that is not negative, within 32 bits, with the
    server reached and the statement carried out, the reviews the book page
    keeps are those of
    the answer of [get_book_reviews] with one review per review text: of
    the reviews of the book that share a text, only the one that comes last
    in the answer is kept, so every text of a review of the book is shown
    once, whoever wrote it. *)
Theorem book_page_keeps_one_review_per_text :
  forall (rest : rows_engine) (d : Db.state) (id : Z) (reviews : list Js.value),
    0 <= id -> id <= 2147483647 -> reachable d = true ->
    exists rows shown,
      snd (run (interpreted rest) (get_book_reviews (Some id) None None) d)
      = status_json 200 (Js.Arr rows) /\
      Pages.fetchReviews (Pages.delivered (interpreted rest)) id d reviews
      = (d, shown) /\
      NoDup (map (fun r => Js.get r "book_review") shown) /\
      (forall r,
          In r shown <->
          exists front back,
            rows = (front ++ r :: back)%list /\
            forall r', In r' back ->
                       Js.get r' "book_review" <> Js.get r "book_review") /\
      (forall r, In r shown ->
                 exists p, review_of d id (inject_Z 0) (inject_Z 5) p /\
                           r = review_to_js p) /\
      (forall p, review_of d id (inject_Z 0) (inject_Z 5) p ->
                 exists r, In r shown /\
                           Js.get r "book_review" = Js.Str (review (fst p))).
Proof.
  intros rest d id reviews Hid Hmax Hup.
  pose proof (PageFacts.reviews_run rest d id Hid Hmax Hup) as Hrun.
  set (found := book_reviews d id (inject_Z 0) (inject_Z 5)) in *.
  assert (Hfound : forall p, In p found <->
                             review_of d id (inject_Z 0) (inject_Z 5) p).
  { intros p. unfold found, book_reviews. rewrite RelFacts.order_by_in.
    apply ReportOrderFacts.review_in_range. }
  assert (Htext : Forall (fun v => exists s, Js.get v "book_review" = Js.Str s)
                    (map review_to_js found)).
  { apply Forall_forall. intros v Hv. apply in_map_iff in Hv.
    destruct Hv as (p & <- & _). simpl. eauto. }
  destruct (PageFacts.unique_by_text _ Htext) as (Hnd & Hlast & Hall).
  eexists. eexists. split; [|split; [|split; [exact Hnd|split; [exact Hlast|split]]]].
  - simpl app in Hrun. now rewrite Hrun.
  - unfold Pages.fetchReviews, Pages.delivered. rewrite Hrun. simpl.
    unfold Pages.uniqueReviews. rewrite PageFacts.keyed_reviews. reflexivity.
  - intros r Hr. apply Hlast in Hr. destruct Hr as (front & back & Heq & _).
    assert (H : In r (map review_to_js found)).
    { rewrite Heq. apply in_app_iff. right. now left. }
    apply in_map_iff in H. destruct H as (p & <- & Hp).
    exists p. split; [now apply Hfound | reflexivity].
  - intros p Hp. apply Hfound in Hp.
    destruct (Hall (review_to_js p) (in_map _ _ _ Hp)) as (r & Hr & Heq).
    exists r. split; [exact Hr|]. rewrite Heq. reflexivity.
Qed.

Lemma book_page_keeps_one_review_per_text_witness :
  exists shown,
    Pages.fetchReviews (Pages.delivered Showcase.engine) 1 Showcase.catalogue []
    = (Showcase.catalogue, shown) /\
    NoDup (map (fun r => Js.get r "book_review") shown).
Proof.
  destruct (book_page_keeps_one_review_per_text Sample.no_rows
              Showcase.catalogue 1 [] ltac:(lia) ltac:(lia) eq_refl)
    as (rows & shown & _ & Hpage & Hnd & _).
  exists shown. split; [exact Hpage | exact Hnd].
Defined.

(* ================================================================== *)
(** ** Texts and lists as the pages cut them *)

Module CutFacts.

Lemma substring_length (n : nat) :
  forall s, String.length (substring 0 n s) = Nat.min n (String.length s).
Proof.
  induction n as [|n IH]; intros [|c s]; simpl; try reflexivity.
  now rewrite IH.
Qed.

Lemma append_length (a b : string) :
  String.length (a ++ b) = (String.length a + String.length b)%nat.
Proof.
  induction a as [|c a IH]; simpl; [reflexivity | now rewrite IH].
Qed.

Lemma substring_append (n : nat) :
  forall a b, (n <= String.length a)%nat ->
              substring 0 n (a ++ b) = substring 0 n a.
Proof.
  induction n as [|n IH]; intros [|c a] b H; simpl in *; try lia.
  - now destruct b.
  - reflexivity.
  - rewrite IH by lia. reflexivity.
Qed.

Lemma substring_all (n : nat) :
  forall s, (String.length s <= n)%nat -> substring 0 n s = s.
Proof.
  induction n as [|n IH]; intros [|c s] H; simpl in *; try reflexivity; try lia.
  rewrite IH by lia. reflexivity.
Qed.

Lemma substring_twice (n : nat) (s : string) :
  substring 0 n (substring 0 n s) = substring 0 n s.
Proof.
  apply substring_all. rewrite substring_length. lia.
Qed.

Lemma slice_page_shift {A : Type} (size page : nat) (rows : list A) :
  Pages.slice_page size (S page) rows
  = Pages.slice_page size page (skipn size rows).
Proof.
  unfold Pages.slice_page. rewrite skipn_skipn. do 2 f_equal. simpl. lia.
Qed.

(** Enough pages, one after the other, give the list back. *)
Lemma pages_cover {A : Type} (size : nat) :
  forall (pages : nat) (rows : list A),
    (List.length rows <= pages * size)%nat ->
    List.concat (map (fun page => Pages.slice_page size page rows) (seq 0 pages))
    = rows.
Proof.
  induction pages as [|pages IH]; intros rows H.
  - destruct rows; [reflexivity | simpl in H; lia].
  - cbn [seq map List.concat]. rewrite <- seq_shift, map_map.
    rewrite (map_ext _ (fun page => Pages.slice_page size page (skipn size rows)))
      by (intros page; apply slice_page_shift).
    rewrite IH by (rewrite length_skipn; simpl in H; lia).
    unfold Pages.slice_page. simpl skipn. apply firstn_skipn.
Qed.

Lemma page_empty {A : Type} (size page : nat) (rows : list A) :
  (0 < size)%nat ->
  Pages.slice_page size page rows = [] <->
  (List.length rows <= page * size)%nat.
Proof.
  intros Hsize. unfold Pages.slice_page.
  pose proof (length_skipn (page * size) rows) as Hlen.
  destruct (skipn (page * size) rows) as [|x rest] eqn:E.
  - simpl in Hlen. rewrite firstn_nil. split; [lia | reflexivity].
  - simpl in Hlen. destruct size; [lia|]. simpl. split; [discriminate | lia].
Qed.

Lemma page_count (n size : nat) :
  (0 < size)%nat ->
  (n <= (n + size - 1) / size * size)%nat /\
  forall page, ((n + size - 1) / size <= page <-> n <= page * size)%nat.
Proof.
  intros Hsize.
  pose proof (Nat.div_mod_eq (n + size - 1) size) as Hdiv.
  pose proof (Nat.mod_upper_bound (n + size - 1) size ltac:(lia)) as Hmod.
  assert (Hcover : (n <= (n + size - 1) / size * size)%nat) by nia.
  split; [exact Hcover|]. intros page. split.
  - intros H. nia.
  - intros H. apply Nat.lt_succ_r. apply Nat.Div0.div_lt_upper_bound. nia.
Qed.

(** The two ends of the slider, as the texts the guard compares. *)
Lemma slider_years :
  forallb
    (fun lo =>
       forallb
         (fun hi =>
            Bool.eqb (String.ltb (Pages.interpolate_number hi)
                        (Pages.interpolate_number lo))
              (hi <? lo))
         (map Z.of_nat (seq 1900 125)))
    (map Z.of_nat (seq 1900 125))
  = true.
Proof. vm_compute. reflexivity. Qed.

Lemma slider_year (y : Z) :
  1900 <= y <= 2024 -> In y (map Z.of_nat (seq 1900 125)).
Proof.
  intros H. apply in_map_iff. exists (Z.to_nat y). split; [lia|].
  apply in_seq. lia.
Qed.

End CutFacts.

(** X17.  For a [maxLength] that is not negative, [truncateText] gives a
    text of at most [maxLength + 3] characters, which can be up to two
    characters longer than the text it was given; its first [maxLength]
    characters are those of the text; and truncating what it gave once more
    changes nothing. *)
Theorem truncateText_is_idempotent :
  forall (text : string) (maxLength : Z),
    0 <= maxLength ->
    let shown := AdaptationsPage.truncateText text maxLength in
    Z.of_nat (String.length shown) <= maxLength + 3 /\
    (String.length shown <= String.length text + 2)%nat /\
    (Z.of_nat (String.length text) <= maxLength -> shown = text) /\
    substring 0 (Z.to_nat maxLength) shown
    = substring 0 (Z.to_nat maxLength) text /\
    AdaptationsPage.truncateText shown maxLength = shown.
Proof.
  intros text maxLength Hmax. cbv zeta.
  remember (AdaptationsPage.truncateText text maxLength) as shown eqn:Hshown.
  unfold AdaptationsPage.truncateText in Hshown.
  destruct (maxLength <? Z.of_nat (String.length text)) eqn:E.
  - apply Z.ltb_lt in E. unfold AdaptationsPage.slice_to in Hshown.
    replace (maxLength <? 0) with false in Hshown
      by (symmetry; apply Z.ltb_ge; lia).
    cbv zeta in Hshown. rewrite Z.min_l in Hshown by lia.
    set (n := Z.to_nat maxLength) in *.
    assert (Hn : (n < String.length text)%nat) by lia.
    assert (Hpre : String.length (substring 0 n text) = n)
      by (rewrite CutFacts.substring_length; lia).
    assert (Hlen : String.length shown = (n + 3)%nat)
      by (rewrite Hshown, CutFacts.append_length, Hpre; reflexivity).
    assert (Hcut : substring 0 n shown = substring 0 n text).
    { rewrite Hshown, CutFacts.substring_append by lia.
      apply CutFacts.substring_twice. }
    split; [rewrite Hlen; lia|]. split; [rewrite Hlen; lia|].
    split; [lia|]. split; [exact Hcut|].
    unfold AdaptationsPage.truncateText. rewrite Hlen.
    replace (maxLength <? Z.of_nat (n + 3)) with true
      by (symmetry; apply Z.ltb_lt; lia).
    unfold AdaptationsPage.slice_to.
    replace (maxLength <? 0) with false by (symmetry; apply Z.ltb_ge; lia).
    cbv zeta. rewrite Hlen, Z.min_l by lia. fold n.
    rewrite Hcut. now rewrite Hshown.
  - apply Z.ltb_ge in E. subst shown. split; [lia|]. split; [lia|].
    split; [reflexivity|]. split; [reflexivity|].
    unfold AdaptationsPage.truncateText.
    replace (maxLength <? Z.of_nat (String.length text)) with false
      by (symmetry; apply Z.ltb_ge; lia).
    reflexivity.
Qed.

Lemma truncateText_witness :
  AdaptationsPage.truncateText
    (AdaptationsPage.truncateText "A desert planet." 8) 8
  = "A desert...".
Proof.
  rewrite (proj2 (proj2 (proj2 (proj2
             (truncateText_is_idempotent "A desert planet." 8 ltac:(lia)))))).
  reflexivity.
Defined.

(** X18.  The pages of the two paginated lists of the dashboard, from page 0
    to the last page of a list of that length, one after the other, are the
    list itself: no row is shown twice or left out.  A page has at most 10
    outliers, or 25 rows of the contrast table, and a page is empty exactly
    from the first page after the last on. *)
Theorem dashboard_pages_partition_the_rows :
  forall (outliers ContrastingData : list Js.value),
    let last (count size : nat) := ((count + size - 1) / size)%nat in
    List.concat (map (Pages.paginatedOutliers outliers)
              (seq 0 (last (List.length outliers) 10%nat)))
    = outliers /\
    List.concat (map (Pages.paginatedData ContrastingData)
              (seq 0 (last (List.length ContrastingData) 25%nat)))
    = ContrastingData /\
    forall page : nat,
      (List.length (Pages.paginatedOutliers outliers page) <= 10)%nat /\
      (List.length (Pages.paginatedData ContrastingData page) <= 25)%nat /\
      (Pages.paginatedOutliers outliers page = [] <->
       (last (List.length outliers) 10 <= page)%nat) /\
      (Pages.paginatedData ContrastingData page = [] <->
       (last (List.length ContrastingData) 25 <= page)%nat).
Proof.
  intros outliers ContrastingData. cbv zeta.
  destruct (CutFacts.page_count (List.length outliers) 10 ltac:(lia))
    as [Hcover10 Hlast10].
  destruct (CutFacts.page_count (List.length ContrastingData) 25 ltac:(lia))
    as [Hcover25 Hlast25].
  split; [|split].
  - apply (CutFacts.pages_cover 10). exact Hcover10.
  - apply (CutFacts.pages_cover 25). exact Hcover25.
  - intros page. unfold Pages.paginatedOutliers, Pages.paginatedData,
      Pages.rowsPerPageOutliers, Pages.rowsPerPage.
    split; [apply firstn_le_length|]. split; [apply firstn_le_length|]. split.
    + rewrite CutFacts.page_empty by lia. symmetry. apply Hlast10.
    + rewrite CutFacts.page_empty by lia. symmetry. apply Hlast25.
Qed.

(** X19.  For the two ends of the year slider of the book search page, which
    lie between 1900 and 2024, [search_books] answers the request that
    [search] sends with 404 ['Invalid year range'] exactly when the upper end
    is below the lower end; otherwise it sends its statement with the texts
    of the form. *)
Theorem book_search_page_years_pass_the_guard :
  forall (title author genre : string) (yearLow yearHigh : Z),
    1900 <= yearLow <= 2024 -> 1900 <= yearHigh <= 2024 ->
    let sent := app (Pages.search_request title author genre yearLow yearHigh) in
    (sent = Respond (status_json 404 (Js.Obj [("error", Js.Str "Invalid year range")]))
     <-> yearHigh < yearLow) /\
    (yearLow <= yearHigh ->
     sent = Query (Select (Sel_search_books title author genre
                             (Pages.interpolate_number yearLow)
                             (Pages.interpolate_number yearHigh)))
              rows_or_500).
Proof.
  intros title author genre yearLow yearHigh Hlo Hhi. cbv zeta.
  pose proof CutFacts.slider_years as Hall.
  rewrite forallb_forall in Hall.
  specialize (Hall yearLow (CutFacts.slider_year yearLow Hlo)).
  rewrite forallb_forall in Hall.
  specialize (Hall yearHigh (CutFacts.slider_year yearHigh Hhi)).
  apply Bool.eqb_prop in Hall.
  unfold Pages.search_request. simpl app. unfold search_books. simpl Js.lt.
  rewrite Hall. destruct (yearHigh <? yearLow) eqn:E.
  - apply Z.ltb_lt in E. split; [split; [intros _; exact E | reflexivity]|].
    intros H. lia.
  - apply Z.ltb_ge in E. split; [split; [discriminate | lia]|].
    intros _. reflexivity.
Qed.

Lemma book_search_page_years_witness :
  app (Pages.search_request "Dune" "" "" 1900 2024)
  = Query (Select (Sel_search_books "Dune" "" "" "1900" "2024")) rows_or_500.
Proof.
  exact (proj2 (book_search_page_years_pass_the_guard "Dune" "" "" 1900 2024
                  ltac:(lia) ltac:(lia)) ltac:(lia)).
Defined.

(* ================================================================== *)
(** ** The adaptations page against the two adaptation routes *)

Module AdaptationPageFacts.

Lemma truthy_num (z : Z) : Pages.truthy (num z) = negb (z =? 0).
Proof.
  unfold num, Pages.truthy. f_equal.
  destruct (z =? 0) eqn:E.
  - apply Z.eqb_eq in E. subst z. reflexivity.
  - apply Z.eqb_neq in E. apply not_true_is_false. intros H.
    apply Qeq_bool_iff in H. unfold Qeq, inject_Z in H. simpl in H. lia.
Qed.

Lemma whole_num (z : Z) : AdaptationsPage.whole (num z) = Some z.
Proof.
  unfold AdaptationsPage.whole, num, inject_Z. cbn [Qnum Qden].
  rewrite Z.div_1_r.
  replace (Qeq_bool (z # 1) (z # 1)) with true; [reflexivity|].
  symmetry. apply Qeq_bool_iff. reflexivity.
Qed.

(** The answers of the two routes, as [fetch] hands them to the page. *)
Lemma delivered_books (engine : rows_engine) d t s :
  t <> "" -> reachable d = true -> read_quoted t = Literal s ->
  Pages.delivered engine (GET_adaptations_books t) d
  = (d, Pages.Resolved
          (json (Js.Arr (map movie_side_to_js (book_adaptations d s))))).
Proof.
  intros Ht Hup Hs. unfold Pages.delivered. cbn [app].
  replace (String.eqb t "") with false by (symmetry; now apply String.eqb_neq).
  now rewrite (book_lookup engine d t s Ht Hup Hs).
Qed.

Lemma delivered_movies (engine : rows_engine) d id :
  -1 <= id -> reachable d = true ->
  Pages.delivered engine (GET_adaptations_movies id) d
  = (d, Pages.Resolved
          (json (Js.Arr (map book_side_to_js (movie_adaptations d id))))).
Proof.
  intros Hid Hup. unfold Pages.delivered. cbn [app].
  now rewrite (movie_lookup engine d id Hid Hup).
Qed.

(** The second half of the page's look-up, for a book with a movie. *)
Lemma movie_adaptation_shown (engine : rows_engine) omdb d id p :
  -1 <= id -> reachable d = true ->
  (exists m b, adapted d m b /\ book_id b = id) ->
  exists p',
    AdaptationsPage.fetchMovieAdaptation (Pages.delivered engine) omdb id d p
    = Some (d, p') /\
    AdaptationsPage.noAdaptations p' = AdaptationsPage.noAdaptations p /\
    canonical_movie_row d id (AdaptationsPage.adaptationData p').
Proof.
  intros Hid Hup Hex. unfold AdaptationsPage.fetchMovieAdaptation.
  rewrite (delivered_movies engine d id Hid Hup).
  destruct (movie_adaptations_canonical d id) as (Hlen & Hrow & Hsome).
  specialize (Hsome Hex).
  destruct (movie_adaptations d id) as [|y [|y' rest]];
    [congruence | | simpl in Hlen; lia].
  specialize (Hrow y (or_introl eq_refl)).
  cbn [map json status_json Pages.ok status body negb andb Z.leb Z.compare
       Pos.compare Pos.compare_cont Pages.length_of List.length Pages.first].
  rewrite truthy_num. cbn [Z.of_nat Pos.of_succ_nat Z.eqb negb].
  cbn [book_side_to_js Pages.prop Js.lookup String.eqb Ascii.eqb Bool.eqb].
  destruct (Pages.truthy (Js.Str (tconst (bs_movie y)))).
  - destruct (omdb (Js.Str (tconst (bs_movie y)))) as [message|omdbResponse].
    + eexists. split; [reflexivity|]. split; [reflexivity | exact Hrow].
    + destruct (negb (Pages.ok omdbResponse));
        (eexists; split; [reflexivity|]; split; [reflexivity | exact Hrow]).
  - eexists. split; [reflexivity|]. split; [reflexivity | exact Hrow].
Qed.

End AdaptationPageFacts.

(** X20.  The adaptations page entered with the [tconst] of a movie that
    is made of letters, digits, [-] and [_] (the page writes it into the URL
    as it is), with the server reached, the statements carried out and no
    negative [book_id] in [books_data]: the page first asks for the book of the
    movie and then for the movie of that book, so what it shows is the
    longest movie recorded for a book of the movie it was entered with,
    which need not be that movie.  It reports that no adaptation exists when
    [books_movies_map] has no book for the movie, and also when the book it
    finds has [book_id] 0; it shows an adaptation whenever the movie has a
    book and none of its books has [book_id] 0. *)
Theorem adaptations_page_of_a_movie :
  forall (engine : rows_engine) (omdb : Js.value -> Pages.fetched)
         (d : Db.state) (t : string) (p : AdaptationsPage.page),
    t <> "" -> Pages.word t = true -> reachable d = true ->
    (forall b, In b (books_data d) -> 0 <= book_id b) ->
    exists p',
      AdaptationsPage.fetchAdaptationDetails (Pages.delivered engine) omdb
        None (Some t) d p
      = Some (d, p') /\
      (AdaptationsPage.noAdaptations p' = true ->
       AdaptationsPage.adaptationData p' = AdaptationsPage.adaptationData p /\
       AdaptationsPage.error p' = Js.Str "") /\
      (AdaptationsPage.noAdaptations p' = false ->
       exists m b,
         adapted d m b /\ tconst m = t /\ 0 < book_id b /\
         canonical_movie_row d (book_id b) (AdaptationsPage.adaptationData p')) /\
      ((forall m b, adapted d m b -> tconst m = t -> book_id b = 0) ->
       AdaptationsPage.noAdaptations p' = true) /\
      ((exists m b, adapted d m b /\ tconst m = t) ->
       (forall m b, adapted d m b -> tconst m = t -> book_id b <> 0) ->
       AdaptationsPage.noAdaptations p' = false).
Proof.
  intros engine omdb d t p Ht Hword Hup Hids.
  unfold AdaptationsPage.fetchAdaptationDetails.
  assert (Htruthy : Js.truthy (Some t) = true)
    by (destruct t; [congruence | reflexivity]).
  rewrite Htruthy. cbn [Js.nullish]. unfold Pages.written. rewrite Hword.
  rewrite (AdaptationPageFacts.delivered_books engine d t t Ht Hup
             (ReadingFacts.word_read_as_written t Hword)).
  destruct (book_adaptations_canonical d t) as (Hlen & Hrow & Hsome).
  destruct (book_adaptations d t) as [|x [|x' rest]];
    [ | | simpl in Hlen; lia].
  - cbn. eexists. split; [reflexivity|]. split; [intros _; split; reflexivity|].
    split; [discriminate|]. split; [reflexivity|].
    intros Hex _. now specialize (Hsome Hex).
  - destruct (Hrow x (or_introl eq_refl))
      as (m & b & Hmb & Htm & _ & Hid & _).
    cbn [map json status_json Pages.ok status body negb andb Z.leb Z.compare
         Pos.compare Pos.compare_cont Pages.length_of List.length Pages.first].
    rewrite AdaptationPageFacts.truthy_num.
    cbn [Z.of_nat Pos.of_succ_nat Z.eqb negb].
    assert (Hprop : Pages.prop (movie_side_to_js x) "book_id"
                    = Some (num (book_id b))).
    { unfold Pages.prop, movie_side_to_js. unfold Js.get in Hid.
      unfold movie_side_to_js in Hid. now rewrite Hid. }
    rewrite Hprop, AdaptationPageFacts.truthy_num.
    assert (Hb : 0 <= book_id b) by (apply Hids; apply Hmb).
    destruct (book_id b =? 0) eqn:Ezero; cbn [negb].
    + apply Z.eqb_eq in Ezero.
      eexists. split; [reflexivity|]. split; [intros _; split; reflexivity|].
      split; [discriminate|]. split; [reflexivity|].
      intros _ Hnonzero. exfalso. exact (Hnonzero m b Hmb Htm Ezero).
    + apply Z.eqb_neq in Ezero. rewrite AdaptationPageFacts.whole_num.
      destruct (AdaptationPageFacts.movie_adaptation_shown engine omdb d
                  (book_id b)
                  (AdaptationsPage.setNoAdaptations
                     (AdaptationsPage.setError p (Js.Str "")) false)
                  ltac:(lia) Hup)
        as (p' & Hpage & Hnone & Hshown).
      { exists m, b. split; [exact Hmb | reflexivity]. }
      exists p'. split; [exact Hpage|]. simpl in Hnone.
      split; [rewrite Hnone; discriminate|].
      split.
      { intros _. exists m, b. split; [exact Hmb|]. split; [exact Htm|].
        split; [lia | exact Hshown]. }
      split; [|intros _ _; exact Hnone].
      intros Hzero. exfalso. apply Ezero. exact (Hzero m b Hmb Htm).
Qed.

Lemma adaptations_page_of_a_movie_witness :
  exists p',
    AdaptationsPage.fetchAdaptationDetails (Pages.delivered Sample.no_rows)
      (fun _ => Pages.Rejected "offline") None (Some "tt0087182")
      Sample.library AdaptationsPage.mounted
    = Some (Sample.library, p') /\
    AdaptationsPage.noAdaptations p' = false.
Proof.
  destruct (adaptations_page_of_a_movie Sample.no_rows
              (fun _ => Pages.Rejected "offline") Sample.library "tt0087182"
              AdaptationsPage.mounted)
    as (p' & Hpage & _ & _ & _ & Hshown).
  - discriminate.
  - reflexivity.
  - reflexivity.
  - intros b [<- | [<- | []]]; simpl; lia.
  - exists p'. split; [exact Hpage|]. apply Hshown.
    + exists (Sample.a_movie "tt0087182" "Dune (1984)" 137),
        (Sample.a_book 1 "Dune").
      split; [|reflexivity]. split; [simpl; auto|].
      split; [simpl; auto|].
      exists {| map_book_id := 1; map_tconst := "tt0087182" |}.
      split; [simpl; auto | split; reflexivity].
    + intros m b (_ & Hb & _) _. simpl in Hb.
      destruct Hb as [<- | [<- | []]]; discriminate.
Defined.

(** Entered with Dune (1984), the page shows Dune (2021), the longer of the
    two movies of the book. *)
Example page_of_the_shorter_movie :
  option_map (fun r => Js.get (AdaptationsPage.adaptationData (snd r)) "movie_title")
    (AdaptationsPage.fetchAdaptationDetails (Pages.delivered Sample.no_rows)
       (fun _ => Pages.Rejected "offline") None (Some "tt0087182")
       Sample.library AdaptationsPage.mounted)
  = Some (Js.Str "Dune (2021)").
Proof. reflexivity. Qed.

(* ================================================================== *)
(** ** The details pages and the recommendation *)

Module DetailPageFacts.

Lemma details_of_rows d rows details :
  Pages.details_of (d, Pages.Resolved (json (Js.Arr rows))) details
  = (d, match rows with
        | [] => Js.Undefined
        | row :: _ => row
        end).
Proof. destruct rows; reflexivity. Qed.

Lemma delivered_book_details (engine : rows_engine) d id :
  0 <= id -> id <= 2147483647 -> reachable d = true ->
  Pages.delivered engine (GET_book_details id) d
  = (d, Pages.Resolved (json (Js.Arr (select_book_details d id)))).
Proof.
  intros Hid Hmax Hup. unfold Pages.delivered. simpl app. unfold get_book_details.
  replace (id <? 0) with false by (symmetry; apply Z.ltb_ge; lia).
  carried_out Hup. unfold int4.
  replace (-2147483648 <=? id) with true by (symmetry; apply Z.leb_le; lia).
  replace (id <=? 2147483647) with true by (symmetry; apply Z.leb_le; lia).
  reflexivity.
Qed.

(** The request of the movie page reaches [moviesDetailsWithId] with the
    [tconst] of the page, unless that is empty or a dot segment. *)
Lemma delivered_movie_details (rest : rows_engine) d t s :
  t <> "" -> t <> "." -> t <> ".." ->
  reachable d = true -> read_quoted t = Literal s ->
  Pages.delivered (interpreted rest) (Pages.encoded GET_movies_details_id t) d
  = (d, Pages.Resolved
          (json (Js.Arr (map movie_detail_to_js (movie_detail_groups d s))))).
Proof.
  intros Ht Hdot Hdots Hup Hs. unfold Pages.delivered, Pages.encoded.
  replace (String.eqb t ".") with false by (symmetry; now apply String.eqb_neq).
  replace (String.eqb t "..") with false by (symmetry; now apply String.eqb_neq).
  cbn [app].
  replace (String.eqb t "") with false by (symmetry; now apply String.eqb_neq).
  now rewrite (movie_details_lookup rest d t s Ht Hup Hs).
Qed.

(** The book details statement finds no row exactly when no row of
    [books_data] with the id has a row in [books_authors]. *)
Lemma no_book_details d id :
  book_details_groups d id = [] <->
  forall b a, In b (books_data d) -> In a (books_authors d) ->
              book_id b = id -> author_book_id a <> id.
Proof.
  unfold book_details_groups. rewrite MovieDetailFacts.group_by_nil. split.
  - intros Hnil b a Hb Ha Hid Haid.
    assert (H : In (b, a)
                  (filter (fun p => book_id (fst p) =? id)
                     (Rel.join (fun bd ba => book_id bd =? author_book_id ba)
                        (books_data d) (books_authors d)))).
    { apply filter_In. split; [|simpl; now apply Z.eqb_eq].
      apply RelFacts.in_join. repeat split; try assumption.
      apply Z.eqb_eq. congruence. }
    rewrite Hnil in H. destruct H.
  - intros Hnone. apply AdaptationFacts.no_member_nil. intros [b a] H.
    apply filter_In in H. destruct H as [H Hid]. simpl in Hid.
    apply RelFacts.in_join in H. destruct H as (Hb & Ha & Hon).
    apply Z.eqb_eq in Hid. apply Z.eqb_eq in Hon.
    apply (Hnone b a Hb Ha Hid). congruence.
Qed.

(** The movie details statement finds no row exactly when no row of
    [movies_metadata] with the [tconst] has a positive runtime. *)
Lemma no_movie_details d t :
  movie_detail_groups d t = [] <->
  forall m, In m (movies_metadata d) -> tconst m = t -> runtimeminutes m <= 0.
Proof.
  unfold movie_detail_groups. rewrite MovieDetailFacts.group_by_nil. split.
  - intros Hnil m Hm Htc.
    destruct (Z.le_gt_cases (runtimeminutes m) 0) as [|Hpos]; [assumption|].
    destruct (MovieDetailFacts.movie_has_detail_row d t m Hm Htc) as [x Hx];
      [lia|].
    rewrite Hnil in Hx. destruct Hx.
  - intros Hnone. apply AdaptationFacts.no_member_nil. intros x Hx.
    destruct (MovieDetailFacts.detail_row_movie d t _ Hx) as (Hm & Htc & Hr).
    specialize (Hnone _ Hm Htc). lia.
Qed.

Lemma movie_detail_group d t kg :
  In kg (movie_detail_groups d t) ->
  exists m,
    In m (movies_metadata d) /\ tconst m = t /\ 0 < runtimeminutes m /\
    Js.get (movie_detail_to_js kg) "primarytitle" = Js.Str (primarytitle m).
Proof.
  destruct kg as [k g]. intros Hg.
  unfold movie_detail_groups in Hg. apply RelFacts.in_group_by in Hg.
  destruct Hg as [_ Hk]. apply in_map_iff in Hk.
  destruct Hk as (x0 & <- & Hx0).
  destruct (MovieDetailFacts.detail_row_movie d t _ Hx0) as (Hm & Htc & Hr).
  exists (fst (fst x0)). repeat split; assumption.
Qed.

(** A row of the look-up of a book is a row of its FROM clause. *)
Lemma movie_adaptation_from d id x :
  In x (movie_adaptations d id) -> In x (book_side_from d id).
Proof.
  unfold movie_adaptations. intros Hx.
  apply RelFacts.limit_one_head in Hx. destruct Hx as [rest Hx].
  assert (Hin : In x (Rel.order_by
                        (fun x y => runtimeminutes (bs_movie y)
                                    <=? runtimeminutes (bs_movie x))
                        (filter (fun x => book_id (bs_book x) =? id)
                           (book_side_from d id))))
    by (rewrite Hx; now left).
  apply RelFacts.order_by_in in Hin. apply filter_In in Hin. tauto.
Qed.

End DetailPageFacts.

(** X21.  For the row of an adaptation that the page shows, the book card
    carries the Recommended chip, and the movie card does not, exactly when
    twice the mean of the ratings of the book's reviews (0 for a book
    without a review) is above the rating of the movie in [movies_ratings]
    (0 for a movie without one); on a tie the movie card carries it. *)
Theorem recommended_card_doubles_the_book_rating :
  forall (d : Db.state) (id : Z) (x : book_side),
    In x (movie_adaptations d id) ->
    let book :=
      match Rel.avg (ratings_of d id) with
      | Some a => (a * 2)%Q
      | None => 0%Q
      end in
    let movie :=
      match bs_rating x with
      | Some r => averagerating r
      | None => 0%Q
      end in
    match bs_rating x with
    | Some r => In r (movies_ratings d) /\ movie_id r = tconst (bs_movie x)
    | None => forall r, In r (movies_ratings d) ->
                        movie_id r <> tconst (bs_movie x)
    end /\
    exists verdict,
      AdaptationsPage.isBookRecommended (book_side_to_js x) = Some verdict /\
      (verdict = true <-> (movie < book)%Q).
Proof.
  intros d id x Hx. cbv zeta. split.
  - apply DetailPageFacts.movie_adaptation_from in Hx.
    unfold book_side_from in Hx. destruct x as [inner [r|]]; simpl.
    + apply RelFacts.in_left_join_some in Hx.
      destruct Hx as (_ & Hr & Hon). apply String.eqb_eq in Hon.
      split; [exact Hr | now symmetry].
    + apply RelFacts.in_left_join_none in Hx. destruct Hx as [_ Hnone].
      intros r Hr Heq.
      assert (H : In r (filter
                          (fun mr => String.eqb (tconst (snd (fst inner)))
                                       (movie_id mr))
                          (movies_ratings d))).
      { apply filter_In. split; [exact Hr|]. apply String.eqb_eq.
        now symmetry. }
      rewrite Hnone in H. destruct H.
  - destruct (movie_adaptations_canonical d id) as (_ & Hrow & _).
    destruct (Hrow x Hx) as (m & b & _ & _ & _ & _ & _ & _ & Havg).
    unfold AdaptationsPage.isBookRecommended,
      AdaptationsPage.bookRatingNormalized, AdaptationsPage.movieRating,
      AdaptationsPage.field_of.
    assert (Hbook : Pages.prop (book_side_to_js x) "book_average_rating"
                    = Some (nullable (Rel.avg (ratings_of d id)))).
    { unfold Js.get in Havg. unfold Pages.prop.
      unfold book_side_to_js in *. now rewrite Havg. }
    assert (Hmovie : Pages.prop (book_side_to_js x) "avg_movie_rating"
                     = Some (avg_movie_rating (bs_rating x)))
      by reflexivity.
    rewrite Hbook, Hmovie.
    assert (Hverdict : forall book movie : Q,
               negb (Qle_bool book movie) = true <-> (movie < book)%Q).
    { intros book movie. rewrite negb_true_iff. split.
      - intros H. apply Qnot_le_lt. intros Hle.
        apply Qle_bool_iff in Hle. congruence.
      - intros H. apply not_true_is_false. intros Hle.
        apply Qle_bool_iff in Hle. now apply (Qlt_not_le _ _ H). }
    assert (Hrated : exists movie : Q,
               match avg_movie_rating (bs_rating x) with
               | Js.Num q => Some q
               | Js.Str _ => None
               | Js.Arr _ => None
               | _ => Some 0%Q
               end = Some movie /\
               movie = match bs_rating x with
                       | Some r => averagerating r
                       | None => 0%Q
                       end).
    { destruct (bs_rating x) as [r|]; simpl; eauto. }
    destruct Hrated as (movie & -> & <-).
    destruct (Rel.avg (ratings_of d id)) as [a|]; simpl.
    + destruct (Qeq_bool a 0) eqn:Ezero; simpl.
      * eexists. split; [reflexivity|]. rewrite Hverdict.
        apply Qeq_bool_iff in Ezero. rewrite Ezero. reflexivity.
      * eexists. split; [reflexivity|]. apply Hverdict.
    + eexists. split; [reflexivity|]. apply Hverdict.
Qed.

Lemma recommended_card_witness :
  exists x,
    In x (movie_adaptations Sample.library 1) /\
    AdaptationsPage.isBookRecommended (book_side_to_js x) = Some true.
Proof.
  assert (Hx : In (hd (((Sample.a_book 1 "Dune",
                         {| map_book_id := 1; map_tconst := "tt1160419" |}),
                        Sample.a_movie "tt1160419" "Dune (2021)" 155,
                        None), None)
                     (movie_adaptations Sample.library 1))
                 (movie_adaptations Sample.library 1))
    by (vm_compute; now left).
  eexists. split; [exact Hx|].
  destruct (recommended_card_doubles_the_book_rating Sample.library 1 _ Hx)
    as (_ & verdict & Hverdict & Hiff).
  rewrite Hverdict. f_equal. apply Hiff. vm_compute. reflexivity.
Defined.

(** X22.  The book page, with the server reached: for a negative [book_id]
    the answer is 404 and the details stay as they were.  Otherwise, for a
    [book_id] within 32 bits and with the statement carried out, the page
    takes the first row of the answer;
    it shows ['No details available for this book.'] exactly when no row of
    [books_data] with that id has a row in [books_authors], so also for a
    book that exists without an author; and the details it shows carry the
    title of a row of [books_data] with that id. *)
Theorem book_page_needs_an_author_row :
  forall (engine : rows_engine) (d : Db.state) (id : Z) (bookDetails : Js.value),
    (id < 0 ->
     Pages.fetchBookDetails (Pages.delivered engine) id d bookDetails
     = (d, bookDetails)) /\
    (0 <= id -> id <= 2147483647 -> reachable d = true ->
     exists shown,
       Pages.fetchBookDetails (Pages.delivered engine) id d bookDetails
       = (d, shown) /\
       (Pages.no_details_available shown = true <->
        forall b a, In b (books_data d) -> In a (books_authors d) ->
                    book_id b = id -> author_book_id a <> id) /\
       (Pages.no_details_available shown = false ->
        exists b, In b (books_data d) /\ book_id b = id /\
                  Js.get shown "book_title" = Js.Str (title b))).
Proof.
  intros engine d id bookDetails. unfold Pages.fetchBookDetails. split.
  - intros Hid. unfold Pages.delivered. simpl app. unfold get_book_details.
    replace (id <? 0) with true by (symmetry; apply Z.ltb_lt; lia).
    reflexivity.
  - intros Hid Hmax Hup.
    rewrite (DetailPageFacts.delivered_book_details engine d id Hid Hmax Hup).
    rewrite DetailPageFacts.details_of_rows.
    pose proof (DetailPageFacts.no_book_details d id) as Hnone.
    unfold select_book_details.
    destruct (book_details_groups d id) as [|g rest] eqn:E.
    + eexists. split; [reflexivity|]. split.
      * split; [intros _; now apply Hnone | reflexivity].
      * discriminate.
    + eexists. split; [reflexivity|]. split.
      * split; [discriminate|]. intros H. apply Hnone in H. discriminate.
      * intros _. exists (fst g).
        destruct (details_group_book d id g) as [Hb Hbid];
          [rewrite E; now left|].
        split; [exact Hb|]. split; [exact Hbid | reflexivity].
Qed.

Lemma book_page_witness :
  exists shown,
    Pages.fetchBookDetails (Pages.delivered Sample.no_rows) 2 Sample.library
      Js.Null
    = (Sample.library, shown) /\
    Pages.no_details_available shown = true.
Proof.
  destruct (proj2 (book_page_needs_an_author_row Sample.no_rows
                     Sample.library 2 Js.Null) ltac:(lia) ltac:(lia) eq_refl)
    as (shown & Hpage & Hnone & _).
  exists shown. split; [exact Hpage|]. apply Hnone.
  intros b a _ [<- | []] _. discriminate.
Defined.

(** X23.  The movie page entered with a [tconst] that is not empty, [.] or
    [..], and that the server reads as the literal it was written as,
    denoting [s]; with the server reached and the statement carried out, the
    page takes the first row of the answer of [moviesDetailsWithId]: it
    shows ['No details available for this movie.'] exactly when no row of
    [movies_metadata] with the [tconst] [s] has a runtime above 0, so also
    for a movie that is recorded with runtime 0; and the details it shows
    are those of a row of [movies_metadata] with that [tconst]. *)
Theorem movie_page_needs_a_positive_runtime :
  forall (rest : rows_engine) (d : Db.state) (t s : string)
         (movieDetails : Js.value),
    t <> "" -> t <> "." -> t <> ".." ->
    reachable d = true -> read_quoted t = Literal s ->
    exists shown,
      Pages.fetchMovieDetails (Pages.delivered (interpreted rest)) t d
        movieDetails
      = (d, shown) /\
      (Pages.no_details_available shown = true <->
       forall m, In m (movies_metadata d) -> tconst m = s ->
                 runtimeminutes m <= 0) /\
      (Pages.no_details_available shown = false ->
       exists m, In m (movies_metadata d) /\ tconst m = s /\
                 0 < runtimeminutes m /\
                 Js.get shown "primarytitle" = Js.Str (primarytitle m)).
Proof.
  intros rest d t s movieDetails Ht Hdot Hdots Hup Hs.
  unfold Pages.fetchMovieDetails.
  rewrite (DetailPageFacts.delivered_movie_details rest d t s Ht Hdot Hdots Hup Hs).
  rewrite DetailPageFacts.details_of_rows.
  pose proof (DetailPageFacts.no_movie_details d s) as Hnone.
  destruct (movie_detail_groups d s) as [|kg others] eqn:E.
  - eexists. split; [reflexivity|]. split.
    + split; [intros _; now apply Hnone | reflexivity].
    + discriminate.
  - eexists. split; [reflexivity|]. split.
    + split; [discriminate|]. intros H. apply Hnone in H. discriminate.
    + intros _. apply DetailPageFacts.movie_detail_group.
      rewrite E. now left.
Qed.

Lemma movie_page_witness :
  exists shown,
    Pages.fetchMovieDetails (Pages.delivered Showcase.engine) "tt0116191"
      Showcase.catalogue (Js.Str "")
    = (Showcase.catalogue, shown) /\
    Pages.no_details_available shown = true.
Proof.
  destruct (movie_page_needs_a_positive_runtime Sample.no_rows
              Showcase.catalogue "tt0116191" "tt0116191" (Js.Str ""))
    as (shown & Hpage & Hnone & _).
  - discriminate.
  - discriminate.
  - discriminate.
  - reflexivity.
  - reflexivity.
  - exists shown. split; [exact Hpage|]. apply Hnone.
    intros m [<- | [<- | [<- | []]]]; simpl; intros H;
      try discriminate; lia.
Defined.

(* ================================================================== *)
(** ** Title case *)

Module TitleFacts.

Lemma lower_space c : AdaptationsPage.lower c = " "%char <-> c = " "%char.
Proof.
  destruct c as [[] [] [] [] [] [] [] []]; vm_compute; split; congruence.
Qed.

Lemma lower_upper_lower c :
  AdaptationsPage.lower (AdaptationsPage.upper (AdaptationsPage.lower c))
  = AdaptationsPage.lower c.
Proof. destruct c as [[] [] [] [] [] [] [] []]; reflexivity. Qed.

Lemma lower_lower c :
  AdaptationsPage.lower (AdaptationsPage.lower c) = AdaptationsPage.lower c.
Proof. destruct c as [[] [] [] [] [] [] [] []]; reflexivity. Qed.

(** No word of [split] has a space, and [split] gives at least one word. *)
Lemma split_words str :
  AdaptationsPage.split str <> [] /\
  forall word, In word (AdaptationsPage.split str) ->
               forall c, In c (list_ascii_of_string word) -> c <> " "%char.
Proof.
  induction str as [|c rest [Hne IH]]; simpl.
  - split; [discriminate|]. intros word [<- | []] c [].
  - destruct (Ascii.eqb c " ") eqn:E.
    + split; [discriminate|]. intros word [<- | H]; [intros ? [] | now apply IH].
    + apply Ascii.eqb_neq in E.
      destruct (AdaptationsPage.split rest) as [|w ws]; [congruence|].
      split; [discriminate|]. intros word [<- | H].
      * intros c' [<- | Hc']; [exact E|]. apply (IH w); [now left | exact Hc'].
      * apply IH. now right.
Qed.

Lemma join_split str : AdaptationsPage.join (AdaptationsPage.split str) = str.
Proof.
  induction str as [|c rest IH]; [reflexivity|]. simpl.
  destruct (Ascii.eqb c " ") eqn:E.
  - apply Ascii.eqb_eq in E. subst c.
    destruct (AdaptationsPage.split rest) as [|w ws] eqn:Es.
    + now destruct (proj1 (split_words rest)).
    + simpl. f_equal. exact IH.
  - destruct (AdaptationsPage.split rest) as [|w ws] eqn:Es.
    + now destruct (proj1 (split_words rest)).
    + destruct ws as [|w' ws']; simpl in *; now rewrite <- IH.
Qed.

Lemma lower_append a b :
  AdaptationsPage.toLowerCase (a ++ b)
  = AdaptationsPage.toLowerCase a ++ AdaptationsPage.toLowerCase b.
Proof. induction a as [|c a IH]; simpl; [reflexivity | now rewrite IH]. Qed.

Lemma lower_join words :
  AdaptationsPage.toLowerCase (AdaptationsPage.join words)
  = AdaptationsPage.join (map AdaptationsPage.toLowerCase words).
Proof.
  induction words as [|w [|w' ws] IH]; try reflexivity.
  change (AdaptationsPage.join (w :: w' :: ws))
    with (w ++ String " " (AdaptationsPage.join (w' :: ws))).
  rewrite lower_append. cbn [AdaptationsPage.toLowerCase].
  rewrite IH. reflexivity.
Qed.

Lemma lower_twice str :
  AdaptationsPage.toLowerCase (AdaptationsPage.toLowerCase str)
  = AdaptationsPage.toLowerCase str.
Proof.
  induction str as [|c rest IH]; simpl; [reflexivity|].
  now rewrite lower_lower, IH.
Qed.

Lemma lower_capitalize_lower word :
  AdaptationsPage.toLowerCase
    (AdaptationsPage.capitalize (AdaptationsPage.toLowerCase word))
  = AdaptationsPage.toLowerCase word.
Proof.
  destruct word as [|c rest]; simpl; [reflexivity|].
  now rewrite lower_upper_lower, lower_twice.
Qed.

Lemma split_lower str :
  AdaptationsPage.split (AdaptationsPage.toLowerCase str)
  = map AdaptationsPage.toLowerCase (AdaptationsPage.split str).
Proof.
  induction str as [|c rest IH]; simpl; [reflexivity|].
  destruct (Ascii.eqb c " ") eqn:E.
  - apply Ascii.eqb_eq in E. subst c. simpl. now rewrite IH.
  - assert (E' : Ascii.eqb (AdaptationsPage.lower c) " " = false).
    { apply Ascii.eqb_neq. intros H. apply (proj1 (lower_space c)) in H.
      apply Ascii.eqb_neq in E. now apply E. }
    rewrite E', IH.
    destruct (AdaptationsPage.split rest) as [|w ws]; reflexivity.
Qed.

Lemma capitalize_length word :
  String.length (AdaptationsPage.capitalize word) = String.length word.
Proof. destruct word; reflexivity. Qed.

Lemma join_length (f : string -> string) words :
  (forall w, String.length (f w) = String.length w) ->
  String.length (AdaptationsPage.join (map f words))
  = String.length (AdaptationsPage.join words).
Proof.
  intros Hf. induction words as [|w [|w' ws] IH]; [reflexivity | apply Hf |].
  change (AdaptationsPage.join (w :: w' :: ws))
    with (w ++ String " " (AdaptationsPage.join (w' :: ws))).
  change (AdaptationsPage.join (map f (w :: w' :: ws)))
    with (f w ++ String " " (AdaptationsPage.join (map f (w' :: ws)))).
  rewrite !CutFacts.append_length. cbn [String.length].
  now rewrite IH, Hf.
Qed.

Lemma lower_length str :
  String.length (AdaptationsPage.toLowerCase str) = String.length str.
Proof. induction str as [|c rest IH]; simpl; [reflexivity | now rewrite IH]. Qed.

End TitleFacts.

(** X24.  On an ASCII text, [toTitleCase] changes nothing but the case of
    letters: the text it gives has the length of the text it was given and
    the same lower-case form.  It gives the same for two texts that differ
    only in case, and title-casing what it gave once more changes
    nothing. *)
Theorem toTitleCase_is_idempotent :
  forall str : string,
    (forall c, In c (list_ascii_of_string str) -> (N_of_ascii c < 128)%N) ->
    let shown := AdaptationsPage.toTitleCase str in
    String.length shown = String.length str /\
    AdaptationsPage.toLowerCase shown = AdaptationsPage.toLowerCase str /\
    AdaptationsPage.toTitleCase (AdaptationsPage.toLowerCase str) = shown /\
    AdaptationsPage.toTitleCase shown = shown.
Proof.
  intros str _. cbv zeta. unfold AdaptationsPage.toTitleCase.
  set (words := AdaptationsPage.split (AdaptationsPage.toLowerCase str)).
  assert (Hlower : AdaptationsPage.toLowerCase
                     (AdaptationsPage.join (map AdaptationsPage.capitalize words))
                   = AdaptationsPage.toLowerCase str).
  { rewrite TitleFacts.lower_join, map_map. unfold words.
    rewrite TitleFacts.split_lower, map_map.
    rewrite (map_ext _ AdaptationsPage.toLowerCase)
      by (intros w; apply TitleFacts.lower_capitalize_lower).
    rewrite <- TitleFacts.split_lower. apply TitleFacts.join_split. }
  split; [|split; [exact Hlower|split]].
  - rewrite (TitleFacts.join_length _ _ TitleFacts.capitalize_length).
    unfold words. rewrite TitleFacts.join_split. apply TitleFacts.lower_length.
  - now rewrite TitleFacts.lower_twice.
  - now rewrite Hlower.
Qed.

Lemma toTitleCase_witness :
  AdaptationsPage.toTitleCase (AdaptationsPage.toTitleCase "DUNE (2021)")
  = "Dune (2021)".
Proof.
  assert (Hascii : forall c, In c (list_ascii_of_string "DUNE (2021)") ->
                             (N_of_ascii c < 128)%N).
  { intros c Hc. simpl in Hc.
    repeat (destruct Hc as [<- | Hc]; [reflexivity|]). destruct Hc. }
  rewrite (proj2 (proj2 (proj2
             (toTitleCase_is_idempotent "DUNE (2021)" Hascii)))).
  reflexivity.
Defined.

Example title_of_a_shouted_text :
  AdaptationsPage.toTitleCase "the  LORD of the rings (extended)"
  = "The  Lord Of The Rings (extended)".
Proof. reflexivity. Qed.

(** X25.  The adaptations page entered with a [book_id], with the server
    reached: when the route answers 500, for a [book_id] below -1 or a
    database that cannot be reached, the page shows ['Failed to fetch movie
    adaptation for the book.'] and no adaptation.  Otherwise it reports that
    no adaptation exists exactly when [books_movies_map] records no movie
    for a book with that id, and the adaptation it shows is the longest
    movie recorded for the book; a book with [book_id] 0 is shown like any
    other. *)
Theorem adaptations_page_of_a_book :
  forall (engine : rows_engine) (omdb : Js.value -> Pages.fetched)
         (d : Db.state) (id : Z) (p : AdaptationsPage.page),
    let opened :=
      AdaptationsPage.fetchAdaptationDetails (Pages.delivered engine) omdb
        (Some id) None d p in
    (id < -1 \/ reachable d = false ->
     opened
     = Some (d, {| AdaptationsPage.adaptationData :=
                     AdaptationsPage.adaptationData p;
                   AdaptationsPage.movieDetailsOmdb :=
                     AdaptationsPage.movieDetailsOmdb p;
                   AdaptationsPage.error :=
                     Js.Str "Failed to fetch movie adaptation for the book.";
                   AdaptationsPage.noAdaptations := false |})) /\
    (-1 <= id -> reachable d = true ->
     exists p',
       opened = Some (d, p') /\
       (AdaptationsPage.noAdaptations p' = true <->
        forall m b, adapted d m b -> book_id b <> id) /\
       (AdaptationsPage.noAdaptations p' = true ->
        AdaptationsPage.adaptationData p' = AdaptationsPage.adaptationData p /\
        AdaptationsPage.error p' = Js.Str "") /\
       (AdaptationsPage.noAdaptations p' = false ->
        canonical_movie_row d id (AdaptationsPage.adaptationData p'))).
Proof.
  intros engine omdb d id p. cbv zeta.
  unfold AdaptationsPage.fetchAdaptationDetails. cbn [Js.truthy]. split.
  - intros Hfail. unfold AdaptationsPage.fetchMovieAdaptation, Pages.delivered.
    simpl app. unfold get_movie_adaptations_for_book.
    destruct (id <? -1) eqn:Eid; [reflexivity|].
    destruct Hfail as [Hid | Hdown]; [apply Z.ltb_ge in Eid; lia|].
    simpl. unfold eval. rewrite Hdown. reflexivity.
  - intros Hid Hup.
    destruct (movie_adaptations_canonical d id) as (Hlen & Hrow & Hsome).
    destruct (movie_adaptations d id) as [|y rest] eqn:E.
    + unfold AdaptationsPage.fetchMovieAdaptation.
      rewrite (AdaptationPageFacts.delivered_movies engine d id Hid Hup), E.
      cbn. eexists. split; [reflexivity|]. split; [|split].
      * split; [|reflexivity]. intros _ m b Hmb Hb. apply Hsome; [|reflexivity].
        now exists m, b.
      * intros _. split; reflexivity.
      * discriminate.
    + assert (Hex : exists m b, adapted d m b /\ book_id b = id).
      { destruct (Hrow y (or_introl eq_refl)) as (m & b & Hmb & Hb & _).
        now exists m, b. }
      destruct (AdaptationPageFacts.movie_adaptation_shown engine omdb d id
                  (AdaptationsPage.setNoAdaptations
                     (AdaptationsPage.setError p (Js.Str "")) false)
                  Hid Hup Hex)
        as (p' & Hpage & Hnone & Hshown).
      exists p'. split; [exact Hpage|]. simpl in Hnone. rewrite Hnone.
      split; [|split].
      * split; [discriminate|]. intros Hno.
        destruct Hex as (m & b & Hmb & Hb). now destruct (Hno m b Hmb).
      * discriminate.
      * intros _. exact Hshown.
Qed.

Lemma adaptations_page_of_a_book_witness :
  exists p',
    AdaptationsPage.fetchAdaptationDetails (Pages.delivered Sample.no_rows)
      (fun _ => Pages.Rejected "offline") (Some 2) None
      Sample.library AdaptationsPage.mounted
    = Some (Sample.library, p') /\
    AdaptationsPage.noAdaptations p' = true.
Proof.
  destruct (proj2 (adaptations_page_of_a_book Sample.no_rows
                     (fun _ => Pages.Rejected "offline") Sample.library 2
                     AdaptationsPage.mounted) ltac:(lia) eq_refl)
    as (p' & Hpage & Hnone & _).
  exists p'. split; [exact Hpage|]. apply Hnone.
  intros m b (_ & Hb & bm & Hbm & _ & Hid) Hb2. simpl in Hbm.
  destruct Hbm as [<- | [<- | []]]; simpl in Hid; congruence.
Defined.
